(** * AgriSense: CAN bus transport, irrigation and fertilization controllers

    A shallow embedding of [src/protocols/isobus_simulator.py],
    [src/actuators/irrigation.py] and [src/actuators/fertilizer.py], and the
    properties of the design document checked against it.

    Conventions of the embedding.
    - A Python [int] is a [Z].  Outside the binary64 parts named next, a
      Python [float] is a rational [Q]: a finite number, with exact
      arithmetic and equality [Qeq] ([==]).  What is stated over rationals
      is stated of calls whose float arguments are finite numbers, and an
      equality there gives the exact value of which the program stores the
      binary64 rounding.
    - Where what is stated depends on the rounding of binary64 or on values
      that are not numbers, the code is embedded on binary64 itself
      ([float], with the builtins of module [B64]): [send_sensor_data],
      the controller of [IrrigationSystem64] and the
      [recommend_fertilizer] of [FertilizerSystem64].
    - A method [m(self, args)] is a function from the object before the call
      to the returned value and the object after the call.  A method that can
      raise returns an [outcome]; the object after the call is returned also
      when it raises.
    - [time.time()] and [datetime.now()] are read from a clock argument [now];
      a draw of [random.uniform(-0.2, 0.2)] is an argument [jitter].
    - [print] calls are not modelled. *)

From Stdlib Require Import ZArith QArith Qround Qminmax Lia Lqa String.
From Stdlib.Strings Require Import Byte Ascii.
From Stdlib Require Import Floats.
From Stdlib Require Uint63.
From stdpp Require Import gmap strings list fin_maps.

Local Open Scope Z_scope.

(** ** Python values *)

(** The result of a call that may raise an exception of type [E]. *)
Inductive outcome (E A : Type) : Type :=
| Return (a : A)
| Raise (e : E).
Arguments Return {E A} a.
Arguments Raise {E A} e.

Module Py.

(** [x < y] on floats. *)
Definition Qltb (x y : Q) : bool := negb (Qle_bool y x).

(** Nearest integer, ties to the even neighbour. *)
Definition round_half_even (x : Q) : Z :=
  let f := Qfloor x in
  match Qcompare (x - inject_Z f) (1 # 2) with
  | Lt => f
  | Gt => f + 1
  | Eq => if Z.even f then f else f + 1
  end.

(** [round(x, ndigits)] for [ndigits >= 0]: Python rounds a float to the
    closest multiple of [10^-ndigits], ties to even. *)
Definition round (x : Q) (ndigits : nat) : Q :=
  let scale := inject_Z (10 ^ Z.of_nat ndigits) in
  (inject_Z (round_half_even (x * scale)) / scale)%Q.

(** [bytes([v])] for [v] already masked to [0..255]. *)
Definition byte_of_Z (v : Z) : byte :=
  match Byte.of_N (Z.to_N (v mod 256)) with
  | Some b => b
  | None => x00
  end.

(** [n.to_bytes(4, byteorder='little', signed=True)]; [None] stands for the
    [OverflowError] raised when [n] does not fit 32 signed bits. *)
Definition to_bytes4_le_signed (n : Z) : option (list byte) :=
  if (- 2 ^ 31 <=? n) && (n <? 2 ^ 31) then
    Some [ byte_of_Z (Z.land n 255);
           byte_of_Z (Z.land (Z.shiftr n 8) 255);
           byte_of_Z (Z.land (Z.shiftr n 16) 255);
           byte_of_Z (Z.land (Z.shiftr n 24) 255) ]
  else None.

End Py.

(** ** Python floats as binary64 *)

Module B64.

(** What [int(x)] raises on a float that is not finite: the [ValueError] of
    a NaN and the [OverflowError] of an infinity. *)
Inductive int_error : Type :=
| NaNToInteger
| InfinityToInteger.

(** The rational [m * 2^e], the absolute value of a finite float. *)
Definition magnitude (m : positive) (e : Z) : Q :=
  if 0 <=? e then inject_Z (Z.pos m * 2 ^ e)
  else Z.pos m # (2 ^ Z.to_pos (- e)).

(** [max(0, x)]: [x] when [x > 0], else the first argument. *)
Definition max0 (x : float) : float :=
  if PrimFloat.ltb 0 x then x else 0%float.

(** [min(a, b)]: [b] when [b < a], else the first argument. *)
Definition min (a b : float) : float :=
  if PrimFloat.ltb b a then b else a.

(** [round(x, 1)]: a float that is not finite or is zero is returned as it
    is; otherwise the exact value is rounded to the closest multiple of
    [0.1], ties to even, and the result is the float closest to that
    decimal. *)
Definition round1 (x : float) : float :=
  match Prim2SF x with
  | S754_finite s m e =>
      match Py.round_half_even (magnitude m e * 10) with
      | Z.pos k =>
          SF2Prim (SFdiv prec emax (S754_finite s k 0) (S754_finite false 10 0))
      | _ => SF2Prim (S754_zero s)
      end
  | _ => x
  end.

(** [int(x)]: truncation toward zero of the exact value. *)
Definition int (x : float) : outcome int_error Z :=
  match Prim2SF x with
  | S754_nan => Raise NaNToInteger
  | S754_infinity _ => Raise InfinityToInteger
  | S754_zero _ => Return 0
  | S754_finite s m e =>
      let t := if 0 <=? e then Z.pos m * 2 ^ e else Z.pos m / 2 ^ (- e) in
      Return (if s then - t else t)
  end.

(** [sum(values)] as the interpreter computes it up to Python 3.11: from
    the integer 0, from left to right, each partial sum rounded.  (From
    Python 3.12 on the builtin carries a compensation term along float
    sums, and its result can differ in the last bit.) *)
Definition sum (values : list float) : float :=
  foldl PrimFloat.add 0%float values.

(** [float(n)] for an [int], as mixed arithmetic converts it: the closest
    float.  An [int] is below [2^63] in magnitude here: the integers
    converted are counts of dictionary entries. *)
Definition of_int (n : Z) : float :=
  if n <? 0 then (- PrimFloat.of_uint63 (Uint63.of_Z (- n)))%float
  else PrimFloat.of_uint63 (Uint63.of_Z n).

(** The sign bit is clear, or the value is not a number. *)
Definition sign_clear (x : spec_float) : bool :=
  match x with
  | S754_zero s | S754_infinity s | S754_finite s _ _ => negb s
  | S754_nan => true
  end.

(** The value is not below zero: a zero of either sign, a positive number or
    infinity, or not a number. *)
Definition not_negative (x : spec_float) : bool :=
  match x with
  | S754_infinity s | S754_finite s _ _ => negb s
  | _ => true
  end.

End B64.

(** ** [isobus_simulator.py]: frames *)

Inductive CANBaudRate : Type :=
| RATE_125K
| RATE_250K
| RATE_500K
| RATE_1M.

Definition CANBaudRate_value (b : CANBaudRate) : Z :=
  match b with
  | RATE_125K => 125000
  | RATE_250K => 250000
  | RATE_500K => 500000
  | RATE_1M => 1000000
  end.

Module CANMessage.

(** The [ValueError]s of the constructor.  [InvalidPayloadLength] is the one
    raised for [len(data) > 8]; [IdentifierOutOfRange ext] is the one raised
    for an identifier above the bound of the addressing mode [ext]. *)
Inductive ValueError : Type :=
| InvalidPayloadLength
| IdentifierOutOfRange (is_extended : bool).

Record t : Type := mk {
  can_id : Z;
  data : list byte;
  is_extended : bool;
  timestamp : Q;
  dlc : Z
}.

(** [CANMessage.__init__] *)
Definition init (now : Q) (can_id : Z) (data : list byte) (is_extended : bool)
  : outcome ValueError t :=
  if 8 <? Z.of_nat (length data) then Raise InvalidPayloadLength
  else if is_extended then
    if 0x1FFFFFFF <? can_id then Raise (IdentifierOutOfRange true)
    else Return (mk can_id data is_extended now (Z.of_nat (length data)))
  else
    if 0x7FF <? can_id then Raise (IdentifierOutOfRange false)
    else Return (mk can_id data is_extended now (Z.of_nat (length data))).

(** The identifier range the class documents for an addressing mode. *)
Definition documented_range (is_extended : bool) (can_id : Z) : Prop :=
  0 <= can_id <= (if is_extended then 0x1FFFFFFF else 0x7FF).

End CANMessage.

(** ** [isobus_simulator.py]: the bus controller *)

Module CANProtocol.

(** An entry of [self.errors]. *)
Record error_entry : Type := mk_error {
  err_timestamp : Q;
  err_error : CANMessage.ValueError
}.

Record t : Type := mk {
  bus_id : string;
  baudrate : CANBaudRate;
  node_address : Z;
  is_active : bool;
  bus_load : Q;
  error_count : Z;
  tx_buffer : list CANMessage.t;
  rx_buffer : list CANMessage.t;
  messages_sent : Z;
  messages_received : Z;
  errors : list error_entry;
  rx_filters : list Z
}.

(** [CANProtocol.__init__] *)
Definition init (bus_id : string) (baudrate : CANBaudRate) (node_address : Z) : t :=
  mk bus_id baudrate node_address false 0%Q 0 [] [] 0 0 [] [].

Definition set_is_active (v : bool) (s : t) : t :=
  mk (bus_id s) (baudrate s) (node_address s) v (bus_load s) (error_count s)
     (tx_buffer s) (rx_buffer s) (messages_sent s) (messages_received s)
     (errors s) (rx_filters s).

Definition set_bus_load (v : Q) (s : t) : t :=
  mk (bus_id s) (baudrate s) (node_address s) (is_active s) v (error_count s)
     (tx_buffer s) (rx_buffer s) (messages_sent s) (messages_received s)
     (errors s) (rx_filters s).

Definition set_error_count (v : Z) (s : t) : t :=
  mk (bus_id s) (baudrate s) (node_address s) (is_active s) (bus_load s) v
     (tx_buffer s) (rx_buffer s) (messages_sent s) (messages_received s)
     (errors s) (rx_filters s).

Definition set_tx_buffer (v : list CANMessage.t) (s : t) : t :=
  mk (bus_id s) (baudrate s) (node_address s) (is_active s) (bus_load s)
     (error_count s) v (rx_buffer s) (messages_sent s) (messages_received s)
     (errors s) (rx_filters s).

Definition set_rx_buffer (v : list CANMessage.t) (s : t) : t :=
  mk (bus_id s) (baudrate s) (node_address s) (is_active s) (bus_load s)
     (error_count s) (tx_buffer s) v (messages_sent s) (messages_received s)
     (errors s) (rx_filters s).

Definition set_messages_sent (v : Z) (s : t) : t :=
  mk (bus_id s) (baudrate s) (node_address s) (is_active s) (bus_load s)
     (error_count s) (tx_buffer s) (rx_buffer s) v (messages_received s)
     (errors s) (rx_filters s).

Definition set_messages_received (v : Z) (s : t) : t :=
  mk (bus_id s) (baudrate s) (node_address s) (is_active s) (bus_load s)
     (error_count s) (tx_buffer s) (rx_buffer s) (messages_sent s) v
     (errors s) (rx_filters s).

Definition set_errors (v : list error_entry) (s : t) : t :=
  mk (bus_id s) (baudrate s) (node_address s) (is_active s) (bus_load s)
     (error_count s) (tx_buffer s) (rx_buffer s) (messages_sent s)
     (messages_received s) v (rx_filters s).

Definition set_rx_filters (v : list Z) (s : t) : t :=
  mk (bus_id s) (baudrate s) (node_address s) (is_active s) (bus_load s)
     (error_count s) (tx_buffer s) (rx_buffer s) (messages_sent s)
     (messages_received s) (errors s) v.

(** [start]: activates the bus and resets the error counter. *)
Definition start (s : t) : t :=
  set_error_count 0 (set_is_active true s).

(** [stop] *)
Definition stop (s : t) : t :=
  set_is_active false s.

(** The load formula of [_update_bus_load], for [n] buffered messages. *)
Definition load_formula (n : Z) (baud : CANBaudRate) : Q :=
  let bits_per_sec := n * 130 in
  Qmin 100 ((inject_Z bits_per_sec / inject_Z (CANBaudRate_value baud)) * 100)%Q.

(** [_update_bus_load] *)
Definition _update_bus_load (s : t) : t :=
  let messages_per_sec :=
    Z.of_nat (length (tx_buffer s)) + Z.of_nat (length (rx_buffer s)) in
  set_bus_load (load_formula messages_per_sec (baudrate s)) s.

(** [send_message].  The [try] block catches the [ValueError] of the frame
    constructor; nothing else in it raises. *)
Definition send_message (now : Q) (s : t)
    (can_id : Z) (data : list byte) (is_extended : bool) : bool * t :=
  if negb (is_active s) then (false, s)
  else
    match CANMessage.init now can_id data is_extended with
    | Return message =>
        let s1 := set_tx_buffer (tx_buffer s ++ [message]) s in
        let s2 := set_messages_sent (messages_sent s1 + 1) s1 in
        (true, _update_bus_load s2)
    | Raise e =>
        let s1 := set_error_count (error_count s + 1) s in
        (false, set_errors (errors s1 ++ [mk_error now e]) s1)
    end.

(** [receive_message] *)
Definition receive_message (s : t) : option CANMessage.t * t :=
  if negb (is_active s) then (None, s)
  else
    match rx_buffer s with
    | message :: rest =>
        let s1 := set_rx_buffer rest s in
        (Some message, set_messages_received (messages_received s1 + 1) s1)
    | [] => (None, s)
    end.

(** [can_id not in self.rx_filters] *)
Definition not_in_filters (can_id : Z) (filters : list Z) : bool :=
  negb (existsb (Z.eqb can_id) filters).

(** [simulate_incoming_message].  The frame constructor is called outside
    any [try], so its [ValueError] reaches the caller. *)
Definition simulate_incoming_message (now : Q) (s : t)
    (can_id : Z) (data : list byte) (is_extended : bool)
  : outcome CANMessage.ValueError unit * t :=
  if negb (is_active s) then (Return tt, s)
  else if negb (Nat.eqb (length (rx_filters s)) 0)
          && not_in_filters can_id (rx_filters s) then (Return tt, s)
  else
    match CANMessage.init now can_id data is_extended with
    | Return message =>
        (Return tt, set_rx_buffer (rx_buffer s ++ [message]) s)
    | Raise e => (Raise e, s)
    end.

(** [add_rx_filter] *)
Definition add_rx_filter (s : t) (can_id : Z) : t :=
  if not_in_filters can_id (rx_filters s)
  then set_rx_filters (rx_filters s ++ [can_id]) s
  else s.

(** [clear_rx_filters] *)
Definition clear_rx_filters (s : t) : t :=
  set_rx_filters [] s.

(** [sensor_ids.get(sensor_type, 0x1FF)] *)
Definition sensor_id (sensor_type : string) : Z :=
  if String.eqb sensor_type "temperature" then 0x100
  else if String.eqb sensor_type "humidity" then 0x101
  else if String.eqb sensor_type "pressure" then 0x102
  else if String.eqb sensor_type "soil_moisture" then 0x103
  else if String.eqb sensor_type "npk" then 0x104
  else 0x1FF.

(** What [send_sensor_data] can raise: the [ValueError] of [int] on a NaN,
    the [OverflowError] of [int] on an infinity and the [OverflowError] of
    [int.to_bytes] on an integer that does not fit. *)
Inductive sensor_error : Type :=
| CannotConvertNaN
| CannotConvertInfinity
| IntTooBigToConvert.

(** [send_sensor_data]; [value * 100] is a binary64 product. *)
Definition send_sensor_data (now : Q) (s : t)
    (sensor_type : string) (value : float) : outcome sensor_error bool * t :=
  let can_id := sensor_id sensor_type in
  match B64.int (value * 100)%float with
  | Raise B64.NaNToInteger => (Raise CannotConvertNaN, s)
  | Raise B64.InfinityToInteger => (Raise CannotConvertInfinity, s)
  | Return n =>
      match Py.to_bytes4_le_signed n with
      | None => (Raise IntTooBigToConvert, s)
      | Some data4 =>
          let data := data4 ++ [x00; x00; x00; x00] in
          let (sent, s') := send_message now s can_id data false in
          (Return sent, s')
      end
  end.

(** [actuator_ids.get(actuator_type, 0x2FF)] *)
Definition actuator_id (actuator_type : string) : Z :=
  if String.eqb actuator_type "irrigation" then 0x200
  else if String.eqb actuator_type "fertilizer" then 0x201
  else if String.eqb actuator_type "valve" then 0x202
  else 0x2FF.

(** [commands.get(command, 0x00)] *)
Definition command_byte (command : string) : Z :=
  if String.eqb command "start" then 0x01
  else if String.eqb command "stop" then 0x02
  else if String.eqb command "set_rate" then 0x03
  else if String.eqb command "status" then 0x04
  else 0x00.

(** [send_actuator_command] *)
Definition send_actuator_command (now : Q) (s : t)
    (actuator_type command : string) (value : Z) : bool * t :=
  let can_id := actuator_id actuator_type in
  let cmd_byte := command_byte command in
  let data :=
    [ Py.byte_of_Z cmd_byte;
      Py.byte_of_Z (Z.land (Z.shiftr value 8) 0xFF);
      Py.byte_of_Z (Z.land value 0xFF);
      x00; x00; x00; x00; x00 ] in
  send_message now s can_id data false.

(** The numeric part of the [get_status] snapshot (the address and the
    filters are rendered as hexadecimal text by the source). *)
Record status : Type := mk_status {
  st_is_active : bool;
  st_baudrate : Z;
  st_bus_load_percent : Q;
  st_messages_sent : Z;
  st_messages_received : Z;
  st_error_count : Z;
  st_tx_buffer_size : Z;
  st_rx_buffer_size : Z
}.

(** [get_status] *)
Definition get_status (s : t) : status :=
  mk_status (is_active s) (CANBaudRate_value (baudrate s))
    (Py.round (bus_load s) 2) (messages_sent s) (messages_received s)
    (error_count s)
    (Z.of_nat (length (tx_buffer s))) (Z.of_nat (length (rx_buffer s))).

Record statistics : Type := mk_statistics {
  stat_total_messages : Z;
  stat_messages_sent : Z;
  stat_messages_received : Z;
  stat_error_count : Z;
  stat_error_rate_percent : Q;
  stat_average_bus_load : Q
}.

(** [get_statistics] *)
Definition get_statistics (s : t) : statistics :=
  let total_messages := messages_sent s + messages_received s in
  let error_rate :=
    ((inject_Z (error_count s) / inject_Z (Z.max total_messages 1)) * 100)%Q in
  mk_statistics total_messages (messages_sent s) (messages_received s)
    (error_count s) (Py.round error_rate 2) (Py.round (bus_load s) 2).

(** One call of a method of the controller, with its arguments. *)
Inductive op : Type :=
| OpStart
| OpStop
| OpSendMessage (can_id : Z) (data : list byte) (is_extended : bool)
| OpReceiveMessage
| OpSimulateIncomingMessage (can_id : Z) (data : list byte) (is_extended : bool)
| OpAddRxFilter (can_id : Z)
| OpClearRxFilters
| OpUpdateBusLoad
| OpSendSensorData (sensor_type : string) (value : float)
| OpSendActuatorCommand (actuator_type command : string) (value : Z)
| OpGetStatus
| OpGetStatistics.

(** The object after the call [o] made at time [now]. *)
Definition step (now : Q) (o : op) (s : t) : t :=
  match o with
  | OpStart => start s
  | OpStop => stop s
  | OpSendMessage can_id data ext => snd (send_message now s can_id data ext)
  | OpReceiveMessage => snd (receive_message s)
  | OpSimulateIncomingMessage can_id data ext =>
      snd (simulate_incoming_message now s can_id data ext)
  | OpAddRxFilter can_id => add_rx_filter s can_id
  | OpClearRxFilters => clear_rx_filters s
  | OpUpdateBusLoad => _update_bus_load s
  | OpSendSensorData sensor_type value =>
      snd (send_sensor_data now s sensor_type value)
  | OpSendActuatorCommand actuator_type command value =>
      snd (send_actuator_command now s actuator_type command value)
  | OpGetStatus => s
  | OpGetStatistics => s
  end.

(** Whether the call is [start()]. *)
Definition op_eq_start (o : op) : {o = OpStart} + {o <> OpStart}.
Proof. destruct o; (left; reflexivity) || (right; discriminate). Defined.

(** The three counters do not decrease from [s] to [s']. *)
Definition counters_le (s s' : t) : Prop :=
  messages_sent s <= messages_sent s'
  /\ messages_received s <= messages_received s'
  /\ error_count s <= error_count s'.

(** [bus_load] agrees with the load formula on the buffers of [s]. *)
Definition load_in_sync (s : t) : Prop :=
  (bus_load s ==
   load_formula (Z.of_nat (length (tx_buffer s)) + Z.of_nat (length (rx_buffer s)))
                (baudrate s))%Q.

(** A history of calls, each with the clock value it reads. *)
Definition run (calls : list (Q * op)) (s : t) : t :=
  foldl (fun st c => step (fst c) (snd c) st) s calls.

(** [simulate_incoming_message] called for each frame of [frames] in turn. *)
Definition inject_all (now : Q) (frames : list (Z * list byte * bool)) (s : t) : t :=
  foldl (fun st f =>
           snd (simulate_incoming_message now st (fst (fst f)) (snd (fst f)) (snd f)))
        s frames.

(** [n] calls of [receive_message] in a row: what each returned, in order,
    and the object after the last. *)
Fixpoint receive_n (n : nat) (s : t) : list (option CANMessage.t) * t :=
  match n with
  | O => ([], s)
  | S k =>
      let (got, s1) := receive_message s in
      let (rest, s2) := receive_n k s1 in
      (got :: rest, s2)
  end.

(** The frame [CANMessage(can_id, data, is_extended)] built at time [now]. *)
Definition frame_of (now : Q) (f : Z * list byte * bool) : CANMessage.t :=
  CANMessage.mk (fst (fst f)) (snd (fst f)) (snd f) now
                (Z.of_nat (length (snd (fst f)))).

(** What the frame constructor accepts. *)
Definition constructible (f : Z * list byte * bool) : Prop :=
  (length (snd (fst f)) <= 8)%nat
  /\ fst (fst f) <= (if snd f then 0x1FFFFFFF else 0x7FF).

(** A frame as the constructor builds them. *)
Definition frame_ok (m : CANMessage.t) : Prop :=
  (length (CANMessage.data m) <= 8)%nat
  /\ CANMessage.dlc m = Z.of_nat (length (CANMessage.data m))
  /\ CANMessage.can_id m
     <= (if CANMessage.is_extended m then 0x1FFFFFFF else 0x7FF).

(** The calls that send, receive or inject a frame. *)
Definition moves_frames (o : op) : Prop :=
  match o with
  | OpSendMessage _ _ _ | OpReceiveMessage | OpSimulateIncomingMessage _ _ _
  | OpSendSensorData _ _ | OpSendActuatorCommand _ _ _ => True
  | _ => False
  end.

(** The receive filters let [can_id] through. *)
Definition filters_accept (s : t) (can_id : Z) : Prop :=
  rx_filters s = [] \/ In can_id (rx_filters s).

(** What holds of the controller after any history of calls. *)
Definition consistent (s : t) : Prop :=
  messages_sent s = Z.of_nat (length (tx_buffer s))
  /\ 0 <= messages_received s
  /\ 0 <= error_count s <= Z.of_nat (length (errors s))
  /\ Forall frame_ok (tx_buffer s)
  /\ Forall frame_ok (rx_buffer s)
  /\ NoDup (rx_filters s)
  /\ (0 <= bus_load s <= 100)%Q.

End CANProtocol.

(** ** Reading payloads back

    What a receiver of a frame computes from its payload bytes. *)

Module Wire.

(** The value of a byte, [0..255]. *)
Definition byte_val (b : byte) : Z := Z.of_N (Byte.to_N b).

(** [int.from_bytes(bs, byteorder='little', signed=False)] *)
Definition from_bytes_le (bs : list byte) : Z :=
  fold_right (fun b acc => byte_val b + 256 * acc) 0 bs.

(** [int.from_bytes(bs, byteorder='little', signed=True)] for 4 bytes. *)
Definition from_bytes4_le_signed (bs : list byte) : Z :=
  let u := from_bytes_le bs in
  if u <? 2 ^ 31 then u else u - 2 ^ 32.

(** [(hi << 8) | lo] for two bytes. *)
Definition from_bytes2_be (hi lo : byte) : Z :=
  256 * byte_val hi + byte_val lo.

End Wire.

(** ** [irrigation.py] *)

Inductive IrrigationMode : Type :=
| IRR_MANUAL
| IRR_AUTOMATIC
| IRR_SCHEDULED
| IRR_OFF.

Definition IrrigationMode_eqb (a b : IrrigationMode) : bool :=
  match a, b with
  | IRR_MANUAL, IRR_MANUAL | IRR_AUTOMATIC, IRR_AUTOMATIC
  | IRR_SCHEDULED, IRR_SCHEDULED | IRR_OFF, IRR_OFF => true
  | _, _ => false
  end.

Module IrrigationSystem.

(** [zones_status] is the dictionary from zone number to valve state.
    [last_irrigation] and [next_scheduled] are [None] or a time. *)
Record t : Type := mk {
  system_id : string;
  num_zones : Z;
  max_flow_rate : Q;
  is_active : bool;
  mode : IrrigationMode;
  current_flow_rate : Q;
  current_pressure : Q;
  total_volume : Q;
  zones_status : gmap Z bool;
  operation_time : Q;
  last_irrigation : option Q;
  next_scheduled : option Q;
  target_soil_moisture : Q;
  schedule_times : list string
}.

(** [{i: False for i in range(1, zones + 1)}] *)
Definition all_closed (zones : Z) : gmap Z bool :=
  list_to_map ((fun i => (i, false)) <$> seqZ 1 zones).

(** [IrrigationSystem.__init__] *)
Definition init (system_id : string) (zones : Z) (max_flow_rate : Q) : t :=
  mk system_id zones max_flow_rate false IRR_OFF 0%Q 0%Q 0%Q
     (all_closed zones) 0%Q None None 50%Q [].

Definition set_activity (a : bool) (m : IrrigationMode) (s : t) : t :=
  mk (system_id s) (num_zones s) (max_flow_rate s) a m
     (current_flow_rate s) (current_pressure s) (total_volume s)
     (zones_status s) (operation_time s) (last_irrigation s)
     (next_scheduled s) (target_soil_moisture s) (schedule_times s).

Definition set_flow_pressure (f p : Q) (s : t) : t :=
  mk (system_id s) (num_zones s) (max_flow_rate s) (is_active s) (mode s)
     f p (total_volume s)
     (zones_status s) (operation_time s) (last_irrigation s)
     (next_scheduled s) (target_soil_moisture s) (schedule_times s).

Definition set_zones_status (z : gmap Z bool) (s : t) : t :=
  mk (system_id s) (num_zones s) (max_flow_rate s) (is_active s) (mode s)
     (current_flow_rate s) (current_pressure s) (total_volume s)
     z (operation_time s) (last_irrigation s)
     (next_scheduled s) (target_soil_moisture s) (schedule_times s).

Definition set_total_volume (v : Q) (s : t) : t :=
  mk (system_id s) (num_zones s) (max_flow_rate s) (is_active s) (mode s)
     (current_flow_rate s) (current_pressure s) v
     (zones_status s) (operation_time s) (last_irrigation s)
     (next_scheduled s) (target_soil_moisture s) (schedule_times s).

Definition set_operation_time (v : Q) (s : t) : t :=
  mk (system_id s) (num_zones s) (max_flow_rate s) (is_active s) (mode s)
     (current_flow_rate s) (current_pressure s) (total_volume s)
     (zones_status s) v (last_irrigation s)
     (next_scheduled s) (target_soil_moisture s) (schedule_times s).

Definition set_last_irrigation (v : option Q) (s : t) : t :=
  mk (system_id s) (num_zones s) (max_flow_rate s) (is_active s) (mode s)
     (current_flow_rate s) (current_pressure s) (total_volume s)
     (zones_status s) (operation_time s) v
     (next_scheduled s) (target_soil_moisture s) (schedule_times s).

(** [start] *)
Definition start (s : t) (mode : IrrigationMode) : t :=
  set_activity true mode s.

(** [stop] *)
Definition stop (s : t) : t :=
  let s1 := set_activity false IRR_OFF s in
  let s2 := set_flow_pressure 0%Q 0%Q s1 in
  set_zones_status ((fun _ => false) <$> zones_status s2) s2.

(** [sum(1 for status in self.zones_status.values() if status)] *)
Definition active_zones (zones : gmap Z bool) : Z :=
  Z.of_nat (length (filter (fun kv => snd kv = true) (map_to_list zones))).

(** [_update_flow_and_pressure].  The division by [num_zones] is reached
    only when a zone is open; [num_zones_positive_of_open] below shows that
    [num_zones] is then positive on every well-formed object, so the
    [ZeroDivisionError] of that division cannot occur there. *)
Definition _update_flow_and_pressure (jitter : Q) (s : t) : t :=
  let n := active_zones (zones_status s) in
  if n =? 0 then set_flow_pressure 0%Q 0%Q s
  else
    let flow :=
      Qmin (max_flow_rate s)
           (inject_Z n * (max_flow_rate s / inject_Z (num_zones s)))%Q in
    let base_pressure := 2.5%Q in
    set_flow_pressure flow (base_pressure + jitter)%Q s.

(** [zone_number not in self.zones_status] *)
Definition unknown_zone (s : t) (zone_number : Z) : bool :=
  match zones_status s !! zone_number with
  | Some _ => false
  | None => true
  end.

(** [open_zone] *)
Definition open_zone (jitter : Q) (s : t) (zone_number : Z) : bool * t :=
  if negb (is_active s) then (false, s)
  else if unknown_zone s zone_number then (false, s)
  else
    let s1 := set_zones_status (<[zone_number := true]> (zones_status s)) s in
    (true, _update_flow_and_pressure jitter s1).

(** [close_zone] *)
Definition close_zone (jitter : Q) (s : t) (zone_number : Z) : bool * t :=
  if unknown_zone s zone_number then (false, s)
  else
    let s1 := set_zones_status (<[zone_number := false]> (zones_status s)) s in
    (true, _update_flow_and_pressure jitter s1).

(** [set_flow_rate] *)
Definition set_flow_rate (s : t) (flow_rate : Q) : bool * t :=
  if negb (is_active s) then (false, s)
  else if Py.Qltb flow_rate 0 || Py.Qltb (max_flow_rate s) flow_rate
  then (false, s)
  else (true, set_flow_pressure flow_rate (current_pressure s) s).

(** [irrigate_zone]; the method returns [None] on every path.  [jitter_open]
    and [jitter_close] are the draws of the two valve operations. *)
Definition irrigate_zone (now jitter_open jitter_close : Q) (s : t)
    (zone_number : Z) (duration_minutes : Q) : t :=
  if negb (is_active s) then s
  else
    let s1 := snd (open_zone jitter_open s zone_number) in
    let s2 := set_operation_time (operation_time s1 + duration_minutes)%Q s1 in
    let volume := (current_flow_rate s2 * duration_minutes)%Q in
    let s3 := set_total_volume (total_volume s2 + volume)%Q s2 in
    let s4 := snd (close_zone jitter_close s3 zone_number) in
    set_last_irrigation (Some now) s4.

(** The local [duration] of [auto_irrigate]; the method only prints it. *)
Definition auto_irrigate_duration (s : t) (current_soil_moisture : Q) : Q :=
  let deficit := (target_soil_moisture s - current_soil_moisture)%Q in
  Qmin 30 (deficit * 2)%Q.

(** [for zone in range(1, self.num_zones + 1): self.open_zone(zone)];
    [jitter zone] is the draw made while opening [zone]. *)
Definition open_all_zones (jitter : Z -> Q) (s : t) : t :=
  foldl (fun st zone => snd (open_zone (jitter zone) st zone))
        s (seqZ 1 (num_zones s)).

(** [auto_irrigate] *)
Definition auto_irrigate (jitter : Z -> Q) (s : t) (current_soil_moisture : Q)
  : bool * t :=
  if negb (is_active s) || negb (IrrigationMode_eqb (mode s) IRR_AUTOMATIC)
  then (false, s)
  else if Py.Qltb current_soil_moisture (target_soil_moisture s) then
    let duration := auto_irrigate_duration s current_soil_moisture in
    (true, open_all_zones jitter s)
  else (false, s).

(** The zone numbers of the object are [1..num_zones], as [__init__] builds
    them; no method adds or removes a key. *)
Definition zones_wf (s : t) : Prop :=
  forall z : Z, is_Some (zones_status s !! z) <-> 1 <= z <= num_zones s.

(** One call of a method of the controller, with its arguments, the clock
    value it reads and the draws of [random.uniform] it makes. *)
Inductive op : Type :=
| OpStart (mode : IrrigationMode)
| OpStop
| OpOpenZone (jitter : Q) (zone_number : Z)
| OpCloseZone (jitter : Q) (zone_number : Z)
| OpSetFlowRate (flow_rate : Q)
| OpIrrigateZone (now jitter_open jitter_close : Q)
                 (zone_number : Z) (duration_minutes : Q)
| OpAutoIrrigate (jitter : Z -> Q) (current_soil_moisture : Q).

(** The object after the call [o]. *)
Definition step (o : op) (s : t) : t :=
  match o with
  | OpStart mode => start s mode
  | OpStop => stop s
  | OpOpenZone jitter zone_number => snd (open_zone jitter s zone_number)
  | OpCloseZone jitter zone_number => snd (close_zone jitter s zone_number)
  | OpSetFlowRate flow_rate => snd (set_flow_rate s flow_rate)
  | OpIrrigateZone now jitter_open jitter_close zone_number duration_minutes =>
      irrigate_zone now jitter_open jitter_close s zone_number duration_minutes
  | OpAutoIrrigate jitter current_soil_moisture =>
      snd (auto_irrigate jitter s current_soil_moisture)
  end.

(** A history of calls. *)
Definition run (calls : list op) (s : t) : t :=
  foldl (fun st o => step o st) s calls.

(** A draw of [random.uniform(-0.2, 0.2)]. *)
Definition in_jitter_range (j : Q) : Prop := (- 0.2 <= j <= 0.2)%Q.

(** Every draw made by the call [o] is in the range of [random.uniform]. *)
Definition draws_in_range (o : op) : Prop :=
  match o with
  | OpOpenZone jitter _ | OpCloseZone jitter _ => in_jitter_range jitter
  | OpIrrigateZone _ jitter_open jitter_close _ _ =>
      in_jitter_range jitter_open /\ in_jitter_range jitter_close
  | OpAutoIrrigate jitter _ => forall z : Z, in_jitter_range (jitter z)
  | _ => True
  end.

(** Every valve of the dictionary is closed. *)
Definition all_zones_closed (s : t) : Prop :=
  forall (z : Z) (b : bool), zones_status s !! z = Some b -> b = false.

(** What holds of the controller after any history of calls. *)
Definition consistent (s : t) : Prop :=
  zones_wf s
  /\ (is_active s = false ->
      mode s = IRR_OFF /\ all_zones_closed s
      /\ current_flow_rate s = 0%Q /\ current_pressure s = 0%Q)
  /\ ((0 <= max_flow_rate s)%Q ->
      (0 <= current_flow_rate s <= max_flow_rate s)%Q).

(** The pressure is 0 with every valve closed and within 0.2 bar of the
    base pressure 2.5 otherwise. *)
Definition pressure_in_band (s : t) : Prop :=
  (active_zones (zones_status s) = 0 -> current_pressure s = 0%Q)
  /\ (active_zones (zones_status s) <> 0 ->
      (2.3 <= current_pressure s <= 2.7)%Q).

End IrrigationSystem.

(** ** [irrigation.py] on binary64

    The same controller with its floats as binary64 values, so that the
    rounding of the flow computation and arguments that are not numbers are
    part of the embedding.  The dictionary of zones and its helpers are those
    of [IrrigationSystem]. *)

Module IrrigationSystem64.

Record t : Type := mk {
  system_id : string;
  num_zones : Z;
  max_flow_rate : float;
  is_active : bool;
  mode : IrrigationMode;
  current_flow_rate : float;
  current_pressure : float;
  total_volume : float;
  zones_status : gmap Z bool;
  operation_time : float;
  last_irrigation : option Q;
  next_scheduled : option Q;
  target_soil_moisture : float;
  schedule_times : list string
}.

(** [IrrigationSystem.__init__] *)
Definition init (system_id : string) (zones : Z) (max_flow_rate : float) : t :=
  mk system_id zones max_flow_rate false IRR_OFF 0%float 0%float 0%float
     (IrrigationSystem.all_closed zones) 0%float None None 50%float [].

Definition set_activity (a : bool) (m : IrrigationMode) (s : t) : t :=
  mk (system_id s) (num_zones s) (max_flow_rate s) a m
     (current_flow_rate s) (current_pressure s) (total_volume s)
     (zones_status s) (operation_time s) (last_irrigation s)
     (next_scheduled s) (target_soil_moisture s) (schedule_times s).

Definition set_flow_pressure (f p : float) (s : t) : t :=
  mk (system_id s) (num_zones s) (max_flow_rate s) (is_active s) (mode s)
     f p (total_volume s)
     (zones_status s) (operation_time s) (last_irrigation s)
     (next_scheduled s) (target_soil_moisture s) (schedule_times s).

Definition set_zones_status (z : gmap Z bool) (s : t) : t :=
  mk (system_id s) (num_zones s) (max_flow_rate s) (is_active s) (mode s)
     (current_flow_rate s) (current_pressure s) (total_volume s)
     z (operation_time s) (last_irrigation s)
     (next_scheduled s) (target_soil_moisture s) (schedule_times s).

Definition set_statistics (time volume : float) (last : option Q) (s : t) : t :=
  mk (system_id s) (num_zones s) (max_flow_rate s) (is_active s) (mode s)
     (current_flow_rate s) (current_pressure s) volume
     (zones_status s) time last
     (next_scheduled s) (target_soil_moisture s) (schedule_times s).

(** [start] *)
Definition start (s : t) (mode : IrrigationMode) : t :=
  set_activity true mode s.

(** [stop] *)
Definition stop (s : t) : t :=
  let s1 := set_activity false IRR_OFF s in
  let s2 := set_flow_pressure 0%float 0%float s1 in
  set_zones_status ((fun _ => false) <$> zones_status s2) s2.

(** The flow assigned by [_update_flow_and_pressure] with [n] valves open:
    [min(max_flow_rate, n * (max_flow_rate / num_zones))]. *)
Definition shared_flow (s : t) (n : Z) : float :=
  B64.min (max_flow_rate s)
          (B64.of_int n * (max_flow_rate s / B64.of_int (num_zones s)))%float.

(** [_update_flow_and_pressure].  The division is reached only with a valve
    open, and then [num_zones] is positive on every object whose zones are
    those [__init__] built: its [ZeroDivisionError] is not modelled. *)
Definition _update_flow_and_pressure (jitter : float) (s : t) : t :=
  let n := IrrigationSystem.active_zones (zones_status s) in
  if n =? 0 then set_flow_pressure 0%float 0%float s
  else
    let base_pressure := 2.5%float in
    set_flow_pressure (shared_flow s n) (base_pressure + jitter)%float s.

(** [zone_number not in self.zones_status] *)
Definition unknown_zone (s : t) (zone_number : Z) : bool :=
  match zones_status s !! zone_number with
  | Some _ => false
  | None => true
  end.

(** [open_zone] *)
Definition open_zone (jitter : float) (s : t) (zone_number : Z) : bool * t :=
  if negb (is_active s) then (false, s)
  else if unknown_zone s zone_number then (false, s)
  else
    let s1 := set_zones_status (<[zone_number := true]> (zones_status s)) s in
    (true, _update_flow_and_pressure jitter s1).

(** [close_zone] *)
Definition close_zone (jitter : float) (s : t) (zone_number : Z) : bool * t :=
  if unknown_zone s zone_number then (false, s)
  else
    let s1 := set_zones_status (<[zone_number := false]> (zones_status s)) s in
    (true, _update_flow_and_pressure jitter s1).

(** [set_flow_rate]: both comparisons of the guard are false when
    [flow_rate] is not a number. *)
Definition set_flow_rate (s : t) (flow_rate : float) : bool * t :=
  if negb (is_active s) then (false, s)
  else if PrimFloat.ltb flow_rate 0 || PrimFloat.ltb (max_flow_rate s) flow_rate
  then (false, s)
  else (true, set_flow_pressure flow_rate (current_pressure s) s).

(** [irrigate_zone] *)
Definition irrigate_zone (now : Q) (jitter_open jitter_close : float) (s : t)
    (zone_number : Z) (duration_minutes : float) : t :=
  if negb (is_active s) then s
  else
    let s1 := snd (open_zone jitter_open s zone_number) in
    let time := (operation_time s1 + duration_minutes)%float in
    let volume := (current_flow_rate s1 * duration_minutes)%float in
    let s2 :=
      set_statistics time (total_volume s1 + volume)%float (last_irrigation s1) s1 in
    let s3 := snd (close_zone jitter_close s2 zone_number) in
    set_statistics (operation_time s3) (total_volume s3) (Some now) s3.

(** The loop of [auto_irrigate] over the zone numbers [zones]. *)
Definition open_zones (jitter : Z -> float) (zones : list Z) (s : t) : t :=
  foldl (fun st zone => snd (open_zone (jitter zone) st zone)) s zones.

(** [auto_irrigate]; the local [duration] is only printed. *)
Definition auto_irrigate (jitter : Z -> float) (s : t)
    (current_soil_moisture : float) : bool * t :=
  if negb (is_active s) || negb (IrrigationMode_eqb (mode s) IRR_AUTOMATIC)
  then (false, s)
  else if PrimFloat.ltb current_soil_moisture (target_soil_moisture s) then
    (true, open_zones jitter (seqZ 1 (num_zones s)) s)
  else (false, s).

(** The zone numbers of the object are [1..num_zones]. *)
Definition zones_wf (s : t) : Prop :=
  forall z : Z, is_Some (zones_status s !! z) <-> 1 <= z <= num_zones s.

(** One call of a method, with its arguments, the clock value it reads and
    the draws it makes. *)
Inductive op : Type :=
| OpStart (mode : IrrigationMode)
| OpStop
| OpOpenZone (jitter : float) (zone_number : Z)
| OpCloseZone (jitter : float) (zone_number : Z)
| OpSetFlowRate (flow_rate : float)
| OpIrrigateZone (now : Q) (jitter_open jitter_close : float)
                 (zone_number : Z) (duration_minutes : float)
| OpAutoIrrigate (jitter : Z -> float) (current_soil_moisture : float).

(** The object after the call [o]. *)
Definition step (o : op) (s : t) : t :=
  match o with
  | OpStart mode => start s mode
  | OpStop => stop s
  | OpOpenZone jitter zone_number => snd (open_zone jitter s zone_number)
  | OpCloseZone jitter zone_number => snd (close_zone jitter s zone_number)
  | OpSetFlowRate flow_rate => snd (set_flow_rate s flow_rate)
  | OpIrrigateZone now jitter_open jitter_close zone_number duration_minutes =>
      irrigate_zone now jitter_open jitter_close s zone_number duration_minutes
  | OpAutoIrrigate jitter current_soil_moisture =>
      snd (auto_irrigate jitter s current_soil_moisture)
  end.

(** A history of calls. *)
Definition run (calls : list op) (s : t) : t :=
  foldl (fun st o => step o st) s calls.

(** On an object whose zones are [1..num_zones] and whose ceiling is
    [ceiling], neither [current_flow_rate < 0] nor
    [current_flow_rate > max_flow_rate] holds. *)
Definition flow_in_range (ceiling : float) (s : t) : Prop :=
  zones_wf s
  /\ max_flow_rate s = ceiling
  /\ PrimFloat.ltb (current_flow_rate s) 0 = false
  /\ PrimFloat.ltb ceiling (current_flow_rate s) = false.

(** The statistics of the controller. *)
Definition statistics (s : t) : float * float * option Q :=
  (operation_time s, total_volume s, last_irrigation s).

(** The call [o] is not an [irrigate_zone]. *)
Definition not_irrigate_zone (o : op) : Prop :=
  match o with
  | OpIrrigateZone _ _ _ _ _ => False
  | _ => True
  end.

End IrrigationSystem64.

(** ** [fertilizer.py] *)

Inductive FertilizerType : Type :=
| NPK_20_10_10
| NPK_10_20_20
| NPK_15_15_15
| NPK_04_14_08
| UREA.

Definition FertilizerType_value (f : FertilizerType) : string :=
  match f with
  | NPK_20_10_10 => "NPK 20-10-10"
  | NPK_10_20_20 => "NPK 10-20-20"
  | NPK_15_15_15 => "NPK 15-15-15"
  | NPK_04_14_08 => "NPK 04-14-08"
  | UREA => "Uréia 45-00-00"
  end.

Inductive ApplicationMode : Type :=
| APP_MANUAL
| APP_AUTOMATIC
| APP_VARIABLE_RATE
| APP_OFF.

(** A dictionary with exactly the keys ['N'], ['P'], ['K'], as the source
    builds for [target_npk], the deficits and the compositions. *)
Record NPK : Type := mk_npk {
  npk_N : Q;
  npk_P : Q;
  npk_K : Q
}.

Module FertilizerSystem.

Record t : Type := mk {
  system_id : string;
  tank_capacity : Q;
  max_rate : Q;
  is_active : bool;
  mode : ApplicationMode;
  current_fertilizer : option FertilizerType;
  tank_level : Q;
  application_rate : Q;
  total_applied : Q;
  area_covered : Q;
  last_application : option Q;
  applications_count : Z;
  target_npk : NPK
}.

(** [FertilizerSystem.__init__] *)
Definition init (system_id : string) (tank_capacity max_rate : Q) : t :=
  mk system_id tank_capacity max_rate false APP_OFF None tank_capacity
     0%Q 0%Q 0%Q None 0 (mk_npk 30 15 40).

Definition set_activity (a : bool) (m : ApplicationMode) (s : t) : t :=
  mk (system_id s) (tank_capacity s) (max_rate s) a m
     (current_fertilizer s) (tank_level s) (application_rate s)
     (total_applied s) (area_covered s) (last_application s)
     (applications_count s) (target_npk s).

Definition set_application_rate_field (r : Q) (s : t) : t :=
  mk (system_id s) (tank_capacity s) (max_rate s) (is_active s) (mode s)
     (current_fertilizer s) (tank_level s) r
     (total_applied s) (area_covered s) (last_application s)
     (applications_count s) (target_npk s).

Definition set_tank (f : option FertilizerType) (level : Q) (s : t) : t :=
  mk (system_id s) (tank_capacity s) (max_rate s) (is_active s) (mode s)
     f level (application_rate s)
     (total_applied s) (area_covered s) (last_application s)
     (applications_count s) (target_npk s).

Definition set_totals (applied area : Q) (last : option Q) (count : Z) (s : t) : t :=
  mk (system_id s) (tank_capacity s) (max_rate s) (is_active s) (mode s)
     (current_fertilizer s) (tank_level s) (application_rate s)
     applied area last count (target_npk s).

(** [start] *)
Definition start (s : t) (mode : ApplicationMode) : t :=
  set_activity true mode s.

(** [stop] *)
Definition stop (s : t) : t :=
  set_application_rate_field 0%Q (set_activity false APP_OFF s).

(** [load_fertilizer] *)
Definition load_fertilizer (s : t) (fertilizer_type : FertilizerType) (amount : Q)
  : bool * t :=
  if is_active s then (false, s)
  else if Py.Qltb (tank_capacity s) amount then (false, s)
  else (true, set_tank (Some fertilizer_type) amount s).

(** [set_application_rate] *)
Definition set_application_rate (s : t) (rate : Q) : bool * t :=
  if negb (is_active s) then (false, s)
  else if Py.Qltb rate 0 || Py.Qltb (max_rate s) rate then (false, s)
  else
    match current_fertilizer s with
    | None => (false, s)
    | Some _ => (true, set_application_rate_field rate s)
    end.

(** [_get_npk_composition] *)
Definition _get_npk_composition (fertilizer_type : FertilizerType) : NPK :=
  match fertilizer_type with
  | NPK_20_10_10 => mk_npk 20 10 10
  | NPK_10_20_20 => mk_npk 10 20 20
  | NPK_15_15_15 => mk_npk 15 15 15
  | NPK_04_14_08 => mk_npk 4 14 8
  | UREA => mk_npk 45 0 0
  end.

(** The [RuntimeError]s of [apply], in the order of its checks. *)
Inductive RuntimeError : Type :=
| NotActive
| NoProductLoaded
| ZeroRate.

(** The dictionary returned by [apply]. *)
Record application : Type := mk_application {
  area_hectares : Q;
  amount_applied_kg : Q;
  fertilizer_type : string;
  application_rate_used : Q;
  tank_remaining_kg : Q;
  npk_applied : NPK
}.

(** [apply] *)
Definition apply (now : Q) (s : t) (area : Q)
  : outcome RuntimeError application * t :=
  if negb (is_active s) then (Raise NotActive, s)
  else
    match current_fertilizer s with
    | None => (Raise NoProductLoaded, s)
    | Some fert =>
        if Qeq_bool (application_rate s) 0 then (Raise ZeroRate, s)
        else
          let required_amount := (application_rate s * area)%Q in
          let short := Py.Qltb (tank_level s) required_amount in
          let required_amount :=
            if short then tank_level s else required_amount in
          let area :=
            if short then (tank_level s / application_rate s)%Q else area in
          let s1 :=
            set_tank (current_fertilizer s)
                     (tank_level s - required_amount)%Q s in
          let s2 :=
            set_totals (total_applied s1 + required_amount)%Q
                       (area_covered s1 + area)%Q
                       (Some now)
                       (applications_count s1 + 1) s1 in
          let npk_composition := _get_npk_composition fert in
          let applied_npk :=
            mk_npk ((required_amount * npk_N npk_composition) / 100)%Q
                   ((required_amount * npk_P npk_composition) / 100)%Q
                   ((required_amount * npk_K npk_composition) / 100)%Q in
          (Return
             (mk_application
                (Py.round area 2)
                (Py.round required_amount 2)
                (FertilizerType_value fert)
                (application_rate s2)
                (Py.round (tank_level s2) 2)
                (mk_npk (Py.round (npk_N applied_npk) 2)
                        (Py.round (npk_P applied_npk) 2)
                        (Py.round (npk_K applied_npk) 2))),
           s2)
    end.

(** [current_npk.get(key, 0)] *)
Definition get0 (current_npk : gmap string Q) (key : string) : Q :=
  default 0%Q (current_npk !! key).

(** [max(0, x)] *)
Definition max0 (x : Q) : Q := Qmax 0 x.

(** The [deficits] dictionary of [recommend_fertilizer]. *)
Definition deficits_of (target : NPK) (current_npk : gmap string Q) : NPK :=
  mk_npk (max0 (npk_N target - get0 current_npk "N"))%Q
         (max0 (npk_P target - get0 current_npk "P"))%Q
         (max0 (npk_K target - get0 current_npk "K"))%Q.

(** [sum(deficits.values())] *)
Definition sum_values (d : NPK) : Q := (0 + npk_N d + npk_P d + npk_K d)%Q.

(** The [if]/[elif] chain of [recommend_fertilizer]: the product and the
    reason. *)
Definition choose (deficits : NPK) : option FertilizerType * string :=
  if Py.Qltb 10 (npk_N deficits) then
    (Some NPK_20_10_10, "Alto déficit de Nitrogênio")
  else if Py.Qltb 10 (npk_P deficits) then
    (Some NPK_04_14_08, "Alto déficit de Fósforo")
  else if Py.Qltb 10 (npk_K deficits) then
    (Some NPK_10_20_20, "Alto déficit de Potássio")
  else if Py.Qltb 15 (sum_values deficits) then
    (Some NPK_15_15_15, "Déficit balanceado")
  else (None, "Níveis adequados").

(** The local [recommended_rate] of [recommend_fertilizer], before it is
    rounded into the returned dictionary. *)
Definition recommended_rate (max_rate : Q) (deficits : NPK)
    (recommended : option FertilizerType) : Q :=
  match recommended with
  | Some _ =>
      let avg_deficit := (sum_values deficits / 3)%Q in
      Qmin max_rate (avg_deficit * 3)%Q
  | None => 0%Q
  end.

(** The dictionary returned by [recommend_fertilizer]. *)
Record recommendation : Type := mk_recommendation {
  rec_current_npk : gmap string Q;
  rec_target_npk : NPK;
  rec_deficits : NPK;
  recommended_fertilizer : string;
  recommended_rate_kg_ha : Q;
  reason : string
}.

(** [recommend_fertilizer]: no attribute of [self] is assigned. *)
Definition recommend_fertilizer (s : t) (current_npk : gmap string Q)
  : recommendation * t :=
  let deficits := deficits_of (target_npk s) current_npk in
  let (recommended, reason) := choose deficits in
  let rate := recommended_rate (max_rate s) deficits recommended in
  (mk_recommendation current_npk (target_npk s) deficits
     (match recommended with
      | Some f => FertilizerType_value f
      | None => "Nenhum"
      end)
     (Py.round rate 1)
     reason,
   s).

(** [name.replace(old, new)] for single characters. *)
Fixpoint replace_char (old new : Ascii.ascii) (name : string) : string :=
  match name with
  | EmptyString => EmptyString
  | String c rest =>
      String (if Ascii.eqb c old then new else c) (replace_char old new rest)
  end.

(** [FertilizerType[name]]: the member called [name]; [None] stands for the
    [KeyError] of an unknown name. *)
Definition member_by_name (name : string) : option FertilizerType :=
  if String.eqb name "NPK_20_10_10" then Some NPK_20_10_10
  else if String.eqb name "NPK_10_20_20" then Some NPK_10_20_20
  else if String.eqb name "NPK_15_15_15" then Some NPK_15_15_15
  else if String.eqb name "NPK_04_14_08" then Some NPK_04_14_08
  else if String.eqb name "UREA" then Some UREA
  else None.

(** An element of the [zones] argument of [variable_rate_apply]:
    [{'area': float, 'npk': dict}]. *)
Record zone : Type := mk_zone {
  zone_area : Q;
  zone_npk : gmap string Q
}.

(** An element of the list [variable_rate_apply] returns: the dictionary of
    [apply] with the keys ['zone'] and ['recommendation'] added. *)
Record zone_result : Type := mk_zone_result {
  zr_application : application;
  zr_zone : Z;
  zr_recommendation : recommendation
}.

(** What [variable_rate_apply] can raise: the [KeyError] of the member
    lookup, or a [RuntimeError] of [apply]. *)
Inductive vr_error : Type :=
| VRKeyError (name : string)
| VRRuntimeError (e : RuntimeError).

(** The loop of [variable_rate_apply] from zone number [i] on; [clock i] is
    the time read while zone [i] is applied.  An exception leaves the loop
    with the object as it is at that point. *)
Fixpoint variable_rate_loop (clock : Z -> Q) (i : Z) (zones : list zone)
    (s : t) (results : list zone_result)
  : outcome vr_error (list zone_result) * t :=
  match zones with
  | [] => (Return results, s)
  | z :: rest =>
      let (recommendation, s0) := recommend_fertilizer s (zone_npk z) in
      if negb (String.eqb (recommended_fertilizer recommendation) "Nenhum") then
        let name :=
          replace_char "-"%char "_"%char
            (replace_char " "%char "_"%char
               (recommended_fertilizer recommendation)) in
        match member_by_name name with
        | None => (Raise (VRKeyError name), s0)
        | Some recommended_type =>
            let s1 :=
              snd (set_application_rate s0 (recommended_rate_kg_ha recommendation)) in
            match apply (clock i) s1 (zone_area z) with
            | (Raise e, s2) => (Raise (VRRuntimeError e), s2)
            | (Return result, s2) =>
                variable_rate_loop clock (i + 1) rest s2
                  (results ++ [mk_zone_result result i recommendation])
            end
        end
      else variable_rate_loop clock (i + 1) rest s0 results
  end.

(** [variable_rate_apply] *)
Definition variable_rate_apply (clock : Z -> Q) (s : t) (zones : list zone)
  : outcome vr_error (list zone_result) * t :=
  match mode s with
  | APP_VARIABLE_RATE => variable_rate_loop clock 1 zones s []
  | _ => (Return [], s)
  end.

(** One call of a method of the controller, with its arguments and the clock
    it reads. *)
Inductive op : Type :=
| OpStart (mode : ApplicationMode)
| OpStop
| OpLoadFertilizer (fertilizer_type : FertilizerType) (amount : Q)
| OpSetApplicationRate (rate : Q)
| OpApply (now : Q) (area : Q)
| OpRecommendFertilizer (current_npk : gmap string Q)
| OpVariableRateApply (clock : Z -> Q) (zones : list zone).

(** The object after the call [o], also when the call raises. *)
Definition step (o : op) (s : t) : t :=
  match o with
  | OpStart mode => start s mode
  | OpStop => stop s
  | OpLoadFertilizer fertilizer_type amount =>
      snd (load_fertilizer s fertilizer_type amount)
  | OpSetApplicationRate rate => snd (set_application_rate s rate)
  | OpApply now area => snd (apply now s area)
  | OpRecommendFertilizer current_npk => snd (recommend_fertilizer s current_npk)
  | OpVariableRateApply clock zones => snd (variable_rate_apply clock s zones)
  end.

(** A history of calls. *)
Definition run (calls : list op) (s : t) : t :=
  foldl (fun st o => step o st) s calls.

(** The amounts and areas passed by the call [o] are not negative. *)
Definition quantities_nonneg (o : op) : Prop :=
  match o with
  | OpLoadFertilizer _ amount => (0 <= amount)%Q
  | OpApply _ area => (0 <= area)%Q
  | OpVariableRateApply _ zones => Forall (fun z => 0 <= zone_area z)%Q zones
  | _ => True
  end.

(** The amounts, rates and areas passed by the call [o] are between 0 and
    [bound].  Read on the program, this keeps the call to arguments that
    are finite numbers: no comparison admits a NaN, and the bound excludes
    the infinities. *)
Definition quantities_in_range (bound : Q) (o : op) : Prop :=
  match o with
  | OpLoadFertilizer _ amount => (0 <= amount <= bound)%Q
  | OpSetApplicationRate rate => (0 <= rate <= bound)%Q
  | OpApply _ area => (0 <= area <= bound)%Q
  | OpVariableRateApply _ zones =>
      Forall (fun z => 0 <= zone_area z <= bound)%Q zones
  | _ => True
  end.

(** The bounds the data model gives the tank and the rate, and totals that
    are not negative. *)
Definition consistent (s : t) : Prop :=
  (0 <= tank_level s <= tank_capacity s)%Q
  /\ (0 <= application_rate s <= max_rate s)%Q
  /\ (0 <= total_applied s)%Q
  /\ (0 <= area_covered s)%Q
  /\ 0 <= applications_count s.

(** An inactive controller is in mode OFF with a zero rate. *)
Definition idle_ok (s : t) : Prop :=
  is_active s = false -> mode s = APP_OFF /\ application_rate s = 0%Q.

(** [recommend_fertilizer] names a product for the soil of zone [z]. *)
Definition needs_correction (s : t) (z : zone) : bool :=
  negb (String.eqb
          (recommended_fertilizer (fst (recommend_fertilizer s (zone_npk z))))
          "Nenhum").



End FertilizerSystem.

(** ** [fertilizer.py] on binary64: [recommend_fertilizer]

    The recommendation with its floats as binary64 values: the deficits, the
    comparisons of the priority chain and the rounded rate are those the
    interpreter computes. *)

(** A dictionary with exactly the keys ['N'], ['P'], ['K'] and binary64
    values. *)
Record NPK64 : Type := mk_npk64 {
  npk64_N : float;
  npk64_P : float;
  npk64_K : float
}.

Module FertilizerSystem64.

Record t : Type := mk {
  system_id : string;
  tank_capacity : float;
  max_rate : float;
  is_active : bool;
  mode : ApplicationMode;
  current_fertilizer : option FertilizerType;
  tank_level : float;
  application_rate : float;
  total_applied : float;
  area_covered : float;
  last_application : option Q;
  applications_count : Z;
  target_npk : NPK64
}.

(** [FertilizerSystem.__init__] *)
Definition init (system_id : string) (tank_capacity max_rate : float) : t :=
  mk system_id tank_capacity max_rate false APP_OFF None tank_capacity
     0%float 0%float 0%float None 0 (mk_npk64 30 15 40).

(** [current_npk.get(key, 0)] *)
Definition get0 (current_npk : gmap string float) (key : string) : float :=
  default 0%float (current_npk !! key).

(** The [deficits] dictionary of [recommend_fertilizer]. *)
Definition deficits_of (target : NPK64) (current_npk : gmap string float)
  : NPK64 :=
  mk_npk64 (B64.max0 (npk64_N target - get0 current_npk "N"))
           (B64.max0 (npk64_P target - get0 current_npk "P"))
           (B64.max0 (npk64_K target - get0 current_npk "K")).

(** [deficits.values()]: the values in the order of the keys. *)
Definition values (d : NPK64) : list float :=
  [npk64_N d; npk64_P d; npk64_K d].

(** The dictionary returned by [recommend_fertilizer]. *)
Record recommendation : Type := mk_recommendation {
  rec_current_npk : gmap string float;
  rec_target_npk : NPK64;
  rec_deficits : NPK64;
  recommended_fertilizer : string;
  recommended_rate_kg_ha : float;
  reason : string
}.

Section Recommend.

(** The builtin [sum] on floats.  How it rounds depends on the interpreter
    ([B64.sum] up to Python 3.11), so the recommendation takes the builtin
    as it is given and what is proved of it holds for each. *)
Variable sum : list float -> float.

(** The [if]/[elif] chain of [recommend_fertilizer]: the product and the
    reason. *)
Definition choose (deficits : NPK64) : option FertilizerType * string :=
  if PrimFloat.ltb 10 (npk64_N deficits) then
    (Some NPK_20_10_10, "Alto déficit de Nitrogênio")
  else if PrimFloat.ltb 10 (npk64_P deficits) then
    (Some NPK_04_14_08, "Alto déficit de Fósforo")
  else if PrimFloat.ltb 10 (npk64_K deficits) then
    (Some NPK_10_20_20, "Alto déficit de Potássio")
  else if PrimFloat.ltb 15 (sum (values deficits)) then
    (Some NPK_15_15_15, "Déficit balanceado")
  else (None, "Níveis adequados").

(** The local [recommended_rate] of [recommend_fertilizer], before it is
    rounded into the returned dictionary. *)
Definition recommended_rate (max_rate : float) (deficits : NPK64)
    (recommended : option FertilizerType) : float :=
  match recommended with
  | Some _ =>
      let avg_deficit := (sum (values deficits) / 3)%float in
      B64.min max_rate (avg_deficit * 3)%float
  | None => 0%float
  end.

(** [recommend_fertilizer]: no attribute of [self] is assigned. *)
Definition recommend_fertilizer (s : t) (current_npk : gmap string float)
  : recommendation * t :=
  let deficits := deficits_of (target_npk s) current_npk in
  let (recommended, reason) := choose deficits in
  let rate := recommended_rate (max_rate s) deficits recommended in
  (mk_recommendation current_npk (target_npk s) deficits
     (match recommended with
      | Some f => FertilizerType_value f
      | None => "Nenhum"
      end)
     (B64.round1 rate)
     reason,
   s).

End Recommend.

End FertilizerSystem64.

(** ** Scenarios

    Concrete objects and inputs, built with the methods above. *)

Module Scenario.

(** [bytes([0x01, ..., 0x08])], the 8-byte payload of the module's demo. *)
Definition payload8 : list byte := [x01; x02; x03; x04; x05; x06; x07; x08].

(** [CANProtocol("CAN0", RATE_250K, 0x17)] after [start()]. *)
Definition bus_started : CANProtocol.t :=
  CANProtocol.start (CANProtocol.init "CAN0" RATE_250K 0x17).

(** ... after a [send_message(0x800, b'')] that the frame constructor
    rejects: [error_count] is 1. *)
Definition bus_one_error : CANProtocol.t :=
  snd (CANProtocol.send_message 0%Q bus_started 0x800 [] false).

(** [bus_started] after [simulate_incoming_message(0x300, payload8)]. *)
Definition bus_one_injected : CANProtocol.t :=
  snd (CANProtocol.simulate_incoming_message 0%Q bus_started 0x300 payload8 false).

(** ... then [send_message(0x100, payload8)]: one frame in each buffer. *)
Definition bus_one_each : CANProtocol.t :=
  snd (CANProtocol.send_message 0%Q bus_one_injected 0x100 payload8 false).

(** [IrrigationSystem("IRR_001", zones=4, max_flow_rate=100.0)]. *)
Definition irrigation_fresh : IrrigationSystem.t :=
  IrrigationSystem.init "IRR_001" 4 100%Q.

(** ... after [start(MANUAL)] and [open_zone(1)]. *)
Definition irrigation_zone1_open : IrrigationSystem.t :=
  snd (IrrigationSystem.open_zone 0%Q
         (IrrigationSystem.start irrigation_fresh IRR_MANUAL) 1).

(** [irrigation_fresh] after [start(AUTOMATIC)] with
    [target_soil_moisture = 60.0], as in the module's demo. *)
Definition irrigation_auto60 : IrrigationSystem.t :=
  let s := IrrigationSystem.start irrigation_fresh IRR_AUTOMATIC in
  IrrigationSystem.mk
    (IrrigationSystem.system_id s) (IrrigationSystem.num_zones s)
    (IrrigationSystem.max_flow_rate s) (IrrigationSystem.is_active s)
    (IrrigationSystem.mode s) (IrrigationSystem.current_flow_rate s)
    (IrrigationSystem.current_pressure s) (IrrigationSystem.total_volume s)
    (IrrigationSystem.zones_status s) (IrrigationSystem.operation_time s)
    (IrrigationSystem.last_irrigation s) (IrrigationSystem.next_scheduled s)
    60%Q (IrrigationSystem.schedule_times s).

(** [FertilizerSystem("FERT_001", 500.0, 200.0)]. *)
Definition fertilizer_fresh : FertilizerSystem.t :=
  FertilizerSystem.init "FERT_001" 500%Q 200%Q.

(** ... after [load_fertilizer(NPK_15_15_15, 300.0)], [start(MANUAL)] and
    [set_application_rate(80.0)]. *)
Definition fertilizer_rate80 : FertilizerSystem.t :=
  let s1 := snd (FertilizerSystem.load_fertilizer fertilizer_fresh NPK_15_15_15 300%Q) in
  let s2 := FertilizerSystem.start s1 APP_MANUAL in
  snd (FertilizerSystem.set_application_rate s2 80%Q).

(** [{'N': 15.0, 'P': 8.0, 'K': 25.0}] *)
Definition soil_demo : gmap string Q :=
  <["N" := 15%Q]> (<["P" := 8%Q]> (<["K" := 25%Q]> ∅)).

(** [{'N': 14.96, 'P': 15.0, 'K': 40.0}] *)
Definition soil_n_short : gmap string Q :=
  <["N" := 14.96%Q]> (<["P" := 15%Q]> (<["K" := 40%Q]> ∅)).

(** [{'N': 30.0, 'P': 15.0, 'K': 40.0}]: every nutrient on target. *)
Definition soil_on_target : gmap string Q :=
  <["N" := 30%Q]> (<["P" := 15%Q]> (<["K" := 40%Q]> ∅)).

(** [fertilizer_fresh] after [load_fertilizer(NPK_15_15_15, 300.0)],
    [start(VARIABLE_RATE)] and [set_application_rate(80.0)]. *)
Definition fertilizer_variable_rate : FertilizerSystem.t :=
  let s1 := snd (FertilizerSystem.load_fertilizer fertilizer_fresh NPK_15_15_15 300%Q) in
  let s2 := FertilizerSystem.start s1 APP_VARIABLE_RATE in
  snd (FertilizerSystem.set_application_rate s2 80%Q).

(** Three zones: one short of N and K, one on target, one short of N. *)
Definition three_zones : list FertilizerSystem.zone :=
  [FertilizerSystem.mk_zone 2%Q soil_demo;
   FertilizerSystem.mk_zone 1%Q soil_on_target;
   FertilizerSystem.mk_zone 1%Q soil_n_short].

(** [IrrigationSystem("IRR_001", zones=4, max_flow_rate=100.0)] on
    binary64. *)
Definition irrigation64_fresh : IrrigationSystem64.t :=
  IrrigationSystem64.init "IRR_001" 4 100%float.

(** [IrrigationSystem("IRR_011", zones=11, max_flow_rate=100.0)] after
    [start(MANUAL)] and [open_zone(1)], ..., [open_zone(10)]. *)
Definition irrigation64_ten_open : IrrigationSystem64.t :=
  IrrigationSystem64.open_zones (fun _ => 0%float) (seqZ 1 10)
    (IrrigationSystem64.start
       (IrrigationSystem64.init "IRR_011" 11 100%float) IRR_MANUAL).

(** [irrigation64_fresh] after [start(MANUAL)], [set_flow_rate(nan)] and
    [irrigate_zone(9, 10.0)], zone 9 being unknown. *)
Definition irrigation64_nan_volume : IrrigationSystem64.t :=
  IrrigationSystem64.run
    [IrrigationSystem64.OpStart IRR_MANUAL;
     IrrigationSystem64.OpSetFlowRate nan;
     IrrigationSystem64.OpIrrigateZone 1%Q 0%float 0%float 9 10%float]
    irrigation64_fresh.

(** [FertilizerSystem("FERT_001", tank_capacity=500.0, max_rate=200.0)] on
    binary64. *)
Definition fertilizer64_fresh : FertilizerSystem64.t :=
  FertilizerSystem64.init "FERT_001" 500%float 200%float.

(** [{'N': 15.0, 'P': 8.0, 'K': 25.0}] *)
Definition soil64_demo : gmap string float :=
  <["N" := 15%float]> (<["P" := 8%float]> (<["K" := 25%float]> ∅)).

(** [{'N': 14.96, 'P': 15.0, 'K': 40.0}], with [14.96] as the binary64 value
    the literal denotes. *)
Definition soil64_n_short : gmap string float :=
  <["N" := 0x1.deb851eb851ecp+3%float]>
    (<["P" := 15%float]> (<["K" := 40%float]> ∅)).

(** [{'N': 15.15, 'P': 15.0, 'K': 40.0}], with [15.15] as the binary64 value
    the literal denotes. *)
Definition soil64_n_tie : gmap string float :=
  <["N" := 0x1.e4ccccccccccdp+3%float]>
    (<["P" := 15%float]> (<["K" := 40%float]> ∅)).

(** [{'N': 30.0, 'P': 4.999999999999999, 'K': 40.0}] *)
Definition soil64_p_edge : gmap string float :=
  <["N" := 30%float]>
    (<["P" := 0x1.3ffffffffffffp+2%float]> (<["K" := 40%float]> ∅)).

(** The float [0.29], written as the binary64 value the literal denotes;
    its product with 100 is 28.999999999999996. *)
Definition reading_0_29 : float := 0x1.28f5c28f5c28fp-2%float.

End Scenario.

(** * Properties *)

(** ** Arithmetic of the Python helpers *)

Lemma Qltb_true (x y : Q) : Py.Qltb x y = true <-> (x < y)%Q.
Proof.
  unfold Py.Qltb. rewrite negb_true_iff.
  split; intros H.
  - apply Qnot_le_lt. intros Hle. apply Qle_bool_iff in Hle. congruence.
  - destruct (Qle_bool y x) eqn:E; [|reflexivity].
    apply Qle_bool_iff in E. exfalso. apply (Qlt_not_le x y); assumption.
Qed.

Lemma Qltb_false (x y : Q) : Py.Qltb x y = false <-> (y <= x)%Q.
Proof.
  unfold Py.Qltb. rewrite negb_false_iff. apply Qle_bool_iff.
Qed.

(** ** Frames *)

Lemma init_ok (now : Q) (can_id : Z) (data : list byte) (ext : bool) :
  (length data <= 8)%nat ->
  can_id <= (if ext then 0x1FFFFFFF else 0x7FF) ->
  CANMessage.init now can_id data ext
  = Return (CANMessage.mk can_id data ext now (Z.of_nat (length data))).
Proof.
  intros Hlen Hid. unfold CANMessage.init.
  destruct (8 <? Z.of_nat (length data)) eqn:E8; [apply Z.ltb_lt in E8; lia|].
  destruct ext.
  - destruct (0x1FFFFFFF <? can_id) eqn:E; [apply Z.ltb_lt in E; lia|reflexivity].
  - destruct (0x7FF <? can_id) eqn:E; [apply Z.ltb_lt in E; lia|reflexivity].
Qed.

Lemma init_id_too_large (now : Q) (can_id : Z) (data : list byte) (ext : bool) :
  (length data <= 8)%nat ->
  (if ext then 0x1FFFFFFF else 0x7FF) < can_id ->
  CANMessage.init now can_id data ext
  = Raise (CANMessage.IdentifierOutOfRange ext).
Proof.
  intros Hlen Hid. unfold CANMessage.init.
  destruct (8 <? Z.of_nat (length data)) eqn:E8; [apply Z.ltb_lt in E8; lia|].
  destruct ext.
  - destruct (0x1FFFFFFF <? can_id) eqn:E; [reflexivity|apply Z.ltb_ge in E; lia].
  - destruct (0x7FF <? can_id) eqn:E; [reflexivity|apply Z.ltb_ge in E; lia].
Qed.

Lemma init_payload_too_long (now : Q) (can_id : Z) (data : list byte) (ext : bool) :
  (8 < length data)%nat ->
  CANMessage.init now can_id data ext = Raise CANMessage.InvalidPayloadLength.
Proof.
  intros Hlen. unfold CANMessage.init.
  destruct (8 <? Z.of_nat (length data)) eqn:E8; [reflexivity|].
  apply Z.ltb_ge in E8. lia.
Qed.

(** C8. Frame construction at the boundaries: with a payload of at most 8
    bytes, identifier 0x7FF (standard) and 0x1FFFFFFF (extended) are accepted
    and 0x800 (standard) and 0x20000000 (extended) are rejected with
    [IdentifierOutOfRange]; every 9-byte payload is rejected with
    [InvalidPayloadLength], whatever the identifier and mode; every 8-byte
    payload with an identifier within the bound of its mode is accepted and
    the data-length code of the frame is 8. *)
Theorem C8_frame_construction_boundaries
    (now : Q) (can_id : Z) (data : list byte) (ext : bool) :
  ((length data <= 8)%nat ->
     CANMessage.init now 0x7FF data false
     = Return (CANMessage.mk 0x7FF data false now (Z.of_nat (length data)))
     /\ CANMessage.init now 0x1FFFFFFF data true
        = Return (CANMessage.mk 0x1FFFFFFF data true now (Z.of_nat (length data)))
     /\ CANMessage.init now 0x800 data false
        = Raise (CANMessage.IdentifierOutOfRange false)
     /\ CANMessage.init now 0x20000000 data true
        = Raise (CANMessage.IdentifierOutOfRange true))
  /\ (length data = 9%nat ->
        CANMessage.init now can_id data ext
        = Raise CANMessage.InvalidPayloadLength)
  /\ (length data = 8%nat ->
        can_id <= (if ext then 0x1FFFFFFF else 0x7FF) ->
        exists frame,
          CANMessage.init now can_id data ext = Return frame
          /\ CANMessage.dlc frame = 8
          /\ CANMessage.data frame = data
          /\ CANMessage.can_id frame = can_id).
Proof.
  split; [|split].
  - intros Hlen. repeat split.
    + apply init_ok; [assumption|simpl; lia].
    + apply init_ok; [assumption|simpl; lia].
    + apply (init_id_too_large now 0x800 data false); [assumption|simpl; lia].
    + apply (init_id_too_large now 0x20000000 data true); [assumption|simpl; lia].
  - intros Hlen. apply init_payload_too_long. lia.
  - intros Hlen Hid. eexists. split.
    + apply init_ok; [lia|assumption].
    + simpl. rewrite Hlen. repeat split.
Qed.

Lemma C8_frame_construction_boundaries_witness :
  CANMessage.init 0%Q 0x7FF Scenario.payload8 false
  = Return (CANMessage.mk 0x7FF Scenario.payload8 false 0%Q 8)
  /\ CANMessage.init 0%Q 0x800 Scenario.payload8 false
     = Raise (CANMessage.IdentifierOutOfRange false)
  /\ CANMessage.init 0%Q 0x300 (x00 :: Scenario.payload8) false
     = Raise CANMessage.InvalidPayloadLength
  /\ exists frame,
       CANMessage.init 0%Q 0x300 Scenario.payload8 false = Return frame
       /\ CANMessage.dlc frame = 8.
Proof.
  destruct (C8_frame_construction_boundaries 0%Q 0x300 Scenario.payload8 false)
    as [Hb [_ H8]].
  destruct (C8_frame_construction_boundaries 0%Q 0x300 (x00 :: Scenario.payload8) false)
    as [_ [H9 _]].
  destruct Hb as [H1 [_ [H3 _]]]; [simpl; lia|].
  destruct H8 as [frame [Hf [Hd _]]]; [reflexivity|simpl; lia|].
  split; [exact H1|]. split; [exact H3|]. split; [apply H9; reflexivity|].
  exists frame. split; assumption.
Defined.

(** C10. The constructor only checks the upper identifier bound: a negative
    identifier with a payload of at most 8 bytes is accepted in both
    addressing modes, and the identifier of the frame built is outside the
    documented range of its mode. *)
Theorem C10_negative_identifier_accepted
    (now : Q) (can_id : Z) (data : list byte) (ext : bool) :
  can_id < 0 ->
  (length data <= 8)%nat ->
  exists frame,
    CANMessage.init now can_id data ext = Return frame
    /\ CANMessage.can_id frame = can_id
    /\ CANMessage.is_extended frame = ext
    /\ ~ CANMessage.documented_range ext (CANMessage.can_id frame).
Proof.
  intros Hneg Hlen. eexists. split.
  - apply init_ok; [assumption|destruct ext; lia].
  - simpl. repeat split. unfold CANMessage.documented_range. lia.
Qed.

Lemma C10_negative_identifier_accepted_witness :
  (exists frame,
     CANMessage.init 0%Q (-1) Scenario.payload8 false = Return frame
     /\ CANMessage.can_id frame = -1
     /\ CANMessage.is_extended frame = false
     /\ ~ CANMessage.documented_range false (CANMessage.can_id frame))
  /\ (exists frame,
        CANMessage.init 0%Q (-1) Scenario.payload8 true = Return frame
        /\ CANMessage.can_id frame = -1
        /\ CANMessage.is_extended frame = true
        /\ ~ CANMessage.documented_range true (CANMessage.can_id frame)).
Proof.
  split.
  - apply (C10_negative_identifier_accepted 0%Q (-1) Scenario.payload8 false);
      [lia|simpl; lia].
  - apply (C10_negative_identifier_accepted 0%Q (-1) Scenario.payload8 true);
      [lia|simpl; lia].
Defined.

(** ** Bus transport: counters *)

Section BusCounters.

Import CANProtocol.

Variable now : Q.

Lemma send_message_counters (s : t) (can_id : Z) (data : list byte) (ext : bool) :
  let s' := snd (send_message now s can_id data ext) in
  messages_sent s <= messages_sent s'
  /\ messages_received s' = messages_received s
  /\ error_count s <= error_count s'.
Proof.
  unfold send_message.
  destruct (is_active s); simpl; [|lia].
  destruct (CANMessage.init now can_id data ext); simpl; lia.
Qed.

Lemma receive_message_counters (s : t) :
  let s' := snd (receive_message s) in
  messages_sent s' = messages_sent s
  /\ messages_received s <= messages_received s'
  /\ error_count s' = error_count s.
Proof.
  unfold receive_message.
  destruct (is_active s); simpl; [|lia].
  destruct (rx_buffer s); simpl; lia.
Qed.

Lemma simulate_incoming_message_counters
    (s : t) (can_id : Z) (data : list byte) (ext : bool) :
  let s' := snd (simulate_incoming_message now s can_id data ext) in
  messages_sent s' = messages_sent s
  /\ messages_received s' = messages_received s
  /\ error_count s' = error_count s.
Proof.
  unfold simulate_incoming_message.
  destruct (is_active s); simpl; [|lia].
  destruct (negb (length (rx_filters s) =? 0)%nat
            && not_in_filters can_id (rx_filters s)); simpl; [lia|].
  destruct (CANMessage.init now can_id data ext); simpl; lia.
Qed.

Lemma send_sensor_data_counters (s : t) (sensor_type : string) (value : float) :
  let s' := snd (send_sensor_data now s sensor_type value) in
  messages_sent s <= messages_sent s'
  /\ messages_received s' = messages_received s
  /\ error_count s <= error_count s'.
Proof.
  unfold send_sensor_data.
  destruct (B64.int (value * 100)) as [n|[|]]; simpl; [|lia|lia].
  destruct (Py.to_bytes4_le_signed n) as [data4|]; simpl; [|lia].
  pose proof (send_message_counters s (sensor_id sensor_type)
                (data4 ++ [x00; x00; x00; x00]) false) as H.
  destruct (send_message now s (sensor_id sensor_type)
              (data4 ++ [x00; x00; x00; x00]) false) as [sent s'].
  exact H.
Qed.

(** Every operation but [start] keeps the three counters from decreasing. *)
Lemma step_counters_le (o : op) (s : t) :
  o <> OpStart -> counters_le s (step now o s).
Proof.
  intros Ho. unfold counters_le.
  destruct o; simpl; try congruence; try lia.
  - pose proof (send_message_counters s can_id data is_extended). simpl in *. lia.
  - pose proof (receive_message_counters s). simpl in *. lia.
  - pose proof (simulate_incoming_message_counters s can_id data is_extended).
    simpl in *. lia.
  - unfold add_rx_filter.
    destruct (not_in_filters can_id (rx_filters s)); simpl; lia.
  - pose proof (send_sensor_data_counters s sensor_type value). simpl in *. lia.
  - pose proof (send_message_counters s (actuator_id actuator_type)).
    unfold send_actuator_command. simpl in *.
    match goal with
    | |- context [send_message now s ?i ?d ?e] => specialize (H d e)
    end.
    lia.
Qed.

End BusCounters.

(** C2, as stated, fails: [start()] assigns 0 to [error_count], so the
    counter decreases when the bus is restarted after a send error. *)
Lemma C2_start_decreases_error_count :
  ~ (forall (now : Q) (o : CANProtocol.op) (s : CANProtocol.t),
       CANProtocol.counters_le s (CANProtocol.step now o s)).
Proof.
  intros H.
  destruct (H 0%Q CANProtocol.OpStart Scenario.bus_one_error) as [_ [_ Herr]].
  vm_compute in Herr. apply Herr. reflexivity.
Qed.

(** C2, amended. Under every operation of the transport [messages_sent] and
    [messages_received] never decrease; [error_count] never decreases under
    any operation other than [start], and [start] resets it to 0. *)
Theorem C2_counters_monotone_except_start
    (now : Q) (o : CANProtocol.op) (s : CANProtocol.t) :
  CANProtocol.messages_sent s <= CANProtocol.messages_sent (CANProtocol.step now o s)
  /\ CANProtocol.messages_received s
     <= CANProtocol.messages_received (CANProtocol.step now o s)
  /\ (o <> CANProtocol.OpStart ->
      CANProtocol.error_count s <= CANProtocol.error_count (CANProtocol.step now o s))
  /\ (o = CANProtocol.OpStart ->
      CANProtocol.error_count (CANProtocol.step now o s) = 0).
Proof.
  destruct (CANProtocol.op_eq_start o) as [-> | Hne].
  - simpl. repeat split; try lia. congruence.
  - destruct (step_counters_le now o s Hne) as [Hs [Hr He]].
    split; [exact Hs|]. split; [exact Hr|]. split.
    + intros _. exact He.
    + intros Heq. contradiction.
Qed.

Lemma C2_counters_monotone_except_start_witness :
  CANProtocol.error_count Scenario.bus_started
  <= CANProtocol.error_count
       (CANProtocol.step 0%Q (CANProtocol.OpSendMessage 0x800 [] false)
          Scenario.bus_started)
  /\ CANProtocol.error_count
       (CANProtocol.step 0%Q CANProtocol.OpStart Scenario.bus_one_error) = 0.
Proof.
  split.
  - apply (C2_counters_monotone_except_start 0%Q
             (CANProtocol.OpSendMessage 0x800 [] false) Scenario.bus_started).
    discriminate.
  - apply (C2_counters_monotone_except_start 0%Q
             CANProtocol.OpStart Scenario.bus_one_error).
    reflexivity.
Defined.

(** ** Bus transport: the load estimate *)

(** A successful [send_message] leaves [bus_load] equal to the load formula on
    the buffers after the call. *)
Lemma send_message_load_in_sync
    (now : Q) (s : CANProtocol.t) (can_id : Z) (data : list byte) (ext : bool) :
  fst (CANProtocol.send_message now s can_id data ext) = true ->
  CANProtocol.load_in_sync (snd (CANProtocol.send_message now s can_id data ext)).
Proof.
  unfold CANProtocol.send_message.
  destruct (CANProtocol.is_active s); simpl; [|discriminate].
  destruct (CANMessage.init now can_id data ext); simpl; [|discriminate].
  intros _. unfold CANProtocol.load_in_sync. simpl. reflexivity.
Qed.

(** [receive_message] and [simulate_incoming_message] never assign
    [bus_load]. *)
Lemma receive_paths_keep_bus_load
    (now : Q) (s : CANProtocol.t) (can_id : Z) (data : list byte) (ext : bool) :
  CANProtocol.bus_load (snd (CANProtocol.receive_message s)) = CANProtocol.bus_load s
  /\ CANProtocol.bus_load
       (snd (CANProtocol.simulate_incoming_message now s can_id data ext))
     = CANProtocol.bus_load s.
Proof.
  split.
  - unfold CANProtocol.receive_message.
    destruct (CANProtocol.is_active s); simpl; [|reflexivity].
    destruct (CANProtocol.rx_buffer s); reflexivity.
  - unfold CANProtocol.simulate_incoming_message.
    destruct (CANProtocol.is_active s); simpl; [|reflexivity].
    destruct (negb (length (CANProtocol.rx_filters s) =? 0)%nat
              && CANProtocol.not_in_filters can_id (CANProtocol.rx_filters s));
      simpl; [reflexivity|].
    destruct (CANMessage.init now can_id data ext); reflexivity.
Qed.

(** C3. The code at the failing inputs.  On a started 250 kbit/s bus,
    [simulate_incoming_message(0x300, payload8)] puts one frame into
    [rx_buffer] and leaves [bus_load] at 0, where the formula gives 0.052 for
    one buffered frame.  With one frame in each buffer and [bus_load] at
    0.104, [receive_message()] pops the received frame and leaves [bus_load]
    at 0.104, where the formula gives 0.052 for the frame that remains.  In
    both cases [bus_load] differs from the formula on the buffers after the
    call: only [send_message] recomputes it. *)
Theorem C3_bus_load_stale_after_inject_and_receive :
  (length (CANProtocol.rx_buffer Scenario.bus_one_injected) = 1%nat
   /\ length (CANProtocol.tx_buffer Scenario.bus_one_injected) = 0%nat
   /\ (CANProtocol.bus_load Scenario.bus_one_injected == 0)%Q
   /\ (CANProtocol.load_formula 1 RATE_250K == 0.052)%Q
   /\ ~ CANProtocol.load_in_sync Scenario.bus_one_injected)
  /\ (CANProtocol.load_in_sync Scenario.bus_one_each
      /\ (CANProtocol.bus_load Scenario.bus_one_each == 0.104)%Q)
  /\ (let s' := snd (CANProtocol.receive_message Scenario.bus_one_each) in
      length (CANProtocol.rx_buffer s') = 0%nat
      /\ length (CANProtocol.tx_buffer s') = 1%nat
      /\ CANProtocol.messages_received s' = 1
      /\ (CANProtocol.bus_load s' == 0.104)%Q
      /\ ~ CANProtocol.load_in_sync s').
Proof.
  split; [|split].
  - split; [reflexivity|]. split; [reflexivity|].
    split; [vm_compute; reflexivity|]. split; [vm_compute; reflexivity|].
    intros H. vm_compute in H. discriminate.
  - split; vm_compute; reflexivity.
  - cbv zeta. split; [reflexivity|]. split; [reflexivity|].
    split; [reflexivity|]. split; [vm_compute; reflexivity|].
    intros H. vm_compute in H. discriminate.
Qed.

(** ** Irrigation: the zone dictionary *)

Section IrrigationZones.

Import IrrigationSystem.

Lemma unknown_zone_false (s : t) (z : Z) :
  unknown_zone s z = false <-> is_Some (zones_status s !! z).
Proof.
  unfold unknown_zone. destruct (zones_status s !! z) eqn:E.
  - split; [eauto|reflexivity].
  - split; [discriminate|]. intros [b Hb]. discriminate.
Qed.

Lemma closed_keys (l : list Z) :
  ((fun i : Z => (i, false)) <$> l).*1 = l.
Proof.
  induction l as [|a l IH]; simpl; [reflexivity|]. f_equal. exact IH.
Qed.

(** [__init__] builds exactly the zones [1..zones], all closed. *)
Lemma all_closed_lookup (zones z : Z) :
  all_closed zones !! z = if decide (1 <= z <= zones) then Some false else None.
Proof.
  unfold all_closed. case_decide as Hz.
  - apply elem_of_list_to_map_1.
    + rewrite closed_keys. apply NoDup_seqZ.
    + apply list_elem_of_fmap. exists z. split; [reflexivity|].
      apply elem_of_seqZ. lia.
  - apply not_elem_of_list_to_map_1.
    rewrite closed_keys. intros Hin.
    apply elem_of_seqZ in Hin. lia.
Qed.

Lemma init_zones_wf (id : string) (zones : Z) (max_flow : Q) :
  zones_wf (init id zones max_flow).
Proof.
  intros z. simpl. rewrite all_closed_lookup.
  case_decide as Hz; split; intros H; try assumption; try lia.
  - eauto.
  - destruct H as [b Hb]. discriminate.
Qed.

(** [_update_flow_and_pressure] assigns the flow and the pressure only. *)
Lemma update_flow_frame (jitter : Q) (s : t) :
  let s' := _update_flow_and_pressure jitter s in
  zones_status s' = zones_status s
  /\ num_zones s' = num_zones s
  /\ is_active s' = is_active s
  /\ mode s' = mode s
  /\ target_soil_moisture s' = target_soil_moisture s
  /\ operation_time s' = operation_time s
  /\ total_volume s' = total_volume s
  /\ last_irrigation s' = last_irrigation s.
Proof.
  unfold _update_flow_and_pressure.
  destruct (active_zones (zones_status s) =? 0); simpl; repeat split.
Qed.

(** What [open_zone] does to the object. *)
Lemma open_zone_frame (jitter : Q) (s : t) (z : Z) :
  let s' := snd (open_zone jitter s z) in
  zones_status s'
  = (if is_active s && negb (unknown_zone s z)
     then <[z := true]> (zones_status s) else zones_status s)
  /\ num_zones s' = num_zones s
  /\ is_active s' = is_active s
  /\ mode s' = mode s
  /\ target_soil_moisture s' = target_soil_moisture s
  /\ operation_time s' = operation_time s
  /\ total_volume s' = total_volume s
  /\ last_irrigation s' = last_irrigation s.
Proof.
  unfold open_zone.
  destruct (is_active s) eqn:Ea; simpl; [|repeat split; congruence].
  destruct (unknown_zone s z) eqn:Eu; simpl; [repeat split; congruence|].
  pose proof (update_flow_frame jitter
                (set_zones_status (<[z := true]> (zones_status s)) s)) as H.
  simpl in H. rewrite Ea in H. exact H.
Qed.

(** What [close_zone] does to the object. *)
Lemma close_zone_frame (jitter : Q) (s : t) (z : Z) :
  let s' := snd (close_zone jitter s z) in
  zones_status s'
  = (if unknown_zone s z
     then zones_status s else <[z := false]> (zones_status s))
  /\ num_zones s' = num_zones s
  /\ is_active s' = is_active s
  /\ mode s' = mode s
  /\ target_soil_moisture s' = target_soil_moisture s
  /\ operation_time s' = operation_time s
  /\ total_volume s' = total_volume s
  /\ last_irrigation s' = last_irrigation s.
Proof.
  unfold close_zone.
  destruct (unknown_zone s z) eqn:Eu; simpl; [repeat split|].
  exact (update_flow_frame jitter
           (set_zones_status (<[z := false]> (zones_status s)) s)).
Qed.

Lemma is_Some_insert_known (m : gmap Z bool) (z k : Z) (b : bool) :
  is_Some (m !! z) -> (is_Some (<[z := b]> m !! k) <-> is_Some (m !! k)).
Proof.
  intros Hz. destruct (decide (z = k)) as [->|Hne].
  - rewrite lookup_insert_eq. split; eauto.
  - rewrite lookup_insert_ne by assumption. reflexivity.
Qed.

(** The valve operations keep the set of zone numbers. *)
Lemma open_zone_wf (jitter : Q) (s : t) (z : Z) :
  zones_wf s -> zones_wf (snd (open_zone jitter s z)).
Proof.
  intros Hwf k.
  destruct (open_zone_frame jitter s z) as [Hz [Hn _]].
  rewrite Hz, Hn.
  destruct (is_active s && negb (unknown_zone s z)) eqn:E; [|apply Hwf].
  apply andb_true_iff in E. destruct E as [_ E].
  apply negb_true_iff, unknown_zone_false in E.
  rewrite is_Some_insert_known by assumption. apply Hwf.
Qed.

Lemma close_zone_wf (jitter : Q) (s : t) (z : Z) :
  zones_wf s -> zones_wf (snd (close_zone jitter s z)).
Proof.
  intros Hwf k.
  destruct (close_zone_frame jitter s z) as [Hz [Hn _]].
  rewrite Hz, Hn.
  destruct (unknown_zone s z) eqn:E; [apply Hwf|].
  apply unknown_zone_false in E.
  rewrite is_Some_insert_known by assumption. apply Hwf.
Qed.

Lemma stop_wf (s : t) : zones_wf s -> zones_wf (stop s).
Proof.
  intros Hwf k. unfold stop. simpl.
  rewrite lookup_fmap, fmap_is_Some. apply Hwf.
Qed.

(** A zone counted as open is a zone of the dictionary. *)
Lemma active_zones_open (zones : gmap Z bool) :
  active_zones zones <> 0 -> exists z, zones !! z = Some true.
Proof.
  unfold active_zones. intros H.
  destruct (filter (fun kv : Z * bool => kv.2 = true) (map_to_list zones))
    as [|[k b] rest] eqn:E; [simpl in H; lia|].
  assert (Hin : (k, b) ∈ filter (fun kv : Z * bool => kv.2 = true) (map_to_list zones))
    by (rewrite E; left).
  apply list_elem_of_filter in Hin. destruct Hin as [Hb Hin]. simpl in Hb. subst b.
  exists k. apply elem_of_map_to_list. exact Hin.
Qed.

(** On a well-formed object the division of [_update_flow_and_pressure] is
    never a division by zero. *)
Lemma num_zones_positive_of_open (s : t) :
  zones_wf s -> active_zones (zones_status s) <> 0 -> 0 < num_zones s.
Proof.
  intros Hwf H. destruct (active_zones_open _ H) as [z Hz].
  assert (His : is_Some (zones_status s !! z)) by eauto.
  apply Hwf in His. lia.
Qed.

(** The loop of [auto_irrigate] over a list of zone numbers. *)
Lemma open_zones_fold (jitter : Z -> Q) (l : list Z) (s : t) :
  is_active s = true ->
  let s' := foldl (fun st zone => snd (open_zone (jitter zone) st zone)) s l in
  (forall z, z ∈ l -> is_Some (zones_status s !! z) ->
             zones_status s' !! z = Some true)
  /\ (forall z, zones_status s !! z = Some true ->
                zones_status s' !! z = Some true)
  /\ (forall z, is_Some (zones_status s' !! z) <-> is_Some (zones_status s !! z))
  /\ num_zones s' = num_zones s
  /\ is_active s' = is_active s
  /\ mode s' = mode s
  /\ target_soil_moisture s' = target_soil_moisture s
  /\ operation_time s' = operation_time s
  /\ total_volume s' = total_volume s
  /\ last_irrigation s' = last_irrigation s.
Proof.
  revert s. induction l as [|a l IH]; intros s Ha; simpl.
  - repeat split; try tauto. intros z Hz. inversion Hz.
  - destruct (open_zone_frame (jitter a) s a)
      as [Hz [Hn [Hact [Hm [Ht [Ho [Hv Hl]]]]]]].
    set (s1 := snd (open_zone (jitter a) s a)) in *.
    assert (Ha1 : is_active s1 = true) by congruence.
    destruct (IH s1 Ha1)
      as [IHin [IHtrue [IHdom [IHn [IHact [IHm [IHt [IHo [IHv IHl]]]]]]]]].
    rewrite Ha in Hz. simpl in Hz.
    assert (Hkeep : forall z, zones_status s !! z = Some true ->
                              zones_status s1 !! z = Some true).
    { intros z Hzt. rewrite Hz. destruct (unknown_zone s a); simpl; [assumption|].
      destruct (decide (a = z)) as [->|Hne].
      - apply lookup_insert_eq.
      - rewrite lookup_insert_ne by assumption. assumption. }
    assert (Hdom : forall z, is_Some (zones_status s1 !! z)
                             <-> is_Some (zones_status s !! z)).
    { intros z. rewrite Hz. destruct (unknown_zone s a) eqn:Eu; simpl; [reflexivity|].
      apply is_Some_insert_known. apply unknown_zone_false. assumption. }
    split; [|split; [|split]].
    + intros z Hin Hsome. apply elem_of_cons in Hin. destruct Hin as [->|Hin].
      * apply IHtrue. rewrite Hz.
        apply unknown_zone_false in Hsome. rewrite Hsome. simpl.
        apply lookup_insert_eq.
      * apply IHin; [assumption|]. apply Hdom. assumption.
    + intros z Hzt. apply IHtrue, Hkeep, Hzt.
    + intros z. rewrite IHdom. apply Hdom.
    + repeat split; congruence.
Qed.

(** [auto_irrigate] and [irrigate_zone] keep the set of zone numbers. *)
Lemma auto_irrigate_wf (jitter : Z -> Q) (s : t) (m : Q) :
  zones_wf s -> zones_wf (snd (auto_irrigate jitter s m)).
Proof.
  intros Hwf. unfold auto_irrigate.
  destruct (is_active s) eqn:Ha; simpl; [|exact Hwf].
  destruct (negb (IrrigationMode_eqb (mode s) IRR_AUTOMATIC)); [exact Hwf|].
  destruct (Py.Qltb m (target_soil_moisture s)); simpl; [|exact Hwf].
  destruct (open_zones_fold jitter (seqZ 1 (num_zones s)) s Ha)
    as [_ [_ [Hdom [Hn _]]]].
  intros z. unfold open_all_zones. rewrite Hdom, Hn. apply Hwf.
Qed.

Lemma irrigate_zone_wf (now j1 j2 : Q) (s : t) (z : Z) (d : Q) :
  zones_wf s -> zones_wf (irrigate_zone now j1 j2 s z d).
Proof.
  intros Hwf. unfold irrigate_zone.
  destruct (is_active s); simpl; [|exact Hwf].
  pose proof (open_zone_wf j1 s z Hwf) as H1.
  set (s1 := snd (open_zone j1 s z)) in *.
  assert (H3 : zones_wf
                 (set_total_volume
                    (total_volume (set_operation_time (operation_time s1 + d)%Q s1)
                     + current_flow_rate
                         (set_operation_time (operation_time s1 + d)%Q s1) * d)%Q
                    (set_operation_time (operation_time s1 + d)%Q s1)))
    by exact H1.
  exact (close_zone_wf j2 _ z H3).
Qed.

(** [close_zone] on a known zone returns [True] whatever [is_active] is. *)
Lemma close_zone_known (jitter : Q) (s : t) (z : Z) :
  is_Some (zones_status s !! z) -> fst (close_zone jitter s z) = true.
Proof.
  intros Hz. apply unknown_zone_false in Hz.
  unfold close_zone. rewrite Hz. reflexivity.
Qed.

End IrrigationZones.

(** ** Irrigation: valve operations and automatic mode *)

(** C4. The code at the failing input.  A controller that was never started
    is inactive; [close_zone(1)] on it returns [True], where [open_zone(1)]
    on the same object is refused: [close_zone] has no check of
    [is_active].  An unknown zone is refused as unknown, not as inactive. *)
Theorem C4_close_zone_succeeds_when_inactive :
  IrrigationSystem.is_active Scenario.irrigation_fresh = false
  /\ fst (IrrigationSystem.close_zone 0%Q Scenario.irrigation_fresh 1) = true
  /\ fst (IrrigationSystem.open_zone 0%Q Scenario.irrigation_fresh 1) = false
  /\ IrrigationSystem.unknown_zone Scenario.irrigation_fresh 9 = true
  /\ fst (IrrigationSystem.close_zone 0%Q Scenario.irrigation_fresh 9) = false.
Proof.
  repeat split; vm_compute; reflexivity.
Qed.

(** C5. The code at the failing input.  On an active controller with 4 zones
    and zone 1 open (flow 25 L/min), [irrigate_zone(9, 10.0)] at time 1 adds
    10 minutes to [operation_time] and 250 litres to [total_volume] and
    stamps [last_irrigation], although zone 9 does not exist; the zone
    dictionary is unchanged. *)
Theorem C5_irrigate_unknown_zone_accumulates :
  let s := Scenario.irrigation_zone1_open in
  let s' := IrrigationSystem.irrigate_zone 1%Q 0%Q 0%Q s 9 10%Q in
  IrrigationSystem.is_active s = true
  /\ IrrigationSystem.num_zones s = 4
  /\ IrrigationSystem.unknown_zone s 9 = true
  /\ (IrrigationSystem.current_flow_rate s == 25)%Q
  /\ (IrrigationSystem.operation_time s == 0)%Q
  /\ (IrrigationSystem.operation_time s' == 10)%Q
  /\ (IrrigationSystem.total_volume s == 0)%Q
  /\ (IrrigationSystem.total_volume s' == 250)%Q
  /\ IrrigationSystem.last_irrigation s = None
  /\ IrrigationSystem.last_irrigation s' = Some 1%Q
  /\ IrrigationSystem.zones_status s' = IrrigationSystem.zones_status s.
Proof.
  cbv zeta. repeat split; vm_compute; reflexivity.
Qed.

(** C7, as stated, fails: with target 60 and moisture 45 the call triggers,
    but [operation_time] stays 0 instead of growing by min(30, 30) = 30. *)
Lemma C7_duration_not_accumulated :
  ~ (forall (jitter : Z -> Q) (s : IrrigationSystem.t) (m : Q),
       IrrigationSystem.is_active s = true ->
       IrrigationSystem.mode s = IRR_AUTOMATIC ->
       (m < IrrigationSystem.target_soil_moisture s)%Q ->
       fst (IrrigationSystem.auto_irrigate jitter s m) = true
       /\ (IrrigationSystem.operation_time
             (snd (IrrigationSystem.auto_irrigate jitter s m))
           == IrrigationSystem.operation_time s
              + Qmin 30 ((IrrigationSystem.target_soil_moisture s - m) * 2))%Q).
Proof.
  intros H.
  destruct (H (fun _ => 0%Q) Scenario.irrigation_auto60 45%Q) as [_ Hacc].
  - reflexivity.
  - reflexivity.
  - reflexivity.
  - vm_compute in Hacc. discriminate.
Qed.

(** C7, amended. On an active controller in Automatic mode with
    [current_moisture < target_soil_moisture], [auto_irrigate] triggers; the
    duration it computes, min(30, (target - current) * 2) minutes, is positive
    and at most 30, and is not accumulated: [operation_time], [total_volume]
    and [last_irrigation] are those before the call. *)
Theorem C7_auto_irrigate_triggers_without_accounting
    (jitter : Z -> Q) (s : IrrigationSystem.t) (m : Q) :
  IrrigationSystem.is_active s = true ->
  IrrigationSystem.mode s = IRR_AUTOMATIC ->
  (m < IrrigationSystem.target_soil_moisture s)%Q ->
  let s' := snd (IrrigationSystem.auto_irrigate jitter s m) in
  fst (IrrigationSystem.auto_irrigate jitter s m) = true
  /\ (IrrigationSystem.auto_irrigate_duration s m
      == Qmin 30 ((IrrigationSystem.target_soil_moisture s - m) * 2))%Q
  /\ (0 < IrrigationSystem.auto_irrigate_duration s m <= 30)%Q
  /\ IrrigationSystem.operation_time s' = IrrigationSystem.operation_time s
  /\ IrrigationSystem.total_volume s' = IrrigationSystem.total_volume s
  /\ IrrigationSystem.last_irrigation s' = IrrigationSystem.last_irrigation s.
Proof.
  intros Ha Hm Hlt. cbv zeta.
  unfold IrrigationSystem.auto_irrigate. rewrite Ha, Hm. simpl.
  apply Qltb_true in Hlt. rewrite Hlt. simpl.
  apply Qltb_true in Hlt.
  destruct (open_zones_fold jitter (seqZ 1 (IrrigationSystem.num_zones s)) s Ha)
    as [_ [_ [_ [_ [_ [_ [_ [Ho [Hv Hl]]]]]]]]].
  unfold IrrigationSystem.open_all_zones.
  split; [reflexivity|]. split; [reflexivity|].
  split; [|split; [exact Ho|split; [exact Hv|exact Hl]]].
  unfold IrrigationSystem.auto_irrigate_duration. split.
  - apply Q.min_glb_lt; lra.
  - apply Q.le_min_l.
Qed.

Lemma C7_auto_irrigate_triggers_without_accounting_witness :
  fst (IrrigationSystem.auto_irrigate (fun _ => 0%Q) Scenario.irrigation_auto60 45%Q)
  = true
  /\ (IrrigationSystem.auto_irrigate_duration Scenario.irrigation_auto60 45%Q == 30)%Q
  /\ IrrigationSystem.operation_time
       (snd (IrrigationSystem.auto_irrigate (fun _ => 0%Q)
               Scenario.irrigation_auto60 45%Q))
     = IrrigationSystem.operation_time Scenario.irrigation_auto60.
Proof.
  destruct (C7_auto_irrigate_triggers_without_accounting
              (fun _ => 0%Q) Scenario.irrigation_auto60 45%Q)
    as [Ht [_ [_ [Ho _]]]].
  - reflexivity.
  - reflexivity.
  - reflexivity.
  - split; [exact Ht|]. split; [vm_compute; reflexivity|exact Ho].
Defined.

(** C9. On an active controller in Automatic mode whose zones are
    [1..num_zones]: if [current_moisture] is strictly below
    [target_soil_moisture], [auto_irrigate] returns [True] and every zone in
    [1..num_zones] is open afterwards; if it is at or above the target, it
    returns [False] and the object, hence every zone state, is unchanged. *)
Theorem C9_auto_irrigate_opens_all_or_nothing
    (jitter : Z -> Q) (s : IrrigationSystem.t) (m : Q) :
  IrrigationSystem.zones_wf s ->
  IrrigationSystem.is_active s = true ->
  IrrigationSystem.mode s = IRR_AUTOMATIC ->
  ((m < IrrigationSystem.target_soil_moisture s)%Q ->
     fst (IrrigationSystem.auto_irrigate jitter s m) = true
     /\ IrrigationSystem.num_zones (snd (IrrigationSystem.auto_irrigate jitter s m))
        = IrrigationSystem.num_zones s
     /\ forall z : Z,
          1 <= z <= IrrigationSystem.num_zones s ->
          IrrigationSystem.zones_status
            (snd (IrrigationSystem.auto_irrigate jitter s m)) !! z = Some true)
  /\ ((IrrigationSystem.target_soil_moisture s <= m)%Q ->
        IrrigationSystem.auto_irrigate jitter s m = (false, s)).
Proof.
  intros Hwf Ha Hm.
  unfold IrrigationSystem.auto_irrigate. rewrite Ha, Hm. simpl. split.
  - intros Hlt. apply Qltb_true in Hlt. rewrite Hlt. simpl.
    destruct (open_zones_fold jitter (seqZ 1 (IrrigationSystem.num_zones s)) s Ha)
      as [Hopen [_ [_ [Hn _]]]].
    unfold IrrigationSystem.open_all_zones.
    split; [reflexivity|]. split; [exact Hn|].
    intros z Hz. apply Hopen.
    + apply elem_of_seqZ. lia.
    + apply Hwf. exact Hz.
  - intros Hge. apply Qltb_false in Hge. rewrite Hge. reflexivity.
Qed.

Lemma C9_auto_irrigate_opens_all_or_nothing_witness :
  (fst (IrrigationSystem.auto_irrigate (fun _ => 0%Q) Scenario.irrigation_auto60 45%Q)
   = true
   /\ forall z : Z,
        1 <= z <= 4 ->
        IrrigationSystem.zones_status
          (snd (IrrigationSystem.auto_irrigate (fun _ => 0%Q)
                  Scenario.irrigation_auto60 45%Q)) !! z = Some true)
  /\ IrrigationSystem.auto_irrigate (fun _ => 0%Q) Scenario.irrigation_auto60 65%Q
     = (false, Scenario.irrigation_auto60).
Proof.
  destruct (C9_auto_irrigate_opens_all_or_nothing
              (fun _ => 0%Q) Scenario.irrigation_auto60 45%Q) as [Hlow _].
  - exact (init_zones_wf "IRR_001" 4 100%Q).
  - reflexivity.
  - reflexivity.
  - destruct (C9_auto_irrigate_opens_all_or_nothing
                (fun _ => 0%Q) Scenario.irrigation_auto60 65%Q) as [_ Hhigh].
    + exact (init_zones_wf "IRR_001" 4 100%Q).
    + reflexivity.
    + reflexivity.
    + destruct Hlow as [Ht [_ Hz]]; [reflexivity|].
      split; [split; [exact Ht|exact Hz]|].
      apply Hhigh. vm_compute. discriminate.
Defined.

(** ** Rounding *)



(** ** Fertilization: [apply] *)



(** ** Fertilization: [recommend_fertilizer] *)

(** C6, as stated, fails on the rate: for soil N 14.96 (P and K on target)
    the N deficit is 15.04, the high-N product is recommended, and the rate
    returned is 15.0, which is not equal to min(200, mean(deficits) * 3) =
    15.04: the returned rate is rounded to one decimal. *)
Lemma C6_rate_is_rounded :
  ~ (forall (s : FertilizerSystem64.t) (current_npk : gmap string float),
       let r := fst (FertilizerSystem64.recommend_fertilizer
                       B64.sum s current_npk) in
       FertilizerSystem64.recommended_fertilizer r <> "Nenhum" ->
       PrimFloat.eqb
         (FertilizerSystem64.recommended_rate_kg_ha r)
         (B64.min (FertilizerSystem64.max_rate s)
            (B64.sum (FertilizerSystem64.values
                        (FertilizerSystem64.rec_deficits r))
             / 3 * 3)%float)
       = true).
Proof.
  intros H.
  specialize (H Scenario.fertilizer64_fresh Scenario.soil64_n_short).
  cbv zeta in H.
  assert (Hp : FertilizerSystem64.recommended_fertilizer
                 (fst (FertilizerSystem64.recommend_fertilizer B64.sum
                         Scenario.fertilizer64_fresh Scenario.soil64_n_short))
               = "NPK 20-10-10") by (vm_compute; reflexivity).
  rewrite Hp in H.
  assert (Hne : "NPK 20-10-10" <> "Nenhum") by discriminate.
  specialize (H Hne). vm_compute in H. discriminate.
Qed.

(** C6, amended, on binary64.  [recommend_fertilizer] computes the deficits
    max(0, target - current) per nutrient (a missing nutrient counts as 0),
    selects the product by the fixed priority (N deficit > 10:
    "NPK 20-10-10"; else P deficit > 10: "NPK 04-14-08"; else K deficit > 10:
    "NPK 10-20-20"; else deficit sum > 15: "NPK 15-15-15"; else none),
    returns the rate min(max_rate, (sum / 3) * 3) rounded to one decimal
    when a product is recommended and 0 otherwise, and leaves the controller
    unchanged.  Every difference, comparison, quotient and product is the
    binary64 one, and the sum is the one the builtin returns, however it
    rounds. *)
Theorem C6_recommend_priority_rounded_rate
    (sum : list float -> float)
    (s : FertilizerSystem64.t) (current_npk : gmap string float) :
  let r := fst (FertilizerSystem64.recommend_fertilizer sum s current_npk) in
  let d := FertilizerSystem64.rec_deficits r in
  let target := FertilizerSystem64.target_npk s in
  let current key := default 0%float (current_npk !! key) in
  let product := FertilizerSystem64.recommended_fertilizer r in
  let rate := FertilizerSystem64.recommended_rate_kg_ha r in
  let total := sum [npk64_N d; npk64_P d; npk64_K d] in
  let full_rate :=
    B64.min (FertilizerSystem64.max_rate s) (total / 3 * 3)%float in
  snd (FertilizerSystem64.recommend_fertilizer sum s current_npk) = s
  /\ d = mk_npk64 (B64.max0 (npk64_N target - current "N"))
                  (B64.max0 (npk64_P target - current "P"))
                  (B64.max0 (npk64_K target - current "K"))
  /\ (PrimFloat.ltb 10 (npk64_N d) = true -> product = "NPK 20-10-10")
  /\ (PrimFloat.ltb 10 (npk64_N d) = false ->
      PrimFloat.ltb 10 (npk64_P d) = true -> product = "NPK 04-14-08")
  /\ (PrimFloat.ltb 10 (npk64_N d) = false ->
      PrimFloat.ltb 10 (npk64_P d) = false ->
      PrimFloat.ltb 10 (npk64_K d) = true -> product = "NPK 10-20-20")
  /\ (PrimFloat.ltb 10 (npk64_N d) = false ->
      PrimFloat.ltb 10 (npk64_P d) = false ->
      PrimFloat.ltb 10 (npk64_K d) = false ->
      PrimFloat.ltb 15 total = true -> product = "NPK 15-15-15")
  /\ (PrimFloat.ltb 10 (npk64_N d) = false ->
      PrimFloat.ltb 10 (npk64_P d) = false ->
      PrimFloat.ltb 10 (npk64_K d) = false ->
      PrimFloat.ltb 15 total = false ->
      product = "Nenhum" /\ rate = 0%float)
  /\ (product <> "Nenhum" -> rate = B64.round1 full_rate).
Proof.
  cbv zeta. unfold FertilizerSystem64.recommend_fertilizer.
  set (d := FertilizerSystem64.deficits_of
              (FertilizerSystem64.target_npk s) current_npk).
  assert (Hd : d = mk_npk64
                 (B64.max0 (npk64_N (FertilizerSystem64.target_npk s)
                            - default 0%float (current_npk !! "N")))
                 (B64.max0 (npk64_P (FertilizerSystem64.target_npk s)
                            - default 0%float (current_npk !! "P")))
                 (B64.max0 (npk64_K (FertilizerSystem64.target_npk s)
                            - default 0%float (current_npk !! "K"))))
    by reflexivity.
  clearbody d.
  unfold FertilizerSystem64.choose, FertilizerSystem64.values.
  destruct (PrimFloat.ltb 10 (npk64_N d)) eqn:EN;
    [|destruct (PrimFloat.ltb 10 (npk64_P d)) eqn:EP;
       [|destruct (PrimFloat.ltb 10 (npk64_K d)) eqn:EK;
          [|destruct (PrimFloat.ltb 15 (sum [npk64_N d; npk64_P d; npk64_K d]))
              eqn:ES]]];
    simpl; (split; [reflexivity|]); (split; [exact Hd|]);
    repeat split; intros;
    try reflexivity; try congruence.
Qed.

Lemma C6_recommend_priority_rounded_rate_witness :
  let r := fst (FertilizerSystem64.recommend_fertilizer B64.sum
                  Scenario.fertilizer64_fresh Scenario.soil64_demo) in
  FertilizerSystem64.recommended_fertilizer r = "NPK 20-10-10"
  /\ FertilizerSystem64.rec_deficits r = mk_npk64 15 7 15
  /\ FertilizerSystem64.recommended_rate_kg_ha r = 37%float.
Proof.
  cbv zeta.
  destruct (C6_recommend_priority_rounded_rate B64.sum
              Scenario.fertilizer64_fresh Scenario.soil64_demo)
    as [_ [Hd [HN [_ [_ [_ [_ Hrate]]]]]]].
  cbv zeta in *.
  assert (Hp : FertilizerSystem64.recommended_fertilizer
                 (fst (FertilizerSystem64.recommend_fertilizer B64.sum
                         Scenario.fertilizer64_fresh Scenario.soil64_demo))
               = "NPK 20-10-10").
  { apply HN. rewrite Hd. vm_compute. reflexivity. }
  split; [exact Hp|].
  split; [rewrite Hd; vm_compute; reflexivity|].
  rewrite Hrate by (rewrite Hp; discriminate).
  rewrite Hd. vm_compute. reflexivity.
Defined.

(** The rounding of the rate acts on the binary64 product: for soil N
    15.15 the deficit is 14.85, [(14.85 / 3) * 3] is 14.850000000000001 and
    the rate returned is 14.9. *)
Example recommend_rounds_the_binary64_product :
  FertilizerSystem64.recommended_rate_kg_ha
    (fst (FertilizerSystem64.recommend_fertilizer B64.sum
            Scenario.fertilizer64_fresh Scenario.soil64_n_tie))
  = 0x1.dcccccccccccdp+3%float.
Proof. vm_compute. reflexivity. Qed.

(** The priority tests act on the binary64 deficits: for soil P
    4.999999999999999 the deficit [15.0 - 4.999999999999999] is 10.0, not
    above 10, and nothing is recommended. *)
Example recommend_compares_the_binary64_deficit :
  let r := fst (FertilizerSystem64.recommend_fertilizer B64.sum
                  Scenario.fertilizer64_fresh Scenario.soil64_p_edge) in
  FertilizerSystem64.rec_deficits r = mk_npk64 0 10 0
  /\ FertilizerSystem64.recommended_fertilizer r = "Nenhum"
  /\ FertilizerSystem64.recommended_rate_kg_ha r = 0%float.
Proof. vm_compute. repeat split; reflexivity. Qed.

(** * Further properties of the code *)

(** ** Bus transport: what every history of calls preserves *)

Lemma load_formula_range (n : Z) (baud : CANBaudRate) :
  0 <= n -> (0 <= CANProtocol.load_formula n baud <= 100)%Q.
Proof.
  intros Hn. unfold CANProtocol.load_formula. split.
  - apply Q.min_glb; [lra|].
    assert (H0 : (0 <= inject_Z (n * 130))%Q)
      by (change 0%Q with (inject_Z 0); rewrite <- Zle_Qle; lia).
    apply Qmult_le_0_compat; [|lra].
    unfold Qdiv. apply Qmult_le_0_compat; [exact H0|].
    apply Qinv_le_0_compat.
    change 0%Q with (inject_Z 0). rewrite <- Zle_Qle. destruct baud; simpl; lia.
  - apply Q.le_min_l.
Qed.

Lemma init_frame_ok (now : Q) (can_id : Z) (data : list byte) (ext : bool)
    (m : CANMessage.t) :
  CANMessage.init now can_id data ext = Return m ->
  CANProtocol.frame_ok m
  /\ m = CANProtocol.frame_of now (can_id, data, ext)
  /\ CANProtocol.constructible (can_id, data, ext).
Proof.
  unfold CANMessage.init, CANProtocol.frame_ok, CANProtocol.frame_of,
    CANProtocol.constructible.
  destruct (8 <? Z.of_nat (length data)) eqn:E8; [discriminate|].
  apply Z.ltb_ge in E8.
  destruct ext.
  - destruct (0x1FFFFFFF <? can_id) eqn:E; [discriminate|].
    apply Z.ltb_ge in E. intros [= <-]. simpl. repeat split; lia.
  - destruct (0x7FF <? can_id) eqn:E; [discriminate|].
    apply Z.ltb_ge in E. intros [= <-]. simpl. repeat split; lia.
Qed.

Lemma init_constructible (now : Q) (f : Z * list byte * bool) :
  CANProtocol.constructible f ->
  CANMessage.init now (fst (fst f)) (snd (fst f)) (snd f)
  = Return (CANProtocol.frame_of now f).
Proof.
  destruct f as [[can_id data] ext]. intros [Hlen Hid]. simpl in *.
  apply init_ok; assumption.
Qed.

Lemma init_not_constructible (now : Q) (f : Z * list byte * bool) :
  ~ CANProtocol.constructible f ->
  exists e, CANMessage.init now (fst (fst f)) (snd (fst f)) (snd f) = Raise e.
Proof.
  destruct f as [[can_id data] ext]. intros Hn. simpl.
  destruct (CANMessage.init now can_id data ext) as [m|e] eqn:E; [|eauto].
  destruct (init_frame_ok _ _ _ _ _ E) as [_ [_ Hc]]. contradiction.
Qed.

Lemma not_in_filters_spec (can_id : Z) (filters : list Z) :
  CANProtocol.not_in_filters can_id filters = true <-> ~ In can_id filters.
Proof.
  unfold CANProtocol.not_in_filters. rewrite negb_true_iff.
  split.
  - intros H Hin.
    assert (Ht : existsb (Z.eqb can_id) filters = true).
    { apply existsb_exists. exists can_id. split; [assumption|apply Z.eqb_refl]. }
    congruence.
  - intros H. destruct (existsb (Z.eqb can_id) filters) eqn:E; [|reflexivity].
    apply existsb_exists in E. destruct E as [x [Hx Heq]].
    apply Z.eqb_eq in Heq. subst x. contradiction.
Qed.

Lemma consistent_init (bus_id : string) (baud : CANBaudRate) (addr : Z) :
  CANProtocol.consistent (CANProtocol.init bus_id baud addr).
Proof.
  unfold CANProtocol.consistent. simpl.
  repeat split; try lia; try constructor; try lra.
Qed.

Lemma consistent_update_bus_load (s : CANProtocol.t) :
  CANProtocol.consistent s -> CANProtocol.consistent (CANProtocol._update_bus_load s).
Proof.
  unfold CANProtocol.consistent. simpl.
  intros (Hs & Hr & He & Ht & Hx & Hf & Hl1 & Hl2).
  repeat split; try assumption; try lia;
    apply load_formula_range; lia.
Qed.

Lemma consistent_send_message
    (now : Q) (s : CANProtocol.t) (can_id : Z) (data : list byte) (ext : bool) :
  CANProtocol.consistent s ->
  CANProtocol.consistent (snd (CANProtocol.send_message now s can_id data ext)).
Proof.
  intros Hc. unfold CANProtocol.send_message.
  destruct (CANProtocol.is_active s); simpl; [|exact Hc].
  destruct (CANMessage.init now can_id data ext) as [m|e] eqn:E; simpl.
  - apply consistent_update_bus_load.
    destruct Hc as (Hs & Hr & He & Ht & Hx & Hf & Hl1 & Hl2).
    destruct (init_frame_ok _ _ _ _ _ E) as [Hok _].
    unfold CANProtocol.consistent. simpl.
    repeat split; try assumption; try lia.
    + rewrite length_app. simpl. lia.
    + apply Forall_app. split; [assumption|]. constructor; [assumption|constructor].
  - destruct Hc as (Hs & Hr & He & Ht & Hx & Hf & Hl1 & Hl2).
    unfold CANProtocol.consistent. simpl.
    repeat split; try assumption; try lia.
    rewrite length_app. simpl. lia.
Qed.

Lemma consistent_step (now : Q) (o : CANProtocol.op) (s : CANProtocol.t) :
  CANProtocol.consistent s -> CANProtocol.consistent (CANProtocol.step now o s).
Proof.
  intros Hc. destruct o; simpl; try exact Hc.
  - destruct Hc as (Hs & Hr & He & Ht & Hx & Hf & Hl1 & Hl2).
    unfold CANProtocol.consistent. simpl. repeat split; try assumption; lia.
  - apply consistent_send_message. exact Hc.
  - unfold CANProtocol.receive_message.
    destruct (CANProtocol.is_active s); simpl; [|exact Hc].
    destruct (CANProtocol.rx_buffer s) as [|m rest] eqn:Erx; simpl; [exact Hc|].
    destruct Hc as (Hs & Hr & He & Ht & Hx & Hf & Hl1 & Hl2).
    unfold CANProtocol.consistent. simpl.
    rewrite Erx in Hx. inversion Hx; subst.
    repeat split; try assumption; lia.
  - unfold CANProtocol.simulate_incoming_message.
    destruct (CANProtocol.is_active s); simpl; [|exact Hc].
    destruct (negb (length (CANProtocol.rx_filters s) =? 0)%nat
              && CANProtocol.not_in_filters can_id (CANProtocol.rx_filters s));
      simpl; [exact Hc|].
    destruct (CANMessage.init now can_id data is_extended) as [m|e] eqn:E;
      simpl; [|exact Hc].
    destruct (init_frame_ok _ _ _ _ _ E) as [Hok _].
    destruct Hc as (Hs & Hr & He & Ht & Hx & Hf & Hl1 & Hl2).
    unfold CANProtocol.consistent. simpl.
    repeat split; try assumption; try lia.
    apply Forall_app. split; [assumption|]. constructor; [assumption|constructor].
  - unfold CANProtocol.add_rx_filter.
    destruct (CANProtocol.not_in_filters can_id (CANProtocol.rx_filters s)) eqn:E;
      [|exact Hc].
    apply not_in_filters_spec in E.
    destruct Hc as (Hs & Hr & He & Ht & Hx & Hf & Hl1 & Hl2).
    unfold CANProtocol.consistent. simpl.
    repeat split; try assumption; try lia.
    apply NoDup_app. split; [assumption|]. split.
    + intros x Hx1 Hx2. apply list_elem_of_In in Hx1.
      apply list_elem_of_singleton in Hx2. subst x. contradiction.
    + apply NoDup_singleton.
  - destruct Hc as (Hs & Hr & He & Ht & Hx & Hf & Hl1 & Hl2).
    unfold CANProtocol.consistent. simpl.
    repeat split; try assumption; try lia. constructor.
  - apply consistent_update_bus_load. exact Hc.
  - unfold CANProtocol.send_sensor_data.
    destruct (B64.int (value * 100)) as [n|[|]]; simpl;
      [|exact Hc|exact Hc].
    destruct (Py.to_bytes4_le_signed n) as [data4|]; simpl; [|exact Hc].
    pose proof (consistent_send_message now s (CANProtocol.sensor_id sensor_type)
                  (data4 ++ [x00; x00; x00; x00]) false Hc) as H.
    destruct (CANProtocol.send_message now s (CANProtocol.sensor_id sensor_type)
                (data4 ++ [x00; x00; x00; x00]) false) as [sent s'].
    exact H.
  - unfold CANProtocol.send_actuator_command.
    apply consistent_send_message. exact Hc.
Qed.

Lemma consistent_run (calls : list (Q * CANProtocol.op)) (s : CANProtocol.t) :
  CANProtocol.consistent s -> CANProtocol.consistent (CANProtocol.run calls s).
Proof.
  revert s. induction calls as [|c calls IH]; intros s Hc; simpl; [exact Hc|].
  apply IH. apply consistent_step. exact Hc.
Qed.

(** X1. The transmit buffer is never drained: after any history of calls on
    a fresh controller, [messages_sent] is the number of frames in
    [tx_buffer]. *)
Theorem X1_tx_buffer_never_drained
    (bus_id : string) (baud : CANBaudRate) (addr : Z)
    (calls : list (Q * CANProtocol.op)) :
  let s := CANProtocol.run calls (CANProtocol.init bus_id baud addr) in
  CANProtocol.messages_sent s = Z.of_nat (length (CANProtocol.tx_buffer s)).
Proof.
  cbv zeta.
  destruct (consistent_run calls _ (consistent_init bus_id baud addr))
    as (Hs & _). exact Hs.
Qed.

(** X2. After any history of calls on a fresh controller, [error_count] is
    between 0 and the length of the error log [errors]: [start] resets the
    counter and keeps the log. *)
Theorem X2_error_count_at_most_log
    (bus_id : string) (baud : CANBaudRate) (addr : Z)
    (calls : list (Q * CANProtocol.op)) :
  let s := CANProtocol.run calls (CANProtocol.init bus_id baud addr) in
  0 <= CANProtocol.error_count s <= Z.of_nat (length (CANProtocol.errors s)).
Proof.
  cbv zeta.
  destruct (consistent_run calls _ (consistent_init bus_id baud addr))
    as (_ & _ & He & _). exact He.
Qed.

(** X3. After any history of calls on a fresh controller, every frame in
    [tx_buffer] and in [rx_buffer] has at most 8 payload bytes, a
    data-length code equal to its payload length and an identifier within
    the upper bound of its addressing mode. *)
Theorem X3_buffered_frames_valid
    (bus_id : string) (baud : CANBaudRate) (addr : Z)
    (calls : list (Q * CANProtocol.op)) :
  let s := CANProtocol.run calls (CANProtocol.init bus_id baud addr) in
  Forall CANProtocol.frame_ok (CANProtocol.tx_buffer s)
  /\ Forall CANProtocol.frame_ok (CANProtocol.rx_buffer s).
Proof.
  cbv zeta.
  destruct (consistent_run calls _ (consistent_init bus_id baud addr))
    as (_ & _ & _ & Ht & Hx & _). split; assumption.
Qed.

Lemma add_rx_filter_idempotent (s : CANProtocol.t) (can_id : Z) :
  CANProtocol.add_rx_filter (CANProtocol.add_rx_filter s can_id) can_id
  = CANProtocol.add_rx_filter s can_id.
Proof.
  destruct (CANProtocol.not_in_filters can_id (CANProtocol.rx_filters s)) eqn:E.
  - assert (Hs : CANProtocol.add_rx_filter s can_id
                 = CANProtocol.set_rx_filters
                     (CANProtocol.rx_filters s ++ [can_id]) s)
      by (unfold CANProtocol.add_rx_filter; rewrite E; reflexivity).
    rewrite Hs. unfold CANProtocol.add_rx_filter. simpl.
    assert (Hin : CANProtocol.not_in_filters can_id
                    (CANProtocol.rx_filters s ++ [can_id]) = false).
    { destruct (CANProtocol.not_in_filters can_id
                  (CANProtocol.rx_filters s ++ [can_id])) eqn:E2; [|reflexivity].
      apply not_in_filters_spec in E2. exfalso. apply E2.
      apply in_or_app. right. left. reflexivity. }
    rewrite Hin. reflexivity.
  - assert (Hs : CANProtocol.add_rx_filter s can_id = s)
      by (unfold CANProtocol.add_rx_filter; rewrite E; reflexivity).
    rewrite Hs. exact Hs.
Qed.

(** X4. After any history of calls on a fresh controller, [rx_filters] holds
    no identifier twice, and adding the same filter a second time changes
    nothing. *)
Theorem X4_rx_filters_no_duplicates
    (bus_id : string) (baud : CANBaudRate) (addr : Z)
    (calls : list (Q * CANProtocol.op)) (can_id : Z) :
  let s := CANProtocol.run calls (CANProtocol.init bus_id baud addr) in
  NoDup (CANProtocol.rx_filters s)
  /\ CANProtocol.add_rx_filter (CANProtocol.add_rx_filter s can_id) can_id
     = CANProtocol.add_rx_filter s can_id.
Proof.
  cbv zeta.
  destruct (consistent_run calls _ (consistent_init bus_id baud addr))
    as (_ & _ & _ & _ & _ & Hf & _).
  split; [exact Hf|apply add_rx_filter_idempotent].
Qed.

(** X5. After any history of calls on a fresh controller, [bus_load] is
    between 0 and 100. *)
Theorem X5_bus_load_within_percent
    (bus_id : string) (baud : CANBaudRate) (addr : Z)
    (calls : list (Q * CANProtocol.op)) :
  let s := CANProtocol.run calls (CANProtocol.init bus_id baud addr) in
  (0 <= CANProtocol.bus_load s <= 100)%Q.
Proof.
  cbv zeta.
  destruct (consistent_run calls _ (consistent_init bus_id baud addr))
    as (_ & _ & _ & _ & _ & _ & Hl). exact Hl.
Qed.

(** ** Bus transport: the load formula *)

(** X6. For a fixed baud rate the load formula never decreases when the
    number of buffered frames grows, and it is exactly 100 from the point
    where 130 bits per buffered frame reach the baud rate. *)
Theorem X6_load_monotone_saturating (n m : Z) (baud : CANBaudRate) :
  0 <= n <= m ->
  (CANProtocol.load_formula n baud <= CANProtocol.load_formula m baud)%Q
  /\ ((CANProtocol.load_formula n baud == 100)%Q
      <-> CANBaudRate_value baud <= n * 130).
Proof.
  intros Hnm.
  assert (Hpos : (0 < inject_Z (CANBaudRate_value baud))%Q).
  { change 0%Q with (inject_Z 0). rewrite <- Zlt_Qlt. destruct baud; simpl; lia. }
  unfold CANProtocol.load_formula. split.
  - apply Q.min_le_compat_l.
    apply Qmult_le_compat_r; [|lra].
    unfold Qdiv. apply Qmult_le_compat_r.
    + rewrite <- Zle_Qle. lia.
    + apply Qlt_le_weak, Qinv_lt_0_compat. exact Hpos.
  - rewrite Q.min_l_iff.
    set (x := inject_Z (n * 130)) in *.
    set (b := inject_Z (CANBaudRate_value baud)) in *.
    assert (Hx : (b <= x)%Q <-> CANBaudRate_value baud <= n * 130)
      by (unfold b, x; rewrite <- Zle_Qle; reflexivity).
    rewrite <- Hx. split.
    + intros H.
      assert (H1 : (1 <= x / b)%Q) by lra.
      apply (Qmult_le_compat_r _ _ b) in H1; [|lra].
      assert (H2 : (x / b * b == x)%Q) by (field; lra).
      lra.
    + intros H.
      assert (H1 : (1 <= x / b)%Q).
      { apply Qle_shift_div_l; [exact Hpos|]. lra. }
      lra.
Qed.

Lemma X6_load_monotone_saturating_witness :
  (CANProtocol.load_formula 1 RATE_250K <= CANProtocol.load_formula 2000 RATE_250K)%Q
  /\ (CANProtocol.load_formula 2000 RATE_250K == 100)%Q.
Proof.
  destruct (X6_load_monotone_saturating 1 2000 RATE_250K) as [Hm _]; [lia|].
  destruct (X6_load_monotone_saturating 2000 2000 RATE_250K) as [_ Hs]; [lia|].
  split; [exact Hm|]. apply Hs. simpl. lia.
Defined.

(** ** Bus transport: receiving *)

Lemma filters_accept_pass (s : CANProtocol.t) (can_id : Z) :
  CANProtocol.filters_accept s can_id ->
  negb (length (CANProtocol.rx_filters s) =? 0)%nat
  && CANProtocol.not_in_filters can_id (CANProtocol.rx_filters s) = false.
Proof.
  intros [Hnil | Hin].
  - rewrite Hnil. reflexivity.
  - destruct (CANProtocol.not_in_filters can_id (CANProtocol.rx_filters s)) eqn:E.
    + apply not_in_filters_spec in E. contradiction.
    + apply andb_false_r.
Qed.

(** Injecting accepted, constructible frames appends them in order. *)
Lemma inject_all_appends
    (now : Q) (frames : list (Z * list byte * bool)) (s : CANProtocol.t) :
  CANProtocol.is_active s = true ->
  Forall (fun f => CANProtocol.filters_accept s (fst (fst f))) frames ->
  Forall CANProtocol.constructible frames ->
  let s' := CANProtocol.inject_all now frames s in
  CANProtocol.rx_buffer s'
  = CANProtocol.rx_buffer s ++ map (CANProtocol.frame_of now) frames
  /\ CANProtocol.is_active s' = true
  /\ CANProtocol.messages_received s' = CANProtocol.messages_received s
  /\ CANProtocol.tx_buffer s' = CANProtocol.tx_buffer s.
Proof.
  revert s. induction frames as [|f frames IH]; intros s Ha Hacc Hc; simpl.
  - rewrite app_nil_r. repeat split. exact Ha.
  - inversion Hacc as [|? ? Hf Hfs]; subst. inversion Hc as [|? ? Hcf Hcs]; subst.
    set (s1 := snd (CANProtocol.simulate_incoming_message now s
                      (fst (fst f)) (snd (fst f)) (snd f))).
    assert (Hs1 : s1 = CANProtocol.set_rx_buffer
                         (CANProtocol.rx_buffer s ++ [CANProtocol.frame_of now f]) s).
    { unfold s1, CANProtocol.simulate_incoming_message.
      rewrite Ha. simpl. rewrite (filters_accept_pass s _ Hf).
      rewrite (init_constructible now f Hcf). reflexivity. }
    destruct (IH s1) as (Hrx & Hact & Hrec & Htx).
    + rewrite Hs1. exact Ha.
    + rewrite Hs1. exact Hfs.
    + exact Hcs.
    + fold s1. rewrite Hrx, Hact, Hrec, Htx, Hs1. simpl.
      rewrite <- app_assoc. repeat split.
Qed.

(** Draining a buffer returns its frames from the oldest to the newest. *)
Lemma receive_n_drains (s : CANProtocol.t) :
  CANProtocol.is_active s = true ->
  let out := CANProtocol.receive_n (length (CANProtocol.rx_buffer s)) s in
  fst out = map Some (CANProtocol.rx_buffer s)
  /\ CANProtocol.rx_buffer (snd out) = []
  /\ CANProtocol.is_active (snd out) = true
  /\ CANProtocol.messages_received (snd out)
     = CANProtocol.messages_received s
       + Z.of_nat (length (CANProtocol.rx_buffer s)).
Proof.
  remember (CANProtocol.rx_buffer s) as q eqn:Hq.
  revert s Hq. induction q as [|m q IH]; intros s Hq Ha.
  - simpl. rewrite <- Hq. repeat split; [exact Ha|lia].
  - cbn [length CANProtocol.receive_n].
    unfold CANProtocol.receive_message. rewrite Ha, <- Hq. cbn [negb].
    set (s1 := CANProtocol.set_messages_received _ _).
    destruct (IH s1) as (Hout & Hrx & Hact & Hrec); [reflexivity|exact Ha|].
    cbv zeta in *.
    destruct (CANProtocol.receive_n (length q) s1) as [rest s2].
    simpl in *. rewrite Hout. repeat split; try assumption.
    rewrite Hrec. lia.
Qed.

(** X7. First in, first out.  On an active controller whose filters accept
    them, injecting a list of constructible frames and then calling
    [receive_message] once per buffered frame returns the frames that were
    already buffered followed by the injected ones, each in its order of
    arrival with identifier, payload and addressing mode intact; the buffer
    is then empty, one more [receive_message] returns [None], and
    [messages_received] has grown by the number of frames returned. *)
Theorem X7_receive_is_fifo
    (now : Q) (frames : list (Z * list byte * bool)) (s : CANProtocol.t) :
  CANProtocol.is_active s = true ->
  Forall (fun f => CANProtocol.filters_accept s (fst (fst f))) frames ->
  Forall CANProtocol.constructible frames ->
  let queued := CANProtocol.rx_buffer s ++ map (CANProtocol.frame_of now) frames in
  let out :=
    CANProtocol.receive_n (length queued) (CANProtocol.inject_all now frames s) in
  fst out = map Some queued
  /\ CANProtocol.rx_buffer (snd out) = []
  /\ fst (CANProtocol.receive_message (snd out)) = None
  /\ CANProtocol.messages_received (snd out)
     = CANProtocol.messages_received s + Z.of_nat (length queued).
Proof.
  intros Ha Hacc Hc. cbv zeta.
  destruct (inject_all_appends now frames s Ha Hacc Hc) as (Hrx & Hact & Hrec & _).
  destruct (receive_n_drains (CANProtocol.inject_all now frames s) Hact)
    as (Hout & Hempty & Hact' & Hcount).
  rewrite Hrx in Hout, Hempty, Hcount, Hact'. rewrite Hrec in Hcount.
  split; [exact Hout|]. split; [exact Hempty|]. split; [|exact Hcount].
  unfold CANProtocol.receive_message. rewrite Hact', Hempty. reflexivity.
Qed.

Lemma X7_receive_is_fifo_witness :
  fst (CANProtocol.receive_n 2
         (CANProtocol.inject_all 0%Q
            [(0x300, Scenario.payload8, false); (0x18FF5017, [x01], true)]
            Scenario.bus_started))
  = [Some (CANMessage.mk 0x300 Scenario.payload8 false 0%Q 8);
     Some (CANMessage.mk 0x18FF5017 [x01] true 0%Q 1)].
Proof.
  destruct (X7_receive_is_fifo 0%Q
              [(0x300, Scenario.payload8, false); (0x18FF5017, [x01], true)]
              Scenario.bus_started) as [Hout _].
  - reflexivity.
  - repeat constructor.
  - repeat constructor; simpl; lia.
  - exact Hout.
Defined.

(** X8. On an active controller with a non-empty filter list that does not
    hold the identifier, [simulate_incoming_message] returns normally and
    leaves the controller unchanged, also for a payload or identifier that
    the frame constructor would reject: a filtered frame is dropped before it
    is built. *)
Theorem X8_filtered_frame_is_dropped
    (now : Q) (s : CANProtocol.t) (can_id : Z) (data : list byte) (ext : bool) :
  CANProtocol.is_active s = true ->
  CANProtocol.rx_filters s <> [] ->
  ~ In can_id (CANProtocol.rx_filters s) ->
  CANProtocol.simulate_incoming_message now s can_id data ext = (Return tt, s).
Proof.
  intros Ha Hne Hnot. unfold CANProtocol.simulate_incoming_message.
  rewrite Ha. simpl.
  apply not_in_filters_spec in Hnot. rewrite Hnot.
  destruct (CANProtocol.rx_filters s); [contradiction|reflexivity].
Qed.

Lemma X8_filtered_frame_is_dropped_witness :
  let s := CANProtocol.add_rx_filter Scenario.bus_started 0x100 in
  CANProtocol.simulate_incoming_message 0%Q s 0x300 (x00 :: Scenario.payload8) false
  = (Return tt, s).
Proof.
  cbv zeta.
  apply (X8_filtered_frame_is_dropped 0%Q
           (CANProtocol.add_rx_filter Scenario.bus_started 0x100)).
  - reflexivity.
  - discriminate.
  - simpl. intros [H|[]]. discriminate.
Defined.

(** X9. A frame the constructor rejects is handled differently on the two
    paths of an active controller: [send_message] catches the error, returns
    [False], adds 1 to [error_count] and appends the error with its time to
    [errors], leaving the buffers as they are; [simulate_incoming_message]
    (filters accepting) lets the same [ValueError] reach the caller and
    leaves the controller, its error counter included, unchanged. *)
Theorem X9_rejected_frame_send_logs_inject_raises
    (now : Q) (s : CANProtocol.t) (can_id : Z) (data : list byte) (ext : bool) :
  CANProtocol.is_active s = true ->
  CANProtocol.filters_accept s can_id ->
  ~ CANProtocol.constructible (can_id, data, ext) ->
  exists e,
    CANMessage.init now can_id data ext = Raise e
    /\ CANProtocol.send_message now s can_id data ext
       = (false,
          CANProtocol.set_errors
            (CANProtocol.errors s ++ [CANProtocol.mk_error now e])
            (CANProtocol.set_error_count (CANProtocol.error_count s + 1) s))
    /\ CANProtocol.simulate_incoming_message now s can_id data ext = (Raise e, s).
Proof.
  intros Ha Hacc Hn.
  destruct (init_not_constructible now (can_id, data, ext) Hn) as [e He].
  simpl in He. exists e. split; [exact He|]. split.
  - unfold CANProtocol.send_message. rewrite Ha, He. reflexivity.
  - unfold CANProtocol.simulate_incoming_message. rewrite Ha. simpl.
    rewrite (filters_accept_pass s can_id Hacc), He. reflexivity.
Qed.

Lemma X9_rejected_frame_send_logs_inject_raises_witness :
  exists e,
    CANProtocol.error_count
      (snd (CANProtocol.send_message 0%Q Scenario.bus_started 0x800 [] false)) = 1
    /\ CANProtocol.simulate_incoming_message 0%Q Scenario.bus_started 0x800 [] false
       = (Raise e, Scenario.bus_started).
Proof.
  destruct (X9_rejected_frame_send_logs_inject_raises
              0%Q Scenario.bus_started 0x800 [] false) as [e [_ [Hs Hi]]].
  - reflexivity.
  - left. reflexivity.
  - intros [_ H]. simpl in H. lia.
  - exists e. split; [rewrite Hs; reflexivity|exact Hi].
Defined.

(** ** Bus transport: payload layouts *)

Lemma byte_val_of_Z (v : Z) : Wire.byte_val (Py.byte_of_Z v) = v mod 256.
Proof.
  unfold Wire.byte_val, Py.byte_of_Z.
  assert (Hr : 0 <= v mod 256 < 256) by (apply Z.mod_pos_bound; lia).
  destruct (Byte.of_N (Z.to_N (v mod 256))) as [b|] eqn:E.
  - apply Byte.to_of_N in E. rewrite E. apply Z2N.id. lia.
  - apply Byte.of_N_None_iff in E. lia.
Qed.

Lemma land_255 (v : Z) : Z.land v 255 = v mod 256.
Proof. change 255 with (Z.ones 8). rewrite Z.land_ones by lia. reflexivity. Qed.

Lemma shiftr_land_255 (v k : Z) :
  0 <= k -> Z.land (Z.shiftr v k) 255 = (v / 2 ^ k) mod 256.
Proof.
  intros Hk. rewrite land_255, Z.shiftr_div_pow2 by assumption. reflexivity.
Qed.

(** Reading back the four bytes written by [to_bytes(4, 'little',
    signed=True)] gives the integer. *)
Lemma to_bytes4_round_trip (n : Z) (bs : list byte) :
  Py.to_bytes4_le_signed n = Some bs ->
  length bs = 4%nat /\ Wire.from_bytes4_le_signed bs = n.
Proof.
  unfold Py.to_bytes4_le_signed.
  destruct ((- 2 ^ 31 <=? n) && (n <? 2 ^ 31)) eqn:E; [|discriminate].
  apply andb_true_iff in E. destruct E as [Hlo Hhi].
  apply Z.leb_le in Hlo. apply Z.ltb_lt in Hhi.
  intros [= <-]. split; [reflexivity|].
  unfold Wire.from_bytes4_le_signed, Wire.from_bytes_le. cbn [fold_right].
  rewrite !byte_val_of_Z.
  rewrite land_255, !shiftr_land_255 by lia.
  rewrite !Z.mod_mod by lia.
  change (2 ^ 8) with 256. change (2 ^ 16) with 65536.
  change (2 ^ 24) with 16777216.
  change (2 ^ 31) with 2147483648 in *. change (2 ^ 32) with 4294967296.
  set (u := n mod 256 + 256 * ((n / 256) mod 256 + 256 * ((n / 65536) mod 256
            + 256 * ((n / 16777216) mod 256 + 256 * 0)))).
  assert (Hu : u = n mod 4294967296).
  { unfold u. clear. 
    pose proof (Z.div_mod n 256 ltac:(lia)).
    pose proof (Z.div_mod (n / 256) 256 ltac:(lia)).
    pose proof (Z.div_mod (n / 65536) 256 ltac:(lia)).
    pose proof (Z.div_mod (n / 16777216) 256 ltac:(lia)).
    pose proof (Z.div_mod n 4294967296 ltac:(lia)).
    assert (H65 : n / 65536 = n / 256 / 256)
      by (rewrite Z.div_div by lia; reflexivity).
    assert (H16 : n / 16777216 = n / 65536 / 256)
      by (rewrite Z.div_div by lia; reflexivity).
    assert (H42 : n / 4294967296 = n / 16777216 / 256)
      by (rewrite Z.div_div by lia; reflexivity).
    pose proof (Z.mod_pos_bound n 4294967296 ltac:(lia)).
    lia. }
  rewrite Hu.
  destruct (n mod 4294967296 <? 2147483648) eqn:Es;
    [apply Z.ltb_lt in Es|apply Z.ltb_ge in Es];
    pose proof (Z.div_mod n 4294967296 ltac:(lia));
    pose proof (Z.mod_pos_bound n 4294967296 ltac:(lia)); lia.
Qed.

Lemma send_message_constructible
    (now : Q) (s : CANProtocol.t) (f : Z * list byte * bool) :
  CANProtocol.is_active s = true ->
  CANProtocol.constructible f ->
  CANProtocol.send_message now s (fst (fst f)) (snd (fst f)) (snd f)
  = (true,
     CANProtocol._update_bus_load
       (CANProtocol.set_messages_sent (CANProtocol.messages_sent s + 1)
          (CANProtocol.set_tx_buffer
             (CANProtocol.tx_buffer s ++ [CANProtocol.frame_of now f]) s))).
Proof.
  intros Ha Hc. unfold CANProtocol.send_message.
  rewrite Ha, (init_constructible now f Hc). reflexivity.
Qed.

Lemma sensor_id_reserved (sensor_type : string) :
  In (CANProtocol.sensor_id sensor_type) [0x100; 0x101; 0x102; 0x103; 0x104; 0x1FF].
Proof.
  unfold CANProtocol.sensor_id.
  repeat match goal with
         | |- context [if ?b then _ else _] => destruct b
         end; simpl; tauto.
Qed.

(** X10. [send_sensor_data] converts [int(value * 100)], a binary64
    product truncated toward zero, before it looks at the bus.  If the
    product is a NaN or an infinity, or the integer does not fit 32 signed
    bits, the call raises (a [ValueError] for the NaN, an [OverflowError]
    otherwise) and changes nothing, whether the bus is active or not.
    Otherwise, on an active bus, the call always returns [True]: it appends
    one standard frame with 8 payload bytes whose identifier is one of
    0x100..0x104 or the fallback 0x1FF, whose first four bytes read back
    (little-endian, signed) as that integer and whose last four are zero;
    [messages_sent] grows by 1 and no error is counted. *)
Theorem X10_sensor_frame_layout
    (now : Q) (s : CANProtocol.t) (sensor_type : string) (value : float) :
  (B64.int (value * 100)%float = Raise B64.NaNToInteger ->
   CANProtocol.send_sensor_data now s sensor_type value
   = (Raise CANProtocol.CannotConvertNaN, s))
  /\ (B64.int (value * 100)%float = Raise B64.InfinityToInteger ->
      CANProtocol.send_sensor_data now s sensor_type value
      = (Raise CANProtocol.CannotConvertInfinity, s))
  /\ (forall n : Z,
        B64.int (value * 100)%float = Return n ->
        (~ (- 2 ^ 31 <= n < 2 ^ 31) ->
         CANProtocol.send_sensor_data now s sensor_type value
         = (Raise CANProtocol.IntTooBigToConvert, s))
        /\ (- 2 ^ 31 <= n < 2 ^ 31 ->
            CANProtocol.is_active s = true ->
            exists frame s',
              CANProtocol.send_sensor_data now s sensor_type value
              = (Return true, s')
              /\ CANProtocol.tx_buffer s' = CANProtocol.tx_buffer s ++ [frame]
              /\ CANProtocol.messages_sent s' = CANProtocol.messages_sent s + 1
              /\ CANProtocol.error_count s' = CANProtocol.error_count s
              /\ CANMessage.can_id frame = CANProtocol.sensor_id sensor_type
              /\ In (CANMessage.can_id frame)
                    [0x100; 0x101; 0x102; 0x103; 0x104; 0x1FF]
              /\ CANMessage.is_extended frame = false
              /\ CANMessage.dlc frame = 8
              /\ Wire.from_bytes4_le_signed (firstn 4 (CANMessage.data frame)) = n
              /\ skipn 4 (CANMessage.data frame) = [x00; x00; x00; x00])).
Proof.
  unfold CANProtocol.send_sensor_data.
  split; [intros ->; reflexivity|]. split; [intros ->; reflexivity|].
  intros n ->. split.
  - intros Hout. unfold Py.to_bytes4_le_signed.
    destruct ((- 2 ^ 31 <=? n) && (n <? 2 ^ 31)) eqn:E; [|reflexivity].
    apply andb_true_iff in E. destruct E as [Hlo Hhi].
    apply Z.leb_le in Hlo. apply Z.ltb_lt in Hhi. lia.
  - intros Hin Ha.
    destruct (Py.to_bytes4_le_signed n) as [data4|] eqn:E.
    + destruct (to_bytes4_round_trip _ _ E) as [Hlen Hval].
      assert (Hc : CANProtocol.constructible
                     (CANProtocol.sensor_id sensor_type,
                      data4 ++ [x00; x00; x00; x00], false)).
      { split; simpl.
        - rewrite length_app, Hlen. simpl. lia.
        - pose proof (sensor_id_reserved sensor_type) as Hid. simpl in Hid.
          intuition lia. }
      pose proof (send_message_constructible now s _ Ha Hc) as Hsend.
      simpl in Hsend. rewrite Hsend.
      eexists. eexists. split; [reflexivity|].
      unfold CANProtocol.frame_of. simpl.
      repeat split.
      * apply sensor_id_reserved.
      * rewrite length_app, Hlen. reflexivity.
      * destruct data4 as [|b0 [|b1 [|b2 [|b3 [|b4 rest]]]]];
          simpl in Hlen; try discriminate. simpl. exact Hval.
      * destruct data4 as [|b0 [|b1 [|b2 [|b3 [|b4 rest]]]]];
          simpl in Hlen; try discriminate. reflexivity.
    + unfold Py.to_bytes4_le_signed in E.
      destruct ((- 2 ^ 31 <=? n) && (n <? 2 ^ 31)) eqn:E2; [discriminate|].
      apply andb_false_iff in E2. destruct E2 as [E2|E2];
        [apply Z.leb_gt in E2|apply Z.ltb_ge in E2]; lia.
Qed.

Lemma X10_sensor_frame_layout_witness :
  (exists frame s',
     CANProtocol.send_sensor_data 0%Q Scenario.bus_started "humidity"
       Scenario.reading_0_29
     = (Return true, s')
     /\ CANProtocol.tx_buffer s' = [frame]
     /\ CANMessage.can_id frame = 0x101
     /\ Wire.from_bytes4_le_signed (firstn 4 (CANMessage.data frame)) = 28)
  /\ CANProtocol.send_sensor_data 0%Q Scenario.bus_started "humidity" nan
     = (Raise CANProtocol.CannotConvertNaN, Scenario.bus_started)
  /\ CANProtocol.send_sensor_data 0%Q Scenario.bus_started "humidity" 30000000%float
     = (Raise CANProtocol.IntTooBigToConvert, Scenario.bus_started).
Proof.
  destruct (X10_sensor_frame_layout 0%Q Scenario.bus_started "humidity"
              Scenario.reading_0_29) as (_ & _ & Hnum).
  destruct (X10_sensor_frame_layout 0%Q Scenario.bus_started "humidity" nan)
    as (Hnan & _).
  destruct (X10_sensor_frame_layout 0%Q Scenario.bus_started "humidity"
              30000000%float) as (_ & _ & Hbig).
  destruct (Hnum 28) as [_ Hok]; [vm_compute; reflexivity|].
  destruct (Hbig 3000000000) as [Hover _]; [vm_compute; reflexivity|].
  destruct Hok as [frame [s' (Hs & Htx & _ & _ & Hid & _ & _ & _ & Hval & _)]].
  - lia.
  - reflexivity.
  - split; [|split].
    + exists frame, s'. repeat split; assumption.
    + apply Hnan. vm_compute. reflexivity.
    + apply Hover. lia.
Defined.

Lemma command_byte_small (command : string) :
  0 <= CANProtocol.command_byte command < 256.
Proof.
  unfold CANProtocol.command_byte.
  repeat match goal with
         | |- context [if ?b then _ else _] => destruct b
         end; lia.
Qed.

Lemma actuator_id_standard (actuator_type : string) :
  CANProtocol.actuator_id actuator_type <= 0x7FF.
Proof.
  unfold CANProtocol.actuator_id.
  repeat match goal with
         | |- context [if ?b then _ else _] => destruct b
         end; lia.
Qed.

(** X11. On an active bus [send_actuator_command] always returns [True] and
    never counts an error, whatever the actuator, the command and the value:
    it appends one standard frame of 8 bytes whose first byte is the command
    code (0 for an unknown command), whose second and third bytes read back
    (big-endian) as [value] modulo 65536, and whose other bytes are zero.
    A value outside [0..65535] is thus sent truncated to 16 bits. *)
Theorem X11_actuator_frame_layout
    (now : Q) (s : CANProtocol.t) (actuator_type command : string) (value : Z) :
  CANProtocol.is_active s = true ->
  exists s' cmd hi lo,
    CANProtocol.send_actuator_command now s actuator_type command value = (true, s')
    /\ CANProtocol.tx_buffer s'
       = CANProtocol.tx_buffer s
         ++ [CANMessage.mk (CANProtocol.actuator_id actuator_type)
               [cmd; hi; lo; x00; x00; x00; x00; x00] false now 8]
    /\ CANProtocol.messages_sent s' = CANProtocol.messages_sent s + 1
    /\ CANProtocol.error_count s' = CANProtocol.error_count s
    /\ Wire.byte_val cmd = CANProtocol.command_byte command
    /\ Wire.from_bytes2_be hi lo = value mod 65536.
Proof.
  intros Ha. unfold CANProtocol.send_actuator_command.
  set (data := [Py.byte_of_Z (CANProtocol.command_byte command);
                Py.byte_of_Z (Z.land (Z.shiftr value 8) 255);
                Py.byte_of_Z (Z.land value 255);
                x00; x00; x00; x00; x00]).
  assert (Hc : CANProtocol.constructible
                 (CANProtocol.actuator_id actuator_type, data, false)).
  { split; simpl; [lia|apply actuator_id_standard]. }
  pose proof (send_message_constructible now s _ Ha Hc) as Hsend.
  simpl in Hsend. rewrite Hsend.
  eexists. eexists. eexists. eexists.
  split; [reflexivity|]. unfold CANProtocol.frame_of. simpl. repeat split.
  - rewrite byte_val_of_Z. apply Z.mod_small. apply command_byte_small.
  - unfold Wire.from_bytes2_be. rewrite !byte_val_of_Z.
    rewrite shiftr_land_255 by lia. rewrite land_255. rewrite !Z.mod_mod by lia.
    change (2 ^ 8) with 256.
    pose proof (Z.div_mod value 256 ltac:(lia)).
    pose proof (Z.div_mod (value / 256) 256 ltac:(lia)).
    pose proof (Z.div_mod value 65536 ltac:(lia)).
    assert (H65 : value / 65536 = value / 256 / 256)
      by (rewrite Z.div_div by lia; reflexivity).
    pose proof (Z.mod_pos_bound value 65536 ltac:(lia)).
    pose proof (Z.mod_pos_bound value 256 ltac:(lia)).
    pose proof (Z.mod_pos_bound (value / 256) 256 ltac:(lia)).
    lia.
Qed.

Lemma X11_actuator_frame_layout_witness :
  exists s' cmd hi lo,
    CANProtocol.send_actuator_command 0%Q Scenario.bus_started
      "irrigation" "set_rate" 450 = (true, s')
    /\ Wire.byte_val cmd = 3
    /\ Wire.from_bytes2_be hi lo = 450
    /\ CANProtocol.tx_buffer s'
       = [CANMessage.mk 0x200 [cmd; hi; lo; x00; x00; x00; x00; x00] false 0%Q 8].
Proof.
  destruct (X11_actuator_frame_layout 0%Q Scenario.bus_started
              "irrigation" "set_rate" 450) as [s' [cmd [hi [lo H]]]].
  - reflexivity.
  - destruct H as (Hs & Htx & _ & _ & Hc & Hv).
    exists s', cmd, hi, lo. repeat split; assumption.
Defined.

(** X12. A stopped bus is frozen: after [stop()], every call that sends,
    receives or injects a frame leaves the controller exactly as [stop()]
    left it, queues, counters and error log included; [stop()] itself only
    clears [is_active]. *)
Theorem X12_stopped_bus_is_frozen
    (now : Q) (o : CANProtocol.op) (s : CANProtocol.t) :
  CANProtocol.moves_frames o ->
  CANProtocol.step now o (CANProtocol.stop s) = CANProtocol.stop s
  /\ CANProtocol.tx_buffer (CANProtocol.stop s) = CANProtocol.tx_buffer s
  /\ CANProtocol.rx_buffer (CANProtocol.stop s) = CANProtocol.rx_buffer s
  /\ CANProtocol.messages_sent (CANProtocol.stop s) = CANProtocol.messages_sent s
  /\ CANProtocol.messages_received (CANProtocol.stop s)
     = CANProtocol.messages_received s
  /\ CANProtocol.error_count (CANProtocol.stop s) = CANProtocol.error_count s
  /\ CANProtocol.errors (CANProtocol.stop s) = CANProtocol.errors s.
Proof.
  intros Hm. split; [|repeat split].
  destruct o; simpl in Hm; try contradiction; simpl; try reflexivity.
  unfold CANProtocol.send_sensor_data.
  destruct (B64.int (value * 100)) as [n|[|]]; try reflexivity.
  destruct (Py.to_bytes4_le_signed n); reflexivity.
Qed.

Lemma X12_stopped_bus_is_frozen_witness :
  CANProtocol.step 0%Q (CANProtocol.OpSendMessage 0x100 Scenario.payload8 false)
    (CANProtocol.stop Scenario.bus_one_each)
  = CANProtocol.stop Scenario.bus_one_each.
Proof.
  apply (X12_stopped_bus_is_frozen 0%Q
           (CANProtocol.OpSendMessage 0x100 Scenario.payload8 false)
           Scenario.bus_one_each).
  exact I.
Defined.

(** ** Irrigation: what every history of calls preserves *)

Section IrrigationInvariants.

Import IrrigationSystem.

Lemma active_zones_closed (m : gmap Z bool) :
  (forall (z : Z) (b : bool), m !! z = Some b -> b = false) ->
  active_zones m = 0.
Proof.
  intros Hc. destruct (Z.eq_dec (active_zones m) 0) as [H0|Hn]; [exact H0|].
  destruct (active_zones_open m Hn) as [z Hz].
  apply Hc in Hz. discriminate.
Qed.

Lemma insert_known_wf (s : t) (z : Z) (b : bool) :
  zones_wf s -> unknown_zone s z = false ->
  zones_wf (set_zones_status (<[z := b]> (zones_status s)) s).
Proof.
  intros Hwf Hu k. simpl. apply unknown_zone_false in Hu.
  rewrite is_Some_insert_known by assumption. apply Hwf.
Qed.

(** After the flow and the pressure are recomputed the object is consistent,
    provided an inactive object has every valve closed. *)
Lemma update_consistent (jitter : Q) (s : t) :
  zones_wf s ->
  (is_active s = false -> mode s = IRR_OFF /\ all_zones_closed s) ->
  consistent (_update_flow_and_pressure jitter s).
Proof.
  intros Hwf Hin.
  destruct (update_flow_frame jitter s) as (Hz & Hn & Ha & Hm & _).
  unfold consistent. split; [|split].
  - intros k. rewrite Hz, Hn. apply Hwf.
  - rewrite Ha, Hm. intros Hoff. destruct (Hin Hoff) as [Hmode Hclosed].
    split; [exact Hmode|]. split.
    + unfold all_zones_closed. rewrite Hz. exact Hclosed.
    + unfold _update_flow_and_pressure.
      rewrite (active_zones_closed _ Hclosed). simpl. split; reflexivity.
  - unfold _update_flow_and_pressure.
    destruct (active_zones (zones_status s) =? 0) eqn:E; simpl.
    + intros Hmax. split; [lra|exact Hmax].
    + intros Hmax. apply Z.eqb_neq in E.
      pose proof (num_zones_positive_of_open s Hwf E) as Hnum.
      split; [|apply Q.le_min_l].
      apply Q.min_glb; [exact Hmax|].
      assert (Hk : (0 <= inject_Z (active_zones (zones_status s)))%Q).
      { change 0%Q with (inject_Z 0). rewrite <- Zle_Qle.
        unfold active_zones. lia. }
      apply Qmult_le_0_compat; [exact Hk|].
      unfold Qdiv. apply Qmult_le_0_compat; [exact Hmax|].
      apply Qinv_le_0_compat.
      change 0%Q with (inject_Z 0). rewrite <- Zle_Qle. lia.
Qed.

Lemma update_pressure_in_band (jitter : Q) (s : t) :
  in_jitter_range jitter ->
  pressure_in_band (_update_flow_and_pressure jitter s).
Proof.
  intros [Hlo Hhi].
  destruct (update_flow_frame jitter s) as (Hz & _).
  unfold pressure_in_band. rewrite Hz.
  unfold _update_flow_and_pressure.
  destruct (active_zones (zones_status s) =? 0) eqn:E; simpl.
  - apply Z.eqb_eq in E. split; [reflexivity|contradiction].
  - apply Z.eqb_neq in E. split; [contradiction|]. intros _. lra.
Qed.

Lemma irrigation_init_consistent (id : string) (zones : Z) (max_flow : Q) :
  consistent (init id zones max_flow)
  /\ pressure_in_band (init id zones max_flow).
Proof.
  assert (Hclosed : all_zones_closed (init id zones max_flow)).
  { intros z b. simpl. rewrite all_closed_lookup.
    case_decide; [congruence|discriminate]. }
  split.
  - split; [apply init_zones_wf|]. split.
    + intros _. repeat split. exact Hclosed.
    + simpl. intros Hmax. split; [lra|exact Hmax].
  - split; [reflexivity|].
    intros Hn. exfalso. apply Hn. apply active_zones_closed. exact Hclosed.
Qed.

Lemma open_zone_consistent (jitter : Q) (s : t) (z : Z) :
  consistent s -> consistent (snd (open_zone jitter s z)).
Proof.
  intros Hc. unfold open_zone.
  destruct (is_active s) eqn:Ha; simpl; [|exact Hc].
  destruct (unknown_zone s z) eqn:Hu; simpl; [exact Hc|].
  apply update_consistent.
  - apply insert_known_wf; [apply Hc|exact Hu].
  - simpl. congruence.
Qed.

Lemma open_zone_pressure (jitter : Q) (s : t) (z : Z) :
  in_jitter_range jitter ->
  pressure_in_band s -> pressure_in_band (snd (open_zone jitter s z)).
Proof.
  intros Hj Hp. unfold open_zone.
  destruct (is_active s); simpl; [|exact Hp].
  destruct (unknown_zone s z); simpl; [exact Hp|].
  apply update_pressure_in_band. exact Hj.
Qed.

Lemma close_zone_consistent (jitter : Q) (s : t) (z : Z) :
  consistent s -> consistent (snd (close_zone jitter s z)).
Proof.
  intros Hc. unfold close_zone.
  destruct (unknown_zone s z) eqn:Hu; simpl; [exact Hc|].
  apply update_consistent.
  - apply insert_known_wf; [apply Hc|exact Hu].
  - simpl. intros Hoff.
    destruct Hc as (_ & Hin & _). destruct (Hin Hoff) as (Hm & Hclosed & _).
    split; [exact Hm|]. intros k b. simpl.
    destruct (decide (z = k)) as [->|Hne].
    + rewrite lookup_insert_eq. congruence.
    + rewrite lookup_insert_ne by assumption. apply Hclosed.
Qed.

Lemma close_zone_pressure (jitter : Q) (s : t) (z : Z) :
  in_jitter_range jitter ->
  pressure_in_band s -> pressure_in_band (snd (close_zone jitter s z)).
Proof.
  intros Hj Hp. unfold close_zone.
  destruct (unknown_zone s z); simpl; [exact Hp|].
  apply update_pressure_in_band. exact Hj.
Qed.

Lemma stop_closes_all (s : t) : all_zones_closed (stop s).
Proof.
  intros z b. unfold stop. simpl. rewrite lookup_fmap.
  destruct (zones_status s !! z); simpl; congruence.
Qed.

Lemma stop_consistent (s : t) :
  consistent s -> consistent (stop s) /\ pressure_in_band (stop s).
Proof.
  intros Hc. split.
  - split; [apply stop_wf; apply Hc|]. split.
    + intros _. split; [reflexivity|]. split; [apply stop_closes_all|].
      split; reflexivity.
    + simpl. intros Hmax. split; [lra|exact Hmax].
  - split; [reflexivity|].
    intros Hn. exfalso. apply Hn. apply active_zones_closed.
    exact (stop_closes_all s).
Qed.

Lemma set_flow_rate_consistent (s : t) (r : Q) :
  consistent s -> consistent (snd (set_flow_rate s r)).
Proof.
  intros Hc. unfold set_flow_rate.
  destruct (is_active s) eqn:Ha; simpl; [|exact Hc].
  destruct (Py.Qltb r 0) eqn:E0; simpl; [exact Hc|].
  destruct (Py.Qltb (max_flow_rate s) r) eqn:E1; simpl; [exact Hc|].
  apply Qltb_false in E0. apply Qltb_false in E1.
  destruct Hc as (Hwf & _ & _).
  split; [exact Hwf|]. split; simpl.
  - congruence.
  - intros _. split; assumption.
Qed.

Lemma open_all_consistent (jitter : Z -> Q) (l : list Z) (s : t) :
  consistent s ->
  consistent (foldl (fun st zone => snd (open_zone (jitter zone) st zone)) s l).
Proof.
  revert s. induction l as [|a l IH]; intros s Hc; simpl; [exact Hc|].
  apply IH. apply open_zone_consistent. exact Hc.
Qed.

Lemma open_all_pressure (jitter : Z -> Q) (l : list Z) (s : t) :
  (forall z, in_jitter_range (jitter z)) ->
  pressure_in_band s ->
  pressure_in_band (foldl (fun st zone => snd (open_zone (jitter zone) st zone)) s l).
Proof.
  intros Hj. revert s. induction l as [|a l IH]; intros s Hp; simpl; [exact Hp|].
  apply IH. apply open_zone_pressure; [apply Hj|exact Hp].
Qed.

Lemma step_consistent (o : op) (s : t) :
  consistent s -> consistent (step o s).
Proof.
  intros Hc. destruct o; simpl.
  - destruct Hc as (Hwf & _ & Hflow). split; [exact Hwf|]. split; simpl.
    + discriminate.
    + exact Hflow.
  - apply stop_consistent. exact Hc.
  - apply open_zone_consistent. exact Hc.
  - apply close_zone_consistent. exact Hc.
  - apply set_flow_rate_consistent. exact Hc.
  - unfold irrigate_zone. destruct (is_active s); simpl; [|exact Hc].
    pose proof (open_zone_consistent jitter_open s zone_number Hc) as H1.
    set (s1 := snd (open_zone jitter_open s zone_number)) in *.
    set (s3 := set_total_volume _ _).
    assert (H3 : consistent s3) by exact H1.
    exact (close_zone_consistent jitter_close s3 zone_number H3).
  - unfold auto_irrigate.
    destruct (negb (is_active s) || negb (IrrigationMode_eqb (mode s) IRR_AUTOMATIC));
      [exact Hc|].
    destruct (Py.Qltb current_soil_moisture (target_soil_moisture s));
      [|exact Hc].
    apply open_all_consistent. exact Hc.
Qed.

Lemma step_pressure (o : op) (s : t) :
  consistent s -> draws_in_range o ->
  pressure_in_band s -> pressure_in_band (step o s).
Proof.
  intros Hc Hd Hp. destruct o; simpl in *.
  - exact Hp.
  - apply stop_consistent. exact Hc.
  - apply open_zone_pressure; assumption.
  - apply close_zone_pressure; assumption.
  - unfold set_flow_rate.
    destruct (is_active s); simpl; [|exact Hp].
    destruct (Py.Qltb flow_rate 0 || Py.Qltb (max_flow_rate s) flow_rate);
      exact Hp.
  - destruct Hd as [Hjo Hjc].
    unfold irrigate_zone. destruct (is_active s); simpl; [|exact Hp].
    pose proof (open_zone_pressure jitter_open s zone_number Hjo Hp) as H1.
    set (s1 := snd (open_zone jitter_open s zone_number)) in *.
    set (s3 := set_total_volume _ _).
    assert (H3 : pressure_in_band s3) by exact H1.
    exact (close_zone_pressure jitter_close s3 zone_number Hjc H3).
  - unfold auto_irrigate.
    destruct (negb (is_active s) || negb (IrrigationMode_eqb (mode s) IRR_AUTOMATIC));
      [exact Hp|].
    destruct (Py.Qltb current_soil_moisture (target_soil_moisture s));
      [|exact Hp].
    apply open_all_pressure; assumption.
Qed.

Lemma run_consistent (calls : list op) (s : t) :
  consistent s -> consistent (run calls s).
Proof.
  revert s. induction calls as [|o calls IH]; intros s Hc; simpl; [exact Hc|].
  apply IH. apply step_consistent. exact Hc.
Qed.

Lemma run_pressure (calls : list op) (s : t) :
  consistent s -> Forall draws_in_range calls ->
  pressure_in_band s -> pressure_in_band (run calls s).
Proof.
  revert s. induction calls as [|o calls IH]; intros s Hc Hd Hp; simpl;
    [exact Hp|].
  inversion Hd; subst.
  apply IH; [apply step_consistent; exact Hc|assumption|].
  apply step_pressure; assumption.
Qed.

Lemma auto_irrigate_num_zones (jitter : Z -> Q) (s : t) (m : Q) :
  num_zones (snd (auto_irrigate jitter s m)) = num_zones s.
Proof.
  unfold auto_irrigate.
  destruct (is_active s) eqn:Ha; simpl; [|reflexivity].
  destruct (negb (IrrigationMode_eqb (mode s) IRR_AUTOMATIC)); [reflexivity|].
  destruct (Py.Qltb m (target_soil_moisture s)); simpl; [|reflexivity].
  apply (open_zones_fold jitter (seqZ 1 (num_zones s)) s Ha).
Qed.

Lemma step_num_zones (o : op) (s : t) :
  num_zones (step o s) = num_zones s.
Proof.
  destruct o; simpl; try reflexivity.
  - apply open_zone_frame.
  - apply close_zone_frame.
  - unfold set_flow_rate. destruct (is_active s); simpl; [|reflexivity].
    destruct (Py.Qltb flow_rate 0 || Py.Qltb (max_flow_rate s) flow_rate);
      reflexivity.
  - unfold irrigate_zone. destruct (is_active s); simpl; [|reflexivity].
    match goal with
    | |- num_zones (snd (close_zone ?j ?st ?z)) = _ =>
        destruct (close_zone_frame j st z) as (_ & Hn & _)
    end.
    rewrite Hn. simpl. apply open_zone_frame.
  - apply (auto_irrigate_num_zones jitter s current_soil_moisture).
Qed.

Lemma run_num_zones (calls : list op) (s : t) :
  num_zones (run calls s) = num_zones s.
Proof.
  revert s. induction calls as [|o calls IH]; intros s; simpl; [reflexivity|].
  rewrite IH. apply step_num_zones.
Qed.

End IrrigationInvariants.

(** ** Irrigation: properties of the controller *)

(** X13. No call adds or removes a zone: after any history of calls on a
    controller built with [zones] zones, the keys of [zones_status] are
    exactly [1..zones] (none at all when [zones <= 0]) and [num_zones] is
    still [zones]. *)
Theorem X13_zone_numbers_fixed
    (id : string) (zones : Z) (max_flow : Q)
    (calls : list IrrigationSystem.op) (z : Z) :
  let s := IrrigationSystem.run calls (IrrigationSystem.init id zones max_flow) in
  IrrigationSystem.num_zones s = zones
  /\ (is_Some (IrrigationSystem.zones_status s !! z) <-> 1 <= z <= zones).
Proof.
  cbv zeta.
  pose proof (run_num_zones calls (IrrigationSystem.init id zones max_flow)) as Hn.
  simpl in Hn. split; [exact Hn|].
  destruct (run_consistent calls _
              (proj1 (irrigation_init_consistent id zones max_flow))) as (Hwf & _).
  rewrite (Hwf z), Hn. reflexivity.
Qed.

(** X14. After any history of calls on a fresh controller, an inactive
    controller is in mode OFF with every valve closed, zero flow and zero
    pressure. *)
Theorem X14_inactive_means_everything_off
    (id : string) (zones : Z) (max_flow : Q) (calls : list IrrigationSystem.op) :
  let s := IrrigationSystem.run calls (IrrigationSystem.init id zones max_flow) in
  IrrigationSystem.is_active s = false ->
  IrrigationSystem.mode s = IRR_OFF
  /\ IrrigationSystem.all_zones_closed s
  /\ IrrigationSystem.current_flow_rate s = 0%Q
  /\ IrrigationSystem.current_pressure s = 0%Q.
Proof.
  cbv zeta.
  destruct (run_consistent calls _
              (proj1 (irrigation_init_consistent id zones max_flow)))
    as (_ & Hin & _). exact Hin.
Qed.

Lemma X14_inactive_means_everything_off_witness :
  let s :=
    IrrigationSystem.run
      [IrrigationSystem.OpStart IRR_MANUAL;
       IrrigationSystem.OpOpenZone 0.1%Q 2;
       IrrigationSystem.OpSetFlowRate 45%Q;
       IrrigationSystem.OpStop;
       IrrigationSystem.OpCloseZone 0%Q 3]
      Scenario.irrigation_fresh in
  IrrigationSystem.mode s = IRR_OFF
  /\ IrrigationSystem.all_zones_closed s
  /\ IrrigationSystem.current_flow_rate s = 0%Q
  /\ IrrigationSystem.current_pressure s = 0%Q.
Proof.
  apply (X14_inactive_means_everything_off "IRR_001" 4 100%Q
           [IrrigationSystem.OpStart IRR_MANUAL;
            IrrigationSystem.OpOpenZone 0.1%Q 2;
            IrrigationSystem.OpSetFlowRate 45%Q;
            IrrigationSystem.OpStop;
            IrrigationSystem.OpCloseZone 0%Q 3]).
  vm_compute. reflexivity.
Defined.

(** X16. After any history of calls on a fresh controller whose random draws
    are within [-0.2, 0.2], the pressure is 0 when no valve is open and
    between 2.3 and 2.7 bar when at least one is. *)
Theorem X16_pressure_band
    (id : string) (zones : Z) (max_flow : Q) (calls : list IrrigationSystem.op) :
  Forall IrrigationSystem.draws_in_range calls ->
  let s := IrrigationSystem.run calls (IrrigationSystem.init id zones max_flow) in
  (IrrigationSystem.active_zones (IrrigationSystem.zones_status s) = 0 ->
   IrrigationSystem.current_pressure s = 0%Q)
  /\ (IrrigationSystem.active_zones (IrrigationSystem.zones_status s) <> 0 ->
      (2.3 <= IrrigationSystem.current_pressure s <= 2.7)%Q).
Proof.
  intros Hd. cbv zeta.
  destruct (irrigation_init_consistent id zones max_flow) as [Hc Hp].
  exact (run_pressure calls _ Hc Hd Hp).
Qed.

Lemma X16_pressure_band_witness :
  (2.3 <= IrrigationSystem.current_pressure
            (IrrigationSystem.run
               [IrrigationSystem.OpStart IRR_MANUAL;
                IrrigationSystem.OpOpenZone 0.1%Q 2]
               Scenario.irrigation_fresh) <= 2.7)%Q.
Proof.
  destruct (X16_pressure_band "IRR_001" 4 100%Q
              [IrrigationSystem.OpStart IRR_MANUAL;
               IrrigationSystem.OpOpenZone 0.1%Q 2]) as [_ Hopen].
  - repeat constructor; vm_compute; discriminate.
  - apply Hopen. vm_compute. discriminate.
Defined.

(** X17. [stop()] is idempotent: a second [stop()] changes nothing.  After
    [stop()] the controller is inactive in mode OFF with every valve closed
    and zero flow and pressure, and the cumulative statistics, the last
    irrigation time and the moisture target are those before the call. *)
Theorem X17_stop_idempotent_keeps_statistics (s : IrrigationSystem.t) :
  IrrigationSystem.stop (IrrigationSystem.stop s) = IrrigationSystem.stop s
  /\ IrrigationSystem.is_active (IrrigationSystem.stop s) = false
  /\ IrrigationSystem.mode (IrrigationSystem.stop s) = IRR_OFF
  /\ IrrigationSystem.all_zones_closed (IrrigationSystem.stop s)
  /\ IrrigationSystem.current_flow_rate (IrrigationSystem.stop s) = 0%Q
  /\ IrrigationSystem.current_pressure (IrrigationSystem.stop s) = 0%Q
  /\ IrrigationSystem.total_volume (IrrigationSystem.stop s)
     = IrrigationSystem.total_volume s
  /\ IrrigationSystem.operation_time (IrrigationSystem.stop s)
     = IrrigationSystem.operation_time s
  /\ IrrigationSystem.last_irrigation (IrrigationSystem.stop s)
     = IrrigationSystem.last_irrigation s
  /\ IrrigationSystem.target_soil_moisture (IrrigationSystem.stop s)
     = IrrigationSystem.target_soil_moisture s.
Proof.
  split.
  - unfold IrrigationSystem.stop. simpl.
    rewrite <- map_fmap_compose. reflexivity.
  - repeat split. apply stop_closes_all.
Qed.

(** X18. On an active controller, [irrigate_zone] on a zone that exists adds
    the duration to [operation_time], adds the duration times the flow
    reached with the zone open to [total_volume], stamps [last_irrigation],
    and leaves the zone closed, also when it was open before the call; the
    other zones keep their state. *)
Theorem X18_irrigate_zone_accounts_and_closes
    (now jitter_open jitter_close : Q) (s : IrrigationSystem.t)
    (z : Z) (d : Q) :
  IrrigationSystem.is_active s = true ->
  is_Some (IrrigationSystem.zones_status s !! z) ->
  let opened := snd (IrrigationSystem.open_zone jitter_open s z) in
  let s' := IrrigationSystem.irrigate_zone now jitter_open jitter_close s z d in
  IrrigationSystem.operation_time s' = (IrrigationSystem.operation_time s + d)%Q
  /\ IrrigationSystem.total_volume s'
     = (IrrigationSystem.total_volume s
        + IrrigationSystem.current_flow_rate opened * d)%Q
  /\ IrrigationSystem.last_irrigation s' = Some now
  /\ IrrigationSystem.zones_status s'
     = <[z := false]> (IrrigationSystem.zones_status s)
  /\ IrrigationSystem.is_active s' = true.
Proof.
  intros Ha Hz. cbv zeta.
  unfold IrrigationSystem.irrigate_zone. rewrite Ha. cbn [negb].
  destruct (open_zone_frame jitter_open s z)
    as (Hoz & _ & Hoa & _ & _ & Hoo & Hov & _).
  set (s1 := snd (IrrigationSystem.open_zone jitter_open s z)) in *.
  apply unknown_zone_false in Hz. rewrite Ha, Hz in Hoz. simpl in Hoz.
  set (s3 := IrrigationSystem.set_total_volume _ _).
  destruct (close_zone_frame jitter_close s3 z)
    as (Hcz & _ & Hca & _ & _ & Hco & Hcv & _).
  assert (Hu3 : IrrigationSystem.unknown_zone s3 z = false).
  { unfold IrrigationSystem.unknown_zone. simpl. rewrite Hoz.
    rewrite lookup_insert_eq. reflexivity. }
  rewrite Hu3 in Hcz. simpl in *.
  rewrite Hco, Hcv, Hcz, Hca, Hoz, Hoo, Hov, Hoa.
  repeat split; try reflexivity; try assumption.
  apply insert_insert_eq.
Qed.

Lemma X18_irrigate_zone_accounts_and_closes_witness :
  let s' := IrrigationSystem.irrigate_zone 7%Q 0%Q 0%Q
              Scenario.irrigation_zone1_open 1 10%Q in
  (IrrigationSystem.operation_time s' == 10)%Q
  /\ (IrrigationSystem.total_volume s' == 250)%Q
  /\ IrrigationSystem.zones_status s' !! 1 = Some false.
Proof.
  cbv zeta.
  destruct (X18_irrigate_zone_accounts_and_closes 7%Q 0%Q 0%Q
              Scenario.irrigation_zone1_open 1 10%Q)
    as (Ho & Hv & _ & Hz & _).
  - reflexivity.
  - vm_compute. eauto.
  - rewrite Ho, Hv, Hz. repeat split; vm_compute; reflexivity.
Defined.

(** X21. On an active controller [set_flow_rate(r)] with
    [0 <= r <= max_flow_rate] sets the flow to [r] whatever the valves are,
    also with every valve closed, and touches nothing else that the valve
    operations read; the next [open_zone] or [close_zone] then computes the
    same flow as if [set_flow_rate] had not been called. *)
Theorem X21_set_flow_rate_is_overridden
    (jitter : Q) (s : IrrigationSystem.t) (r : Q) (z : Z) :
  IrrigationSystem.is_active s = true ->
  (0 <= r <= IrrigationSystem.max_flow_rate s)%Q ->
  let s' := snd (IrrigationSystem.set_flow_rate s r) in
  fst (IrrigationSystem.set_flow_rate s r) = true
  /\ IrrigationSystem.current_flow_rate s' = r
  /\ IrrigationSystem.zones_status s' = IrrigationSystem.zones_status s
  /\ (is_Some (IrrigationSystem.zones_status s !! z) ->
      IrrigationSystem.current_flow_rate (snd (IrrigationSystem.open_zone jitter s' z))
      = IrrigationSystem.current_flow_rate (snd (IrrigationSystem.open_zone jitter s z))
      /\ IrrigationSystem.current_flow_rate
           (snd (IrrigationSystem.close_zone jitter s' z))
         = IrrigationSystem.current_flow_rate
             (snd (IrrigationSystem.close_zone jitter s z))).
Proof.
  intros Ha [Hlo Hhi]. cbv zeta.
  unfold IrrigationSystem.set_flow_rate. rewrite Ha. cbn [negb].
  apply Qltb_false in Hlo. apply Qltb_false in Hhi. rewrite Hlo, Hhi. simpl.
  repeat split.
  - unfold IrrigationSystem.open_zone. simpl. rewrite Ha. simpl.
    apply unknown_zone_false in H.
    unfold IrrigationSystem.unknown_zone in *. simpl. 
    destruct (IrrigationSystem.zones_status s !! z); [|discriminate]. simpl.
    unfold IrrigationSystem._update_flow_and_pressure. simpl.
    destruct (IrrigationSystem.active_zones _ =? 0); reflexivity.
  - unfold IrrigationSystem.close_zone.
    apply unknown_zone_false in H.
    unfold IrrigationSystem.unknown_zone in *. simpl.
    destruct (IrrigationSystem.zones_status s !! z); [|discriminate]. simpl.
    unfold IrrigationSystem._update_flow_and_pressure. simpl.
    destruct (IrrigationSystem.active_zones _ =? 0); reflexivity.
Qed.

Lemma X21_set_flow_rate_is_overridden_witness :
  let s := IrrigationSystem.start Scenario.irrigation_fresh IRR_MANUAL in
  IrrigationSystem.current_flow_rate (snd (IrrigationSystem.set_flow_rate s 45%Q))
  = 45%Q
  /\ IrrigationSystem.current_flow_rate
       (snd (IrrigationSystem.open_zone 0%Q
               (snd (IrrigationSystem.set_flow_rate s 45%Q)) 1))
     = IrrigationSystem.current_flow_rate (snd (IrrigationSystem.open_zone 0%Q s 1)).
Proof.
  cbv zeta.
  destruct (X21_set_flow_rate_is_overridden 0%Q
              (IrrigationSystem.start Scenario.irrigation_fresh IRR_MANUAL) 45%Q 1)
    as (_ & Hr & _ & Hnext).
  - reflexivity.
  - split; vm_compute; discriminate.
  - split; [exact Hr|]. apply Hnext. vm_compute. eauto.
Defined.

(** ** Binary64: order and signs *)

Lemma SFcompare_asym (x y : spec_float) :
  SFcompare x y = Some Lt -> SFcompare y x = Some Gt.
Proof.
  destruct x as [sx|sx| |sx mx ex], y as [sy|sy| |sy my ey]; simpl;
    try discriminate; try (destruct sx; discriminate || reflexivity);
    try (destruct sy; discriminate || reflexivity);
    try (destruct sx, sy; discriminate || reflexivity).
  change (Pos.compare_cont Eq mx my) with (Pos.compare mx my).
  change (Pos.compare_cont Eq my mx) with (Pos.compare my mx).
  rewrite (Z.compare_antisym ex ey), (Pos.compare_antisym mx my).
  destruct sx, sy; try discriminate; try reflexivity;
    destruct (ex ?= ey); simpl; try discriminate; try reflexivity;
    destruct (mx ?= my)%positive; simpl; try discriminate; reflexivity.
Qed.

Lemma SFcompare_refl (x : spec_float) : SFcompare x x <> Some Lt.
Proof.
  destruct x as [s|s| |s m e]; simpl; try discriminate.
  - destruct s; discriminate.
  - rewrite Z.compare_refl.
    change (Pos.compare_cont Eq m m) with (Pos.compare m m).
    rewrite Pos.compare_refl. destruct s; discriminate.
Qed.

(** [x < x] is false, also for a NaN. *)
Lemma ltb_irrefl (x : float) : PrimFloat.ltb x x = false.
Proof.
  rewrite FloatAxioms.ltb_spec. unfold SFltb.
  pose proof (SFcompare_refl (Prim2SF x)) as H.
  destruct (SFcompare (Prim2SF x) (Prim2SF x)) as [[]|]; congruence.
Qed.

Lemma ltb_asym (x y : float) :
  PrimFloat.ltb x y = true -> PrimFloat.ltb y x = false.
Proof.
  rewrite !FloatAxioms.ltb_spec. unfold SFltb.
  destruct (SFcompare (Prim2SF x) (Prim2SF y)) as [[]|] eqn:E; try discriminate.
  intros _. rewrite (SFcompare_asym _ _ E). reflexivity.
Qed.

(** No comparison with a NaN holds. *)
Lemma ltb_nan_r (x : float) : PrimFloat.ltb x nan = false.
Proof.
  rewrite FloatAxioms.ltb_spec. change (Prim2SF nan) with S754_nan.
  unfold SFltb. destruct (Prim2SF x); reflexivity.
Qed.

Lemma ltb_nan_l (x : float) : PrimFloat.ltb nan x = false.
Proof. rewrite FloatAxioms.ltb_spec. reflexivity. Qed.

(** A sum with a NaN is a NaN. *)
Lemma add_nan_l (x : float) : (nan + x)%float = nan.
Proof.
  rewrite <- (SF2Prim_Prim2SF (nan + x)), FloatAxioms.add_spec.
  reflexivity.
Qed.

(** [min(a, b)] is never above its first argument. *)
Lemma min_not_above (a b : float) : PrimFloat.ltb a (B64.min a b) = false.
Proof.
  unfold B64.min. destruct (PrimFloat.ltb b a) eqn:E.
  - apply ltb_asym. exact E.
  - apply ltb_irrefl.
Qed.

Lemma not_negative_ltb (x : float) :
  B64.not_negative (Prim2SF x) = true <-> PrimFloat.ltb x 0 = false.
Proof.
  rewrite FloatAxioms.ltb_spec. change (Prim2SF 0) with (S754_zero false).
  unfold SFltb. destruct (Prim2SF x) as [s|s| |s m e]; simpl;
    try (destruct s; simpl; split; congruence); split; congruence.
Qed.

(** Rounding keeps the sign it is given. *)
Lemma binary_round_aux_sign (sx : bool) (mx ex : Z) (lx : location) :
  match binary_round_aux prec emax sx mx ex lx with
  | S754_zero s | S754_infinity s | S754_finite s _ _ => s = sx
  | S754_nan => True
  end.
Proof.
  unfold binary_round_aux.
  destruct (shr_fexp prec emax mx ex lx) as [mrs' e'].
  destruct (shr_fexp prec emax _ e' loc_Exact) as [mrs'' e''].
  destruct (shr_m mrs''); [reflexivity| |exact I].
  destruct (e'' <=? emax - prec); reflexivity.
Qed.

Lemma binary_round_aux_clear (mx ex : Z) (lx : location) :
  B64.sign_clear (binary_round_aux prec emax false mx ex lx) = true.
Proof.
  pose proof (binary_round_aux_sign false mx ex lx) as H.
  destruct (binary_round_aux prec emax false mx ex lx); simpl; subst; reflexivity.
Qed.

Lemma sign_clear_not_negative (x : spec_float) :
  B64.sign_clear x = true -> B64.not_negative x = true.
Proof. destruct x as [s|s| |s m e]; simpl; auto. Qed.

Lemma SFmul_not_negative (x y : spec_float) :
  B64.sign_clear x = true -> B64.not_negative y = true ->
  B64.not_negative (SFmul prec emax x y) = true.
Proof.
  destruct x as [sx|sx| |sx mx ex], y as [sy|sy| |sy my ey]; simpl;
    intros Hx Hy; try reflexivity;
    try (apply negb_true_iff in Hx; subst sx);
    try (apply negb_true_iff in Hy; subst sy); try reflexivity.
  apply sign_clear_not_negative, binary_round_aux_clear.
Qed.

Lemma SFdiv_not_negative (x y : spec_float) :
  B64.not_negative x = true -> B64.sign_clear y = true ->
  B64.not_negative (SFdiv prec emax x y) = true.
Proof.
  destruct x as [sx|sx| |sx mx ex], y as [sy|sy| |sy my ey]; simpl;
    intros Hx Hy; try reflexivity;
    try (apply negb_true_iff in Hx; subst sx);
    try (apply negb_true_iff in Hy; subst sy); try reflexivity.
  destruct (SFdiv_core_binary prec emax (Z.pos mx) ex (Z.pos my) ey) as [[mz ez] lz].
  apply sign_clear_not_negative, binary_round_aux_clear.
Qed.

Lemma of_int_sign_clear (n : Z) :
  0 <= n -> B64.sign_clear (Prim2SF (B64.of_int n)) = true.
Proof.
  intros Hn. unfold B64.of_int.
  destruct (n <? 0) eqn:E; [apply Z.ltb_lt in E; lia|].
  rewrite of_uint63_spec. unfold binary_normalize.
  pose proof (Uint63.to_Z_bounded (Uint63.of_Z n)) as Hb.
  destruct (Uint63Axioms.to_Z (Uint63.of_Z n)) as [|p|p]; [reflexivity| |lia].
  unfold binary_round.
  destruct (shl_align p 0 _) as [mz ez].
  apply binary_round_aux_clear.
Qed.

(** A count of valves times the share of a zone is not below zero when the
    ceiling is not. *)
Lemma share_not_below_zero (k n : Z) (m : float) :
  0 <= k -> 0 <= n -> PrimFloat.ltb m 0 = false ->
  PrimFloat.ltb (B64.of_int k * (m / B64.of_int n))%float 0 = false.
Proof.
  intros Hk Hn Hm. apply not_negative_ltb.
  rewrite FloatAxioms.mul_spec, FloatAxioms.div_spec.
  apply SFmul_not_negative; [apply of_int_sign_clear; exact Hk|].
  apply SFdiv_not_negative; [apply not_negative_ltb; exact Hm|].
  apply of_int_sign_clear; exact Hn.
Qed.

(** ** Irrigation on binary64 *)

Lemma active_zones_has_open (m : gmap Z bool) (z : Z) :
  m !! z = Some true -> 1 <= IrrigationSystem.active_zones m.
Proof.
  intros Hz. unfold IrrigationSystem.active_zones.
  assert (Hin : (z, true) ∈ filter (fun kv : Z * bool => kv.2 = true)
                  (map_to_list m)).
  { apply list_elem_of_filter. split; [reflexivity|].
    apply elem_of_map_to_list. exact Hz. }
  destruct (filter (fun kv : Z * bool => kv.2 = true) (map_to_list m));
    [inversion Hin|simpl; lia].
Qed.

Lemma active_zones_le_size (m : gmap Z bool) :
  0 <= IrrigationSystem.active_zones m <= Z.of_nat (size m).
Proof.
  unfold IrrigationSystem.active_zones. split; [lia|].
  pose proof (length_filter (fun kv : Z * bool => kv.2 = true) (map_to_list m)) as Hf.
  rewrite length_map_to_list in Hf. lia.
Qed.

Section Irrigation64.

Import IrrigationSystem64.

Variable ceiling : float.
Hypothesis ceiling_not_negative : PrimFloat.ltb ceiling 0 = false.

Lemma unknown_zone64_false (s : t) (z : Z) :
  unknown_zone s z = false <-> is_Some (zones_status s !! z).
Proof.
  unfold unknown_zone. destruct (zones_status s !! z) eqn:E.
  - split; [eauto|reflexivity].
  - split; [discriminate|]. intros [b Hb]. discriminate.
Qed.

Lemma zones_wf64_size (s : t) :
  zones_wf s -> Z.of_nat (size (zones_status s)) = Z.max 0 (num_zones s).
Proof.
  intros Hwf. rewrite <- size_dom.
  assert (Hdom : dom (zones_status s)
                 = (list_to_set (seqZ 1 (num_zones s)) : gset Z)).
  { apply set_eq. intros k. rewrite elem_of_dom, elem_of_list_to_set, elem_of_seqZ.
    rewrite (Hwf k). lia. }
  rewrite Hdom, size_list_to_set by apply NoDup_seqZ.
  rewrite length_seqZ. lia.
Qed.

Lemma num_zones64_positive (s : t) :
  zones_wf s -> IrrigationSystem.active_zones (zones_status s) <> 0 ->
  0 < num_zones s.
Proof.
  intros Hwf H. destruct (active_zones_open _ H) as [z Hz].
  assert (His : is_Some (zones_status s !! z)) by eauto.
  apply Hwf in His. lia.
Qed.

Lemma init64_in_range (id : string) (zones : Z) :
  flow_in_range ceiling (init id zones ceiling).
Proof.
  split; [|split; [reflexivity|split; [reflexivity|exact ceiling_not_negative]]].
  intros z. simpl. rewrite all_closed_lookup.
  case_decide as Hz; split; intros H; try assumption; try lia.
  - eauto.
  - destruct H as [b Hb]. discriminate.
Qed.

Lemma update64_in_range (jitter : float) (s : t) :
  zones_wf s -> max_flow_rate s = ceiling ->
  flow_in_range ceiling (_update_flow_and_pressure jitter s).
Proof.
  intros Hwf Hm. unfold _update_flow_and_pressure.
  destruct (IrrigationSystem.active_zones (zones_status s) =? 0) eqn:E.
  - split; [exact Hwf|]. split; [exact Hm|].
    split; [reflexivity|exact ceiling_not_negative].
  - apply Z.eqb_neq in E.
    pose proof (num_zones64_positive s Hwf E) as Hn.
    pose proof (active_zones_le_size (zones_status s)) as Hk.
    split; [exact Hwf|]. split; [exact Hm|]. simpl.
    unfold shared_flow. rewrite Hm. split.
    + unfold B64.min.
      destruct (PrimFloat.ltb _ ceiling); [|exact ceiling_not_negative].
      apply share_not_below_zero; [lia|lia|exact ceiling_not_negative].
    + apply min_not_above.
Qed.

Lemma insert_known_wf64 (s : t) (z : Z) (b : bool) :
  zones_wf s -> unknown_zone s z = false ->
  zones_wf (set_zones_status (<[z := b]> (zones_status s)) s).
Proof.
  intros Hwf Hu k. simpl. apply unknown_zone64_false in Hu.
  rewrite is_Some_insert_known by assumption. apply Hwf.
Qed.

Lemma open_zone64_in_range (jitter : float) (s : t) (z : Z) :
  flow_in_range ceiling s -> flow_in_range ceiling (snd (open_zone jitter s z)).
Proof.
  intros Hs. unfold open_zone.
  destruct (is_active s); simpl; [|exact Hs].
  destruct (unknown_zone s z) eqn:Hu; simpl; [exact Hs|].
  destruct Hs as (Hwf & Hm & _).
  apply update64_in_range; [apply insert_known_wf64; assumption|exact Hm].
Qed.

Lemma close_zone64_in_range (jitter : float) (s : t) (z : Z) :
  flow_in_range ceiling s -> flow_in_range ceiling (snd (close_zone jitter s z)).
Proof.
  intros Hs. unfold close_zone.
  destruct (unknown_zone s z) eqn:Hu; simpl; [exact Hs|].
  destruct Hs as (Hwf & Hm & _).
  apply update64_in_range; [apply insert_known_wf64; assumption|exact Hm].
Qed.

Lemma open_zones64_in_range (jitter : Z -> float) (l : list Z) (s : t) :
  flow_in_range ceiling s -> flow_in_range ceiling (open_zones jitter l s).
Proof.
  revert s. induction l as [|a l IH]; intros s Hs; simpl; [exact Hs|].
  apply IH, open_zone64_in_range, Hs.
Qed.

Lemma step64_in_range (o : op) (s : t) :
  flow_in_range ceiling s -> flow_in_range ceiling (step o s).
Proof.
  intros Hs. destruct o; simpl.
  - exact Hs.
  - destruct Hs as (Hwf & Hm & _).
    split; [|split; [exact Hm|split; [reflexivity|exact ceiling_not_negative]]].
    intros k. unfold stop. simpl. rewrite lookup_fmap, fmap_is_Some. apply Hwf.
  - apply open_zone64_in_range, Hs.
  - apply close_zone64_in_range, Hs.
  - unfold set_flow_rate. destruct (is_active s); simpl; [|exact Hs].
    destruct (PrimFloat.ltb flow_rate 0) eqn:E0; simpl; [exact Hs|].
    destruct (PrimFloat.ltb (max_flow_rate s) flow_rate) eqn:E1; simpl; [exact Hs|].
    destruct Hs as (Hwf & Hm & _).
    split; [exact Hwf|]. split; [exact Hm|]. split; [exact E0|].
    rewrite <- Hm. exact E1.
  - unfold irrigate_zone. destruct (is_active s); simpl; [|exact Hs].
    pose proof (open_zone64_in_range jitter_open s zone_number Hs) as H1.
    set (s1 := snd (open_zone jitter_open s zone_number)) in *.
    set (s2 := set_statistics _ _ _ s1).
    assert (H2 : flow_in_range ceiling s2) by exact H1.
    exact (close_zone64_in_range jitter_close s2 zone_number H2).
  - unfold auto_irrigate.
    destruct (negb (is_active s)
              || negb (IrrigationMode_eqb (mode s) IRR_AUTOMATIC));
      simpl; [exact Hs|].
    destruct (PrimFloat.ltb current_soil_moisture (target_soil_moisture s));
      simpl; [|exact Hs].
    apply open_zones64_in_range, Hs.
Qed.

Lemma run64_in_range (calls : list op) (s : t) :
  flow_in_range ceiling s -> flow_in_range ceiling (run calls s).
Proof.
  revert s. induction calls as [|o calls IH]; intros s Hs; simpl; [exact Hs|].
  apply IH, step64_in_range, Hs.
Qed.

End Irrigation64.
Section Irrigation64Statistics.

Import IrrigationSystem64.

Lemma update64_statistics (jitter : float) (s : t) :
  statistics (_update_flow_and_pressure jitter s) = statistics s.
Proof.
  unfold _update_flow_and_pressure.
  destruct (IrrigationSystem.active_zones (zones_status s) =? 0); reflexivity.
Qed.

Lemma open_zone64_statistics (jitter : float) (s : t) (z : Z) :
  statistics (snd (open_zone jitter s z)) = statistics s.
Proof.
  unfold open_zone. destruct (is_active s); simpl; [|reflexivity].
  destruct (unknown_zone s z); simpl; [reflexivity|].
  rewrite update64_statistics. reflexivity.
Qed.

Lemma close_zone64_statistics (jitter : float) (s : t) (z : Z) :
  statistics (snd (close_zone jitter s z)) = statistics s.
Proof.
  unfold close_zone. destruct (unknown_zone s z); simpl; [reflexivity|].
  rewrite update64_statistics. reflexivity.
Qed.

Lemma open_zones64_statistics (jitter : Z -> float) (l : list Z) (s : t) :
  statistics (open_zones jitter l s) = statistics s.
Proof.
  revert s. unfold open_zones.
  induction l as [|a l IH]; intros s; simpl; [reflexivity|].
  rewrite IH. apply open_zone64_statistics.
Qed.

Lemma step64_statistics (o : op) (s : t) :
  not_irrigate_zone o -> statistics (step o s) = statistics s.
Proof.
  intros Ho. destruct o; simpl in *; try contradiction.
  - reflexivity.
  - reflexivity.
  - apply open_zone64_statistics.
  - apply close_zone64_statistics.
  - unfold set_flow_rate. destruct (is_active s); simpl; [|reflexivity].
    destruct (PrimFloat.ltb flow_rate 0 || PrimFloat.ltb (max_flow_rate s) flow_rate);
      reflexivity.
  - unfold auto_irrigate.
    destruct (negb (is_active s)
              || negb (IrrigationMode_eqb (mode s) IRR_AUTOMATIC));
      simpl; [reflexivity|].
    destruct (PrimFloat.ltb current_soil_moisture (target_soil_moisture s));
      simpl; [|reflexivity].
    apply open_zones64_statistics.
Qed.

Lemma irrigate_zone64_statistics
    (now : Q) (jitter_open jitter_close : float) (s : t) (z : Z) (d : float) :
  is_active s = true ->
  statistics (irrigate_zone now jitter_open jitter_close s z d)
  = ((operation_time s + d)%float,
     (total_volume s
      + current_flow_rate (snd (open_zone jitter_open s z)) * d)%float,
     Some now).
Proof.
  intros Ha. unfold irrigate_zone. rewrite Ha. simpl.
  pose proof (open_zone64_statistics jitter_open s z) as H1.
  set (s1 := snd (open_zone jitter_open s z)) in *.
  set (s2 := set_statistics _ _ _ s1).
  pose proof (close_zone64_statistics jitter_close s2 z) as H3.
  unfold statistics in *. simpl in *.
  injection H1 as H1o H1v H1l. injection H3 as H3o H3v H3l.
  rewrite H3o, H3v, H1o, H1v. reflexivity.
Qed.

Lemma step64_nan_statistics (o : op) (s : t) :
  (operation_time s = nan -> operation_time (step o s) = nan)
  /\ (total_volume s = nan -> total_volume (step o s) = nan).
Proof.
  assert (Hframe : not_irrigate_zone o ->
                   operation_time (step o s) = operation_time s
                   /\ total_volume (step o s) = total_volume s).
  { intros Ho. pose proof (step64_statistics o s Ho) as H.
    unfold statistics in H. injection H as H1 H2 _. split; assumption. }
  destruct o; try (destruct (Hframe I) as [-> ->]; split; intros H; exact H).
  simpl. destruct (is_active s) eqn:Ha.
  - pose proof (irrigate_zone64_statistics now jitter_open jitter_close s
                  zone_number duration_minutes Ha) as H.
    unfold statistics in H. injection H as H1 H2 _.
    rewrite H1, H2. split; intros ->; apply add_nan_l.
  - unfold irrigate_zone. rewrite Ha. simpl. split; intros H; exact H.
Qed.

Lemma run64_nan_statistics (calls : list op) (s : t) :
  (operation_time s = nan -> operation_time (run calls s) = nan)
  /\ (total_volume s = nan -> total_volume (run calls s) = nan).
Proof.
  revert s. induction calls as [|o calls IH]; intros s; simpl;
    [split; intros H; exact H|].
  destruct (step64_nan_statistics o s) as [Ho Hv].
  destruct (IH (step o s)) as [IHo IHv].
  split; intros H; [apply IHo, Ho, H|apply IHv, Hv, H].
Qed.

End Irrigation64Statistics.

(** X15. On binary64: with a [max_flow_rate] that is not below zero, after
    any history of calls on a fresh controller, whatever the arguments
    (values that are not numbers included), [max_flow_rate] is unchanged and
    neither [current_flow_rate < 0] nor [current_flow_rate > max_flow_rate]
    holds.  The flow need not be a number: on an active controller
    [set_flow_rate(nan)] passes the range guard, returns [True] and stores
    the NaN. *)
Theorem X15_flow_within_ceiling
    (id : string) (zones : Z) (max_flow : float)
    (calls : list IrrigationSystem64.op) :
  PrimFloat.ltb max_flow 0 = false ->
  let s := IrrigationSystem64.run calls
             (IrrigationSystem64.init id zones max_flow) in
  IrrigationSystem64.max_flow_rate s = max_flow
  /\ PrimFloat.ltb (IrrigationSystem64.current_flow_rate s) 0 = false
  /\ PrimFloat.ltb max_flow (IrrigationSystem64.current_flow_rate s) = false
  /\ (IrrigationSystem64.is_active s = true ->
      IrrigationSystem64.set_flow_rate s nan
      = (true,
         IrrigationSystem64.set_flow_pressure nan
           (IrrigationSystem64.current_pressure s) s)).
Proof.
  intros Hmax. cbv zeta.
  destruct (run64_in_range max_flow Hmax calls _
              (init64_in_range max_flow Hmax id zones))
    as (_ & Hm & Hlo & Hhi).
  split; [exact Hm|]. split; [exact Hlo|]. split; [exact Hhi|].
  intros Ha. unfold IrrigationSystem64.set_flow_rate.
  rewrite Ha, ltb_nan_l, ltb_nan_r. reflexivity.
Qed.

Lemma X15_flow_within_ceiling_witness :
  let s := IrrigationSystem64.run
             [IrrigationSystem64.OpStart IRR_AUTOMATIC;
              IrrigationSystem64.OpAutoIrrigate (fun _ => 0%float) 45%float]
             Scenario.irrigation64_fresh in
  PrimFloat.ltb (IrrigationSystem64.current_flow_rate s) 0 = false
  /\ PrimFloat.ltb 100 (IrrigationSystem64.current_flow_rate s) = false
  /\ IrrigationSystem64.current_flow_rate
       (snd (IrrigationSystem64.set_flow_rate s nan)) = nan.
Proof.
  cbv zeta.
  destruct (X15_flow_within_ceiling "IRR_001" 4 100%float
              [IrrigationSystem64.OpStart IRR_AUTOMATIC;
               IrrigationSystem64.OpAutoIrrigate (fun _ => 0%float) 45%float])
    as (_ & Hlo & Hhi & Hnan).
  - reflexivity.
  - split; [exact Hlo|]. split; [exact Hhi|].
    unfold Scenario.irrigation64_fresh. rewrite Hnan; reflexivity.
Defined.

(** X19. On binary64, on a controller whose zones are [1..num_zones]: a
    successful [open_zone] leaves the valve open and the flow at
    [min(max_flow_rate, k * (max_flow_rate / num_zones))], where [k], the
    number of open valves, is between 1 and [num_zones]; that flow is never
    above [max_flow_rate].  A successful [close_zone] leaves the valve
    closed and the flow at 0.0 if no valve is open and at the same [min]
    otherwise.  The [min] matters: the product rounds above the ceiling
    with 11 zones of 100.0 all open. *)
Theorem X19_flow_is_min_of_ceiling_and_shares
    (jitter : float) (s : IrrigationSystem64.t) (z : Z) :
  IrrigationSystem64.zones_wf s ->
  let count s' :=
    IrrigationSystem.active_zones (IrrigationSystem64.zones_status s') in
  let shares k :=
    (B64.of_int k
     * (IrrigationSystem64.max_flow_rate s
        / B64.of_int (IrrigationSystem64.num_zones s)))%float in
  (fst (IrrigationSystem64.open_zone jitter s z) = true ->
   let s' := snd (IrrigationSystem64.open_zone jitter s z) in
   IrrigationSystem64.zones_status s' !! z = Some true
   /\ 1 <= count s' <= IrrigationSystem64.num_zones s
   /\ IrrigationSystem64.current_flow_rate s'
      = B64.min (IrrigationSystem64.max_flow_rate s) (shares (count s'))
   /\ PrimFloat.ltb (IrrigationSystem64.max_flow_rate s)
        (IrrigationSystem64.current_flow_rate s') = false)
  /\ (fst (IrrigationSystem64.close_zone jitter s z) = true ->
      let s' := snd (IrrigationSystem64.close_zone jitter s z) in
      IrrigationSystem64.zones_status s' !! z = Some false
      /\ 0 <= count s' <= IrrigationSystem64.num_zones s
      /\ IrrigationSystem64.current_flow_rate s'
         = (if count s' =? 0 then 0%float
            else B64.min (IrrigationSystem64.max_flow_rate s)
                         (shares (count s')))).
Proof.
  intros Hwf. cbv zeta. split.
  - unfold IrrigationSystem64.open_zone.
    destruct (IrrigationSystem64.is_active s); simpl; [|discriminate].
    destruct (IrrigationSystem64.unknown_zone s z) eqn:Hu; simpl; [discriminate|].
    intros _.
    set (s1 := IrrigationSystem64.set_zones_status
                 (<[z := true]> (IrrigationSystem64.zones_status s)) s).
    assert (Hwf1 : IrrigationSystem64.zones_wf s1)
      by (apply insert_known_wf64; assumption).
    assert (Hopen : IrrigationSystem64.zones_status s1 !! z = Some true)
      by (simpl; apply lookup_insert_eq).
    pose proof (active_zones_has_open _ _ Hopen) as Hk1.
    pose proof (active_zones_le_size (IrrigationSystem64.zones_status s1)) as Hk2.
    rewrite (zones_wf64_size s1 Hwf1) in Hk2.
    unfold IrrigationSystem64._update_flow_and_pressure.
    destruct (IrrigationSystem.active_zones
                (IrrigationSystem64.zones_status s1) =? 0) eqn:E;
      [apply Z.eqb_eq in E; lia|].
    simpl. split; [apply lookup_insert_eq|].
    split; [simpl in Hk1, Hk2; lia|].
    split; [reflexivity|]. apply min_not_above.
  - unfold IrrigationSystem64.close_zone.
    destruct (IrrigationSystem64.unknown_zone s z) eqn:Hu; simpl; [discriminate|].
    intros _.
    set (s1 := IrrigationSystem64.set_zones_status
                 (<[z := false]> (IrrigationSystem64.zones_status s)) s).
    assert (Hwf1 : IrrigationSystem64.zones_wf s1)
      by (apply insert_known_wf64; assumption).
    pose proof (active_zones_le_size (IrrigationSystem64.zones_status s1)) as Hk2.
    rewrite (zones_wf64_size s1 Hwf1) in Hk2.
    assert (Hin : is_Some (IrrigationSystem64.zones_status s !! z))
      by (apply unknown_zone64_false; exact Hu).
    apply Hwf in Hin.
    unfold IrrigationSystem64._update_flow_and_pressure.
    destruct (IrrigationSystem.active_zones
                (IrrigationSystem64.zones_status s1) =? 0) eqn:E; simpl.
    + split; [apply lookup_insert_eq|].
      split; [simpl in Hk2; lia|]. simpl in E. rewrite E. reflexivity.
    + split; [apply lookup_insert_eq|].
      split; [simpl in Hk2; lia|]. simpl in E. rewrite E. reflexivity.
Qed.

Lemma X19_flow_is_min_of_ceiling_and_shares_witness :
  IrrigationSystem64.current_flow_rate
    (snd (IrrigationSystem64.open_zone 0%float Scenario.irrigation64_ten_open 11))
  = 100%float
  /\ PrimFloat.ltb 100 (B64.of_int 11 * (100 / B64.of_int 11))%float = true.
Proof.
  split; [|vm_compute; reflexivity].
  destruct (X19_flow_is_min_of_ceiling_and_shares
              0%float Scenario.irrigation64_ten_open 11) as [Hopen _].
  - apply (open_zones64_in_range 100%float eq_refl).
    apply (step64_in_range 100%float eq_refl
             (IrrigationSystem64.OpStart IRR_MANUAL)).
    apply (init64_in_range 100%float eq_refl).
  - destruct Hopen as (_ & _ & Hflow & _); [vm_compute; reflexivity|].
    rewrite Hflow. vm_compute. reflexivity.
Defined.

(** X20. On binary64: [operation_time], [total_volume] and
    [last_irrigation] are written by [irrigate_zone] alone.  Every other
    call, and [irrigate_zone] on an inactive controller, leaves them as they
    are; [irrigate_zone] on an active controller adds the duration to
    [operation_time] and the product of the flow after [open_zone] and the
    duration to [total_volume], whatever the zone and the duration, and
    stamps [last_irrigation].  Nothing resets them: an [operation_time] or a
    [total_volume] that is not a number stays so through every later
    call. *)
Theorem X20_statistics_written_by_irrigate_zone_only
    (s : IrrigationSystem64.t) :
  (forall o : IrrigationSystem64.op,
      IrrigationSystem64.not_irrigate_zone o ->
      IrrigationSystem64.statistics (IrrigationSystem64.step o s)
      = IrrigationSystem64.statistics s)
  /\ (forall (now : Q) (jitter_open jitter_close : float) (z : Z) (d : float),
        let s' := IrrigationSystem64.irrigate_zone
                    now jitter_open jitter_close s z d in
        (IrrigationSystem64.is_active s = false -> s' = s)
        /\ (IrrigationSystem64.is_active s = true ->
            IrrigationSystem64.operation_time s'
            = (IrrigationSystem64.operation_time s + d)%float
            /\ IrrigationSystem64.total_volume s'
               = (IrrigationSystem64.total_volume s
                  + IrrigationSystem64.current_flow_rate
                      (snd (IrrigationSystem64.open_zone jitter_open s z))
                    * d)%float
            /\ IrrigationSystem64.last_irrigation s' = Some now))
  /\ (forall calls : list IrrigationSystem64.op,
        (IrrigationSystem64.operation_time s = nan ->
         IrrigationSystem64.operation_time (IrrigationSystem64.run calls s) = nan)
        /\ (IrrigationSystem64.total_volume s = nan ->
            IrrigationSystem64.total_volume (IrrigationSystem64.run calls s) = nan)).
Proof.
  split; [intros o Ho; apply step64_statistics; exact Ho|].
  split; [|intros calls; apply run64_nan_statistics].
  intros now jitter_open jitter_close z d. cbv zeta. split.
  - intros Ha. unfold IrrigationSystem64.irrigate_zone. rewrite Ha. reflexivity.
  - intros Ha.
    pose proof (irrigate_zone64_statistics now jitter_open jitter_close s z d Ha)
      as H.
    unfold IrrigationSystem64.statistics in H. injection H as H1 H2 H3.
    repeat split; assumption.
Qed.

Lemma X20_statistics_written_by_irrigate_zone_only_witness :
  IrrigationSystem64.total_volume Scenario.irrigation64_nan_volume = nan
  /\ IrrigationSystem64.total_volume
       (IrrigationSystem64.run
          [IrrigationSystem64.OpOpenZone 0%float 1;
           IrrigationSystem64.OpIrrigateZone 2%Q 0%float 0%float 1 5%float;
           IrrigationSystem64.OpStop]
          Scenario.irrigation64_nan_volume) = nan.
Proof.
  assert (Hnan : IrrigationSystem64.total_volume Scenario.irrigation64_nan_volume
                 = nan) by (vm_compute; reflexivity).
  split; [exact Hnan|].
  destruct (X20_statistics_written_by_irrigate_zone_only
              Scenario.irrigation64_nan_volume) as (_ & _ & Hrun).
  destruct (Hrun [IrrigationSystem64.OpOpenZone 0%float 1;
                  IrrigationSystem64.OpIrrigateZone 2%Q 0%float 0%float 1 5%float;
                  IrrigationSystem64.OpStop]) as [_ Hv].
  apply Hv. exact Hnan.
Defined.


(** ** Fertilization: what every history of calls preserves *)

Section FertilizerInvariants.

Import FertilizerSystem.

(** A successful [apply], field by field. *)
Lemma apply_returns (now : Q) (s : t) (fert : FertilizerType) (a : Q) :
  is_active s = true ->
  current_fertilizer s = Some fert ->
  ~ (application_rate s == 0)%Q ->
  let short := Py.Qltb (tank_level s) (application_rate s * a)%Q in
  let amount := if short then tank_level s else (application_rate s * a)%Q in
  let area := if short then (tank_level s / application_rate s)%Q else a in
  let s' := snd (apply now s a) in
  (exists r, fst (apply now s a) = Return r
             /\ fertilizer_type r = FertilizerType_value fert)
  /\ tank_level s' = (tank_level s - amount)%Q
  /\ total_applied s' = (total_applied s + amount)%Q
  /\ area_covered s' = (area_covered s + area)%Q
  /\ applications_count s' = applications_count s + 1
  /\ last_application s' = Some now
  /\ current_fertilizer s' = current_fertilizer s
  /\ application_rate s' = application_rate s
  /\ is_active s' = is_active s
  /\ mode s' = mode s
  /\ tank_capacity s' = tank_capacity s
  /\ max_rate s' = max_rate s
  /\ target_npk s' = target_npk s.
Proof.
  intros Ha Hf Hr. cbv zeta. unfold apply. rewrite Ha, Hf. cbn [negb].
  destruct (Qeq_bool (application_rate s) 0) eqn:E0.
  { apply Qeq_bool_iff in E0. contradiction. }
  simpl. split; [eexists; split; reflexivity|]. repeat split; assumption.
Qed.

(** A failed [apply] changes nothing, and [apply] fails exactly on an
    inactive controller, an empty product slot or a zero rate. *)
Lemma apply_raises (now : Q) (s : t) (a : Q) (e : RuntimeError) :
  fst (apply now s a) = Raise e ->
  snd (apply now s a) = s
  /\ match e with
     | NotActive => is_active s = false
     | NoProductLoaded => is_active s = true /\ current_fertilizer s = None
     | ZeroRate =>
         is_active s = true /\ current_fertilizer s <> None
         /\ (application_rate s == 0)%Q
     end.
Proof.
  unfold apply.
  destruct (is_active s) eqn:Ha; simpl.
  - destruct (current_fertilizer s) as [fert|] eqn:Hf; simpl.
    + destruct (Qeq_bool (application_rate s) 0) eqn:E0; simpl.
      * intros [= <-]. split; [reflexivity|].
        apply Qeq_bool_iff in E0. repeat split; [discriminate|exact E0].
      * discriminate.
    + intros [= <-]. repeat split.
  - intros [= <-]. repeat split.
Qed.

Lemma apply_consistent (now : Q) (s : t) (a : Q) :
  consistent s -> (0 <= a)%Q -> consistent (snd (apply now s a)).
Proof.
  intros Hc Ha.
  destruct (fst (apply now s a)) as [r|e] eqn:E.
  - destruct (is_active s) eqn:Hact;
      [|unfold apply in E; rewrite Hact in E; discriminate].
    destruct (current_fertilizer s) as [fert|] eqn:Hf;
      [|unfold apply in E; rewrite Hact, Hf in E; discriminate].
    assert (Hr : ~ (application_rate s == 0)%Q).
    { intros H0. apply Qeq_bool_iff in H0.
      unfold apply in E. rewrite Hact, Hf, H0 in E. discriminate. }
    destruct (apply_returns now s fert a Hact Hf Hr)
      as (_ & Ht & Hta & Hac & Hn & _ & _ & Hrate & _ & _ & Hcap & Hmr & _).
    destruct Hc as ((Ht0 & Ht1) & (Hr0 & Hr1) & Hta0 & Hac0 & Hn0).
    unfold consistent. rewrite Ht, Hta, Hac, Hn, Hrate, Hcap, Hmr.
    assert (Hpos : (0 < application_rate s)%Q) by lra.
    destruct (Py.Qltb (tank_level s) (application_rate s * a)) eqn:Es.
    + assert (Harea : (0 <= tank_level s / application_rate s)%Q).
      { unfold Qdiv. apply Qmult_le_0_compat; [exact Ht0|].
        apply Qinv_le_0_compat. lra. }
      repeat split; try lra; lia.
    + apply Qltb_false in Es.
      assert (Hreq : (0 <= application_rate s * a)%Q)
        by (apply Qmult_le_0_compat; assumption).
      repeat split; try lra; lia.
  - destruct (apply_raises now s a e E) as [Hs _]. rewrite Hs. exact Hc.
Qed.

Lemma apply_idle_ok (now : Q) (s : t) (a : Q) :
  idle_ok s -> idle_ok (snd (apply now s a)).
Proof.
  intros Hi. destruct (fst (apply now s a)) as [r|e] eqn:E.
  - destruct (is_active s) eqn:Hact;
      [|unfold apply in E; rewrite Hact in E; discriminate].
    intros Hoff. exfalso. revert Hoff.
    unfold apply. rewrite Hact. simpl.
    destruct (current_fertilizer s); simpl; [|congruence].
    destruct (Qeq_bool (application_rate s) 0); simpl; congruence.
  - destruct (apply_raises now s a e E) as [Hs _]. rewrite Hs. exact Hi.
Qed.

Lemma set_application_rate_consistent (s : t) (r : Q) :
  consistent s -> consistent (snd (set_application_rate s r)).
Proof.
  intros Hc. unfold set_application_rate.
  destruct (is_active s); simpl; [|exact Hc].
  destruct (Py.Qltb r 0) eqn:E0; simpl; [exact Hc|].
  destruct (Py.Qltb (max_rate s) r) eqn:E1; simpl; [exact Hc|].
  destruct (current_fertilizer s); simpl; [|exact Hc].
  apply Qltb_false in E0. apply Qltb_false in E1.
  destruct Hc as (Ht & _ & Hrest).
  split; [exact Ht|]. split; [simpl; split; assumption|exact Hrest].
Qed.

Lemma set_application_rate_idle_ok (s : t) (r : Q) :
  idle_ok s -> idle_ok (snd (set_application_rate s r)).
Proof.
  intros Hi. unfold set_application_rate.
  destruct (is_active s) eqn:Ha; simpl; [|exact Hi].
  destruct (Py.Qltb r 0 || Py.Qltb (max_rate s) r); simpl; [exact Hi|].
  destruct (current_fertilizer s); simpl; [|exact Hi].
  intros Hoff. simpl in Hoff. congruence.
Qed.

(** What [set_application_rate] leaves alone. *)
Lemma set_application_rate_frame (s : t) (r : Q) :
  let s' := snd (set_application_rate s r) in
  tank_level s' = tank_level s
  /\ total_applied s' = total_applied s
  /\ current_fertilizer s' = current_fertilizer s
  /\ is_active s' = is_active s
  /\ mode s' = mode s
  /\ tank_capacity s' = tank_capacity s
  /\ max_rate s' = max_rate s
  /\ target_npk s' = target_npk s.
Proof.
  unfold set_application_rate.
  destruct (is_active s) eqn:Ha; simpl; [|repeat split; congruence].
  destruct (Py.Qltb r 0 || Py.Qltb (max_rate s) r); simpl;
    [repeat split; congruence|].
  destruct (current_fertilizer s) eqn:Hf; simpl; repeat split; congruence.
Qed.

(** What [apply] leaves alone, whether it returns or raises. *)
Lemma apply_frame (now : Q) (s : t) (a : Q) :
  let s' := snd (apply now s a) in
  current_fertilizer s' = current_fertilizer s
  /\ is_active s' = is_active s
  /\ mode s' = mode s
  /\ tank_capacity s' = tank_capacity s
  /\ max_rate s' = max_rate s
  /\ target_npk s' = target_npk s.
Proof.
  cbv zeta. unfold apply.
  destruct (is_active s) eqn:Ha; simpl; [|repeat split; try reflexivity; congruence].
  destruct (current_fertilizer s) eqn:Hf; simpl;
    [|repeat split; try reflexivity; congruence].
  destruct (Qeq_bool (application_rate s) 0); simpl;
    [repeat split; try reflexivity; congruence|].
  repeat split; try reflexivity; try congruence.
Qed.

End FertilizerInvariants.

(** ** Fertilization: [variable_rate_apply] *)

Section VariableRate.

Import FertilizerSystem.

(** [recommend_fertilizer] returns the object it was given and reads only
    [target_npk] and [max_rate] from it. *)
Lemma recommend_reads (s s' : t) (npk : gmap string Q) :
  snd (recommend_fertilizer s npk) = s
  /\ (target_npk s' = target_npk s -> max_rate s' = max_rate s ->
      fst (recommend_fertilizer s' npk) = fst (recommend_fertilizer s npk)).
Proof.
  unfold recommend_fertilizer. split.
  - destruct (choose (deficits_of (target_npk s) npk)). reflexivity.
  - intros Ht Hm. rewrite Ht, Hm.
    destruct (choose (deficits_of (target_npk s) npk)). reflexivity.
Qed.

(** Every product name [recommend_fertilizer] can return is the value of a
    member of [FertilizerType] whose name is found by the lookup. *)
Lemma product_member (s : t) (npk : gmap string Q) :
  let product := recommended_fertilizer (fst (recommend_fertilizer s npk)) in
  String.eqb product "Nenhum" = false ->
  exists f,
    member_by_name
      (replace_char "-"%char "_"%char (replace_char " "%char "_"%char product))
    = Some f.
Proof.
  cbv zeta. unfold recommend_fertilizer, choose.
  destruct (Py.Qltb 10 (npk_N (deficits_of (target_npk s) npk)));
    [simpl; intros _; eexists; vm_compute; reflexivity|].
  destruct (Py.Qltb 10 (npk_P (deficits_of (target_npk s) npk)));
    [simpl; intros _; eexists; vm_compute; reflexivity|].
  destruct (Py.Qltb 10 (npk_K (deficits_of (target_npk s) npk)));
    [simpl; intros _; eexists; vm_compute; reflexivity|].
  destruct (Py.Qltb 15 (sum_values (deficits_of (target_npk s) npk)));
    [simpl; intros _; eexists; vm_compute; reflexivity|].
  simpl. discriminate.
Qed.

(** One turn of the loop: the member lookup never fails. *)
Lemma loop_cons (clock : Z -> Q) (i : Z) (z : zone) (rest : list zone)
    (s : t) (results : list zone_result) :
  variable_rate_loop clock i (z :: rest) s results
  = if needs_correction s z then
      let recommendation := fst (recommend_fertilizer s (zone_npk z)) in
      let s1 :=
        snd (set_application_rate s (recommended_rate_kg_ha recommendation)) in
      match apply (clock i) s1 (zone_area z) with
      | (Raise e, s2) => (Raise (VRRuntimeError e), s2)
      | (Return result, s2) =>
          variable_rate_loop clock (i + 1) rest s2
            (results ++ [mk_zone_result result i recommendation])
      end
    else variable_rate_loop clock (i + 1) rest s results.
Proof.
  cbn [variable_rate_loop]. unfold needs_correction.
  destruct (recommend_reads s s (zone_npk z)) as [Hs _].
  destruct (recommend_fertilizer s (zone_npk z)) as [recommendation s0] eqn:Erec.
  simpl in Hs. subst s0. cbn [fst].
  destruct (String.eqb (recommended_fertilizer recommendation) "Nenhum") eqn:En;
    cbn [negb]; [reflexivity|].
  pose proof (product_member s (zone_npk z)) as Hmem.
  cbv zeta in Hmem. rewrite Erec in Hmem. cbn [fst] in Hmem.
  destruct (Hmem En) as [f Hf]. rewrite Hf. reflexivity.
Qed.

(** What the loop leaves alone, whether it returns or raises. *)
Lemma loop_frame (clock : Z -> Q) (zones : list zone) :
  forall (i : Z) (s : t) (results : list zone_result),
    let s' := snd (variable_rate_loop clock i zones s results) in
    current_fertilizer s' = current_fertilizer s
    /\ is_active s' = is_active s
    /\ mode s' = mode s
    /\ tank_capacity s' = tank_capacity s
    /\ max_rate s' = max_rate s
    /\ target_npk s' = target_npk s.
Proof.
  induction zones as [|z rest IH]; intros i s results.
  - simpl. repeat split.
  - cbv zeta. rewrite loop_cons.
    destruct (needs_correction s z); [|apply IH].
    cbv zeta.
    set (s1 := snd (set_application_rate s _)).
    destruct (set_application_rate_frame s
                (recommended_rate_kg_ha (fst (recommend_fertilizer s (zone_npk z)))))
      as (Ht1 & Ha1 & Hf1 & Hact1 & Hm1 & Hc1 & Hr1 & Hn1).
    fold s1 in Ht1, Ha1, Hf1, Hact1, Hm1, Hc1, Hr1, Hn1.
    destruct (apply_frame (clock i) s1 (zone_area z))
      as (Hf2 & Hact2 & Hm2 & Hc2 & Hr2 & Hn2).
    destruct (apply (clock i) s1 (zone_area z)) as [[result|e] s2]; simpl in *.
    + destruct (IH (i + 1) s2
                  (results ++ [mk_zone_result result i
                                 (fst (recommend_fertilizer s (zone_npk z)))]))
        as (Hf3 & Hact3 & Hm3 & Hc3 & Hr3 & Hn3).
      repeat split; congruence.
    + repeat split; congruence.
Qed.

Lemma loop_consistent (clock : Z -> Q) (zones : list zone) :
  forall (i : Z) (s : t) (results : list zone_result),
    consistent s ->
    Forall (fun z => 0 <= zone_area z)%Q zones ->
    consistent (snd (variable_rate_loop clock i zones s results)).
Proof.
  induction zones as [|z rest IH]; intros i s results Hc Hz.
  - exact Hc.
  - apply Forall_cons in Hz. destruct Hz as [Hz Hrest].
    rewrite loop_cons.
    destruct (needs_correction s z); [|apply IH; assumption].
    cbv zeta.
    set (s1 := snd (set_application_rate s _)).
    assert (Hc1 : consistent s1) by (apply set_application_rate_consistent; exact Hc).
    pose proof (apply_consistent (clock i) s1 (zone_area z) Hc1 Hz) as Hc2.
    destruct (apply (clock i) s1 (zone_area z)) as [[result|e] s2]; simpl in *.
    + apply IH; assumption.
    + exact Hc2.
Qed.

Lemma loop_idle_ok (clock : Z -> Q) (zones : list zone) :
  forall (i : Z) (s : t) (results : list zone_result),
    idle_ok s -> idle_ok (snd (variable_rate_loop clock i zones s results)).
Proof.
  induction zones as [|z rest IH]; intros i s results Hi.
  - exact Hi.
  - rewrite loop_cons.
    destruct (needs_correction s z); [|apply IH; assumption].
    cbv zeta.
    set (s1 := snd (set_application_rate s _)).
    assert (Hi1 : idle_ok s1) by (apply set_application_rate_idle_ok; exact Hi).
    pose proof (apply_idle_ok (clock i) s1 (zone_area z) Hi1) as Hi2.
    destruct (apply (clock i) s1 (zone_area z)) as [[result|e] s2]; simpl in *.
    + apply IH; assumption.
    + exact Hi2.
Qed.



End VariableRate.

(** ** Fertilization: histories of calls *)

Section FertilizerRuns.

Import FertilizerSystem.

Lemma fertilizer_init_consistent (id : string) (capacity max_rate : Q) :
  (0 <= capacity)%Q -> (0 <= max_rate)%Q ->
  consistent (init id capacity max_rate) /\ idle_ok (init id capacity max_rate).
Proof.
  intros Hc Hm. split.
  - unfold consistent. simpl. repeat split; try lra; try lia; assumption.
  - intros _. split; reflexivity.
Qed.

Lemma step_consistent_fert (o : op) (s : t) :
  consistent s -> quantities_nonneg o -> consistent (step o s).
Proof.
  intros Hc Hq. destruct o; simpl in *.
  - exact Hc.
  - destruct Hc as (Ht & (Hr0 & Hr1) & Hrest).
    split; [exact Ht|]. split; [simpl; lra|exact Hrest].
  - unfold load_fertilizer. destruct (is_active s); simpl; [exact Hc|].
    destruct (Py.Qltb (tank_capacity s) amount) eqn:E; simpl; [exact Hc|].
    apply Qltb_false in E. destruct Hc as (_ & Hrest).
    split; [simpl; split; assumption|exact Hrest].
  - apply set_application_rate_consistent. exact Hc.
  - apply apply_consistent; assumption.
  - destruct (recommend_reads s s current_npk) as [Hs _]. rewrite Hs. exact Hc.
  - unfold variable_rate_apply.
    destruct (mode s); try exact Hc.
    apply loop_consistent; assumption.
Qed.

Lemma step_idle_ok (o : op) (s : t) : idle_ok s -> idle_ok (step o s).
Proof.
  intros Hi. destruct o; simpl.
  - intros Hoff. simpl in Hoff. discriminate.
  - intros _. split; reflexivity.
  - unfold load_fertilizer. destruct (is_active s) eqn:Ha; simpl; [exact Hi|].
    destruct (Py.Qltb (tank_capacity s) amount); simpl; [exact Hi|].
    intros _. simpl. apply Hi. exact Ha.
  - apply set_application_rate_idle_ok. exact Hi.
  - apply apply_idle_ok. exact Hi.
  - destruct (recommend_reads s s current_npk) as [Hs _]. rewrite Hs. exact Hi.
  - unfold variable_rate_apply.
    destruct (mode s); try exact Hi.
    apply loop_idle_ok. exact Hi.
Qed.

(** The constructor arguments are never changed. *)
Lemma step_limits (o : op) (s : t) :
  tank_capacity (step o s) = tank_capacity s /\ max_rate (step o s) = max_rate s.
Proof.
  destruct o; simpl; try (split; reflexivity).
  - unfold load_fertilizer. destruct (is_active s); simpl; [split; reflexivity|].
    destruct (Py.Qltb (tank_capacity s) amount); split; reflexivity.
  - destruct (set_application_rate_frame s rate) as (_ & _ & _ & _ & _ & Hc & Hm & _).
    split; assumption.
  - destruct (apply_frame now s area) as (_ & _ & _ & Hc & Hm & _).
    split; assumption.
  - destruct (recommend_reads s s current_npk) as [Hs _]. rewrite Hs.
    split; reflexivity.
  - unfold variable_rate_apply.
    destruct (mode s); try (split; reflexivity).
    destruct (loop_frame clock zones 1 s []) as (_ & _ & _ & Hc & Hm & _).
    split; assumption.
Qed.

Lemma run_limits (calls : list op) (s : t) :
  tank_capacity (run calls s) = tank_capacity s
  /\ max_rate (run calls s) = max_rate s.
Proof.
  revert s. induction calls as [|o calls IH]; intros s; simpl; [split; reflexivity|].
  destruct (IH (step o s)) as [Hc Hm]. destruct (step_limits o s) as [Hc' Hm'].
  split; congruence.
Qed.

Lemma run_consistent_fert (calls : list op) (s : t) :
  consistent s -> Forall quantities_nonneg calls -> consistent (run calls s).
Proof.
  revert s. induction calls as [|o calls IH]; intros s Hc Hq; simpl; [exact Hc|].
  apply Forall_cons in Hq. destruct Hq as [Ho Hrest].
  apply IH; [|exact Hrest]. apply step_consistent_fert; assumption.
Qed.

Lemma run_idle_ok (calls : list op) (s : t) :
  idle_ok s -> idle_ok (run calls s).
Proof.
  revert s. induction calls as [|o calls IH]; intros s Hi; simpl; [exact Hi|].
  apply IH. apply step_idle_ok. exact Hi.
Qed.

End FertilizerRuns.

(** X22. With a tank capacity and a maximum rate between 0 and some bound,
    after any history of calls on a fresh controller whose loaded amounts,
    requested rates and applied areas are between 0 and that bound (finite
    numbers, then), the tank level is between 0 and the capacity, the
    application rate between 0 and the maximum rate, and the applied total
    and the covered area are not negative. *)
Theorem X22_tank_and_rate_within_limits
    (id : string) (capacity max_rate bound : Q)
    (calls : list FertilizerSystem.op) :
  (0 <= capacity <= bound)%Q -> (0 <= max_rate <= bound)%Q ->
  Forall (FertilizerSystem.quantities_in_range bound) calls ->
  let s := FertilizerSystem.run calls (FertilizerSystem.init id capacity max_rate) in
  (0 <= FertilizerSystem.tank_level s <= capacity)%Q
  /\ (0 <= FertilizerSystem.application_rate s <= max_rate)%Q
  /\ (0 <= FertilizerSystem.total_applied s)%Q
  /\ (0 <= FertilizerSystem.area_covered s)%Q.
Proof.
  intros [Hc _] [Hm _] Hb. cbv zeta.
  assert (Hq : Forall FertilizerSystem.quantities_nonneg calls).
  { eapply Forall_impl; [exact Hb|]. intros o Ho.
    destruct o; simpl in *; try exact I; try apply Ho.
    eapply Forall_impl; [exact Ho|]. intros z Hz. apply Hz. }
  destruct (fertilizer_init_consistent id capacity max_rate Hc Hm) as [Hi _].
  destruct (run_consistent_fert calls _ Hi Hq) as (Ht & Hr & Hta & Hac & _).
  destruct (run_limits calls (FertilizerSystem.init id capacity max_rate))
    as [Hcap Hmax].
  simpl in Hcap, Hmax. rewrite Hcap in Ht. rewrite Hmax in Hr.
  repeat split; try apply Ht; try apply Hr; assumption.
Qed.

Lemma X22_tank_and_rate_within_limits_witness :
  let s :=
    FertilizerSystem.run
      [FertilizerSystem.OpLoadFertilizer NPK_15_15_15 300%Q;
       FertilizerSystem.OpStart APP_MANUAL;
       FertilizerSystem.OpSetApplicationRate 80%Q;
       FertilizerSystem.OpApply 1%Q 5%Q]
      Scenario.fertilizer_fresh in
  (0 <= FertilizerSystem.tank_level s <= 500)%Q
  /\ (0 <= FertilizerSystem.application_rate s <= 200)%Q.
Proof.
  cbv zeta.
  destruct (X22_tank_and_rate_within_limits "FERT_001" 500%Q 200%Q 500%Q
              [FertilizerSystem.OpLoadFertilizer NPK_15_15_15 300%Q;
               FertilizerSystem.OpStart APP_MANUAL;
               FertilizerSystem.OpSetApplicationRate 80%Q;
               FertilizerSystem.OpApply 1%Q 5%Q]) as (Ht & Hr & _).
  - split; vm_compute; discriminate.
  - split; vm_compute; discriminate.
  - repeat constructor; vm_compute; discriminate.
  - split; assumption.
Defined.

(** X23. After any history of calls on a fresh controller, an inactive
    controller is in mode OFF with a zero application rate. *)
Theorem X23_inactive_means_zero_rate
    (id : string) (capacity max_rate : Q) (calls : list FertilizerSystem.op) :
  let s := FertilizerSystem.run calls (FertilizerSystem.init id capacity max_rate) in
  FertilizerSystem.is_active s = false ->
  FertilizerSystem.mode s = APP_OFF
  /\ FertilizerSystem.application_rate s = 0%Q.
Proof.
  cbv zeta. apply run_idle_ok. intros _. split; reflexivity.
Qed.

Lemma X23_inactive_means_zero_rate_witness :
  FertilizerSystem.application_rate
    (FertilizerSystem.run
       [FertilizerSystem.OpLoadFertilizer NPK_15_15_15 300%Q;
        FertilizerSystem.OpStart APP_MANUAL;
        FertilizerSystem.OpSetApplicationRate 80%Q;
        FertilizerSystem.OpStop;
        FertilizerSystem.OpSetApplicationRate 50%Q]
       Scenario.fertilizer_fresh) = 0%Q.
Proof.
  apply (X23_inactive_means_zero_rate "FERT_001" 500%Q 200%Q
           [FertilizerSystem.OpLoadFertilizer NPK_15_15_15 300%Q;
            FertilizerSystem.OpStart APP_MANUAL;
            FertilizerSystem.OpSetApplicationRate 80%Q;
            FertilizerSystem.OpStop;
            FertilizerSystem.OpSetApplicationRate 50%Q]).
  reflexivity.
Defined.

(** ** Fertilization: rates, areas and zones *)

(** X25. Stopping forgets the rate: after [stop()] and a new [start(mode)]
    the tank, the product and the totals are those before, but [apply]
    raises the zero-rate error and changes nothing until
    [set_application_rate] has been called again with a rate in
    [(0, max_rate]], after which it returns. *)
Theorem X25_restart_needs_rate_again
    (now : Q) (s : FertilizerSystem.t) (fert : FertilizerType)
    (mode : ApplicationMode) (r a : Q) :
  FertilizerSystem.current_fertilizer s = Some fert ->
  (0 < r <= FertilizerSystem.max_rate s)%Q ->
  let s1 := FertilizerSystem.start (FertilizerSystem.stop s) mode in
  let s2 := snd (FertilizerSystem.set_application_rate s1 r) in
  FertilizerSystem.tank_level s1 = FertilizerSystem.tank_level s
  /\ FertilizerSystem.total_applied s1 = FertilizerSystem.total_applied s
  /\ FertilizerSystem.apply now s1 a = (Raise FertilizerSystem.ZeroRate, s1)
  /\ fst (FertilizerSystem.set_application_rate s1 r) = true
  /\ exists result, fst (FertilizerSystem.apply now s2 a) = Return result.
Proof.
  intros Hf [Hr0 Hr1]. cbv zeta.
  split; [reflexivity|]. split; [reflexivity|]. split.
  - unfold FertilizerSystem.apply. simpl. rewrite Hf. reflexivity.
  - unfold FertilizerSystem.set_application_rate. simpl.
    assert (E0 : Py.Qltb r 0 = false) by (apply Qltb_false; lra).
    assert (E1 : Py.Qltb (FertilizerSystem.max_rate s) r = false)
      by (apply Qltb_false; exact Hr1).
    rewrite E0, E1, Hf. simpl. split; [reflexivity|].
    unfold FertilizerSystem.apply. simpl. rewrite Hf.
    destruct (Qeq_bool r 0) eqn:E.
    + apply Qeq_bool_iff in E. lra.
    + eexists. reflexivity.
Qed.

Lemma X25_restart_needs_rate_again_witness :
  let s1 := FertilizerSystem.start
              (FertilizerSystem.stop Scenario.fertilizer_rate80) APP_MANUAL in
  FertilizerSystem.apply 1%Q s1 5%Q = (Raise FertilizerSystem.ZeroRate, s1).
Proof.
  cbv zeta.
  destruct (X25_restart_needs_rate_again 1%Q Scenario.fertilizer_rate80
              NPK_15_15_15 APP_MANUAL 80%Q 5%Q) as (_ & _ & Hz & _).
  - reflexivity.
  - split; [reflexivity|vm_compute; discriminate].
  - exact Hz.
Defined.



Section VariableRateResults.

Import FertilizerSystem.

Lemma loop_no_key_error (clock : Z -> Q) (zones : list zone) :
  forall (i : Z) (s : t) (results : list zone_result) (name : string),
    fst (variable_rate_loop clock i zones s results) <> Raise (VRKeyError name).
Proof.
  induction zones as [|z rest IH]; intros i s results name.
  - simpl. discriminate.
  - rewrite loop_cons.
    destruct (needs_correction s z); [|apply IH].
    cbv zeta.
    destruct (apply (clock i) _ (zone_area z)) as [[result|e] s2]; simpl.
    + apply IH.
    + discriminate.
Qed.




End VariableRateResults.

(** X27. [variable_rate_apply] never raises the [KeyError] of its member
    lookup: every product name [recommend_fertilizer] can return, with
    spaces and dashes replaced by underscores, is the name of a member of
    [FertilizerType]. *)
Theorem X27_variable_rate_never_key_error
    (clock : Z -> Q) (s : FertilizerSystem.t)
    (zones : list FertilizerSystem.zone) (name : string) :
  fst (FertilizerSystem.variable_rate_apply clock s zones)
  <> Raise (FertilizerSystem.VRKeyError name).
Proof.
  unfold FertilizerSystem.variable_rate_apply.
  destruct (FertilizerSystem.mode s); try (simpl; discriminate).
  apply loop_no_key_error.
Qed.



(** X29. [variable_rate_apply] never loads the product it recommends: after
    the call, returned or raised, the loaded product, the mode, the activity
    and the tank capacity are those before.  Outside variable-rate mode it
    returns the empty list and changes nothing at all. *)
Theorem X29_variable_rate_keeps_loaded_product
    (clock : Z -> Q) (s : FertilizerSystem.t) (zones : list FertilizerSystem.zone) :
  let s' := snd (FertilizerSystem.variable_rate_apply clock s zones) in
  FertilizerSystem.current_fertilizer s' = FertilizerSystem.current_fertilizer s
  /\ FertilizerSystem.mode s' = FertilizerSystem.mode s
  /\ FertilizerSystem.is_active s' = FertilizerSystem.is_active s
  /\ FertilizerSystem.tank_capacity s' = FertilizerSystem.tank_capacity s
  /\ (FertilizerSystem.mode s <> APP_VARIABLE_RATE ->
      FertilizerSystem.variable_rate_apply clock s zones = (Return [], s)).
Proof.
  cbv zeta. unfold FertilizerSystem.variable_rate_apply.
  destruct (FertilizerSystem.mode s) eqn:Hmode;
    try (simpl; repeat split; solve [reflexivity | assumption]).
  destruct (loop_frame clock zones 1 s []) as (Hf & Ha & Hm & Hc & _).
  rewrite Hmode in Hm. repeat split; try assumption. congruence.
Qed.

Lemma X29_variable_rate_keeps_loaded_product_witness :
  FertilizerSystem.variable_rate_apply (fun _ => 0%Q)
    Scenario.fertilizer_rate80 Scenario.three_zones
  = (Return [], Scenario.fertilizer_rate80)
  /\ FertilizerSystem.current_fertilizer
       (snd (FertilizerSystem.variable_rate_apply (fun _ => 0%Q)
               Scenario.fertilizer_variable_rate Scenario.three_zones))
     = Some NPK_15_15_15.
Proof.
  destruct (X29_variable_rate_keeps_loaded_product (fun _ => 0%Q)
              Scenario.fertilizer_rate80 Scenario.three_zones)
    as (_ & _ & _ & _ & Hmanual).
  destruct (X29_variable_rate_keeps_loaded_product (fun _ => 0%Q)
              Scenario.fertilizer_variable_rate Scenario.three_zones)
    as (Hproduct & _).
  split; [apply Hmanual; discriminate|exact Hproduct].
Defined.
